(** * expo-pipeline: fallback orchestration, data fusion and consolidation

    A shallow embedding of the enrichment pipeline's JavaScript modules

      - [modules/job-scraper-fallback.js]      ([JobScraperFallback])
      - [modules/funding-scraper-fallback.js]  ([FundingScraperFallback])
      - [modules/job-analyzer-enhanced.js]     ([JobAnalyzerEnhanced])
      - [modules/funding-analyzer-enhanced.js] ([FundingAnalyzerEnhanced])
      - [modules/funding-analyzer-integrated.js] (the fallback steps of its
        later revision of the job analyzer, [JobAnalyzerIntegrated])
      - [modules/employee-analyzer.js]         ([EmployeeAnalyzer])
      - [modules/consolidator.js]              ([Consolidator])

    and of the loop of [ExpoPipeline.run] ([Pipeline]), followed by the
    properties of the specification that concern them.  Further parts of
    the same files are embedded after these: [isJobRecent] ([Recency]), the
    page scrapers of the two fallback modules ([JobPages], [FundingPages]),
    the report of the employee stage ([EmployeeReport]) and its range
    check with both patterns ([TargetRange]),
    [ExpoPipeline.getPipelineStages] ([ExpoPipeline]) and the name of the
    results file ([OutputFile]).

    Conventions.  A company record is a JavaScript object: an
    insertion-ordered list of (key, value) pairs.  JavaScript numbers are
    IEEE-754 binary64 values ([PrimFloat.float]), so the confidence
    arithmetic is the one node performs; strings are byte strings, compared
    and lowered as ASCII.  Everything the code obtains from outside is a
    parameter: the answers of the primary API and of each scraped page
    (functions of the [tick] at which the request is made), and the
    ECMAScript conversions between numbers, dates and strings together with
    the clock ([runtime]).  Theorems hold for all of them.  Console logging,
    the inter-company [delay] and the summary counters of [this.results]
    have no influence on the company records and are left out of the stage
    models; [EmployeeReport] follows the counters of the employee stage. *)

From Stdlib Require Import List String Ascii Bool Arith ZArith Lia.
From Stdlib Require Import PrimFloat Uint63.
From Stdlib Require Import Sorting.Mergesort Sorting.Sorted Sorting.Permutation.
From Stdlib Require Import DecimalString.
Import ListNotations.

Set Warnings "-inexact-float".
Local Open Scope string_scope.
Local Open Scope list_scope.

(* ================================================================== *)
(** * JavaScript values, objects and string primitives *)
(* ================================================================== *)

Module JS.

(** The values that occur in company records: [undefined], [null],
    booleans, numbers, strings and arrays of strings (the [data_sources]
    lists). *)
Inductive value : Type :=
  | VUndef
  | VNull
  | VBool (b : bool)
  | VNum (x : float)
  | VStr (s : string)
  | VArr (l : list string).

(** An object is an insertion-ordered list of properties. *)
Definition object : Type := list (string * value).

(** [o.k] / [o[k]]: the first binding of [k], [undefined] when absent. *)
Fixpoint get (k : string) (o : object) : value :=
  match o with
  | [] => VUndef
  | (k', v) :: o' => if String.eqb k k' then v else get k o'
  end.

(** [o.k = v]: overwrite in place, or append a new property. *)
Fixpoint set (k : string) (v : value) (o : object) : object :=
  match o with
  | [] => [(k, v)]
  | (k', v') :: o' =>
      if String.eqb k k' then (k, v) :: o' else (k', v') :: set k v o'
  end.

(** [Object.keys(o)]. *)
Definition keys (o : object) : list string := map fst o.

Definition is_nan (x : float) : bool := negb (PrimFloat.eqb x x).

(** ToBoolean. *)
Definition truthy (v : value) : bool :=
  match v with
  | VUndef | VNull => false
  | VBool b => b
  | VNum x => negb (PrimFloat.eqb x 0%float || is_nan x)
  | VStr s => negb (String.eqb s "")
  | VArr _ => true
  end.

(** [a || b] on values. *)
Definition or_else (a b : value) : value := if truthy a then a else b.

(** Strict equality [v === "s"] against a string literal. *)
Definition is_str (v : value) (s : string) : bool :=
  match v with VStr s' => String.eqb s' s | _ => false end.

(** Strict equality [v === true]. *)
Definition is_literal_true (v : value) : bool :=
  match v with VBool true => true | _ => false end.

(** [n] as a JavaScript number (exact below 2^53). *)
Definition of_nat (n : nat) : float :=
  PrimFloat.of_uint63 (Uint63.of_Z (Z.of_nat n)).

(** ** Strings *)

(** [xs.join(sep)] for an array of strings. *)
Definition join (sep : string) (xs : list string) : string :=
  String.concat sep xs.

(** [s.includes(sub)]. *)
Fixpoint includes (s sub : string) : bool :=
  String.prefix sub s ||
  match s with
  | EmptyString => false
  | String _ s' => includes s' sub
  end.

Definition lower_ascii (c : ascii) : ascii :=
  let n := nat_of_ascii c in
  if Nat.leb 65 n && Nat.leb n 90 then ascii_of_nat (n + 32) else c.

(** [s.toLowerCase()], on the ASCII letters; strings are byte strings and
    bytes outside ASCII are left as they are. *)
Fixpoint toLowerCase (s : string) : string :=
  match s with
  | EmptyString => EmptyString
  | String c s' => String (lower_ascii c) (toLowerCase s')
  end.

Fixpoint rev_string (acc s : string) : string :=
  match s with
  | EmptyString => acc
  | String c s' => rev_string (String c acc) s'
  end.

(** [s.split(sep)] for a non-empty separator: [skip] counts the characters
    of a separator occurrence still to be dropped, [cur] is the current
    piece, reversed. *)
Fixpoint split_from (sep : string) (skip : nat) (cur s : string)
  : list string :=
  match s with
  | EmptyString => [rev_string "" cur]
  | String c s' =>
      match skip with
      | S k => split_from sep k cur s'
      | O =>
          if String.prefix sep s
          then rev_string "" cur
                 :: split_from sep (String.length sep - 1) "" s'
          else split_from sep 0 (String c cur) s'
      end
  end.

Definition split (sep s : string) : list string := split_from sep 0 "" s.

Definition is_space (c : ascii) : bool :=
  let n := nat_of_ascii c in
  Nat.eqb n 32 || (Nat.leb 9 n && Nat.leb n 13).

Fixpoint trim_start (s : string) : string :=
  match s with
  | String c s' => if is_space c then trim_start s' else s
  | EmptyString => EmptyString
  end.

(** [s.trim()], on ASCII white space. *)
Definition trim (s : string) : string :=
  rev_string "" (trim_start (rev_string "" (trim_start s))).

(** The double-quote character, and the CSV escaping of a cell: every
    double quote is doubled (a global [replace]). *)
Definition dquote : ascii := ascii_of_nat 34.

Fixpoint double_quotes (s : string) : string :=
  match s with
  | EmptyString => EmptyString
  | String c s' =>
      if Ascii.eqb c dquote
      then String dquote (String dquote (double_quotes s'))
      else String c (double_quotes s')
  end.

(** [n.toString()] for an array length. *)
Definition nat_to_string (n : nat) : string :=
  NilZero.string_of_uint (Nat.to_uint n).

End JS.

Import JS.

(* ================================================================== *)
(** * The outside world *)
(* ================================================================== *)

(** What a thrown [Error] carries: its message and, for an HTTP failure
    reported by axios, [error.response.status]. *)
Record error : Type := mkError {
  message : string;
  status : option nat
}.

(** The outcome of one [axios.request]. *)
Inductive http (A : Type) : Type :=
| Response (a : A)
| Failure (e : error).
Arguments Response {A} a.
Arguments Failure {A} e.

(** Outbound activity, recorded in call order. *)
Inductive call : Type :=
| PrimaryApi
| CareerPage
| SearchEngine
| LinkedInPublic
| PressReleases
| NewsSearch
| LinkedInAnnouncements
| WebSearch.

Definition call_eqb (a b : call) : bool :=
  match a, b with
  | PrimaryApi, PrimaryApi | CareerPage, CareerPage
  | SearchEngine, SearchEngine | LinkedInPublic, LinkedInPublic
  | PressReleases, PressReleases | NewsSearch, NewsSearch
  | LinkedInAnnouncements, LinkedInAnnouncements
  | WebSearch, WebSearch => true
  | _, _ => false
  end.

(** The state threaded through a run: [tick] counts the interactions with
    the outside so far (the n-th interaction receives the n-th answer of the
    environment), [trace] lists them, most recent first. *)
Record world : Type := mkWorld {
  tick : nat;
  trace : list call
}.

Definition invoked (c : call) (w : world) : bool :=
  existsb (call_eqb c) (trace w).

(** ** A state-and-exception monad for [async] methods *)

Inductive result (A : Type) : Type :=
| Ok (a : A)
| Throw (e : error).
Arguments Ok {A} a.
Arguments Throw {A} e.

Definition M (A : Type) : Type := world -> result A * world.

Definition ret {A} (a : A) : M A := fun w => (Ok a, w).

Definition throw {A} (e : error) : M A := fun w => (Throw e, w).

Definition bind {A B} (m : M A) (f : A -> M B) : M B :=
  fun w =>
    match m w with
    | (Ok a, w') => f a w'
    | (Throw e, w') => (Throw e, w')
    end.

(** [try { m } catch (e) { h e }]. *)
Definition try_catch {A} (m : M A) (h : error -> M A) : M A :=
  fun w =>
    match m w with
    | (Ok a, w') => (Ok a, w')
    | (Throw e, w') => h e w'
    end.

(** One interaction with the outside: log it and read the environment's
    answer for this tick. *)
Definition interact {A} (c : call) (answer : nat -> A) : M A :=
  fun w => (Ok (answer (tick w)), mkWorld (S (tick w)) (c :: trace w)).

Declare Scope eff_scope.
Delimit Scope eff_scope with eff.
Notation "x <- m ;; k" := (bind m (fun x => k))
  (at level 100, m at next level, right associativity) : eff_scope.
Notation "' p <- m ;; k" := (bind m (fun x => match x with p => k end))
  (at level 100, p pattern, m at next level, right associativity) : eff_scope.

(** [for (const c of xs) { ... }] with a body that rewrites each element. *)
Fixpoint for_each {A B} (body : A -> M B) (xs : list A) : M (list B) :=
  match xs with
  | [] => ret []
  | x :: xs' =>
      (y <- body x ;;
       ys <- for_each body xs' ;;
       ret (y :: ys))%eff
  end.

(** Log a step that touches no network (the simulated searches). *)
Definition record_call (c : call) : M unit :=
  fun w => (Ok tt, mkWorld (tick w) (c :: trace w)).

(** ** ECMAScript primitives taken from the runtime *)

(** Conversions the code relies on but that are not part of it. *)
Record runtime : Type := mkRuntime {
  Number_toString : float -> string;    (* String(x) for a number *)
  StringToNumber : string -> float;     (* Number(s) for a string *)
  parseInt : string -> float;           (* parseInt(s) *)
  JSON_stringify : list string -> string;
  Date_parse : string -> option Z;      (* new Date(s); None = Invalid Date *)
  Date_toISOString : Z -> string;       (* d.toISOString() *)
  Date_toISODate : Z -> string;         (* d.toISOString().split('T')[0] *)
  Date_now : Z;                         (* new Date() *)
  months_before : nat -> Z -> Z         (* d.setMonth(d.getMonth() - n) *)
}.

Section Conversions.
Context (rt : runtime).

(** ToString, as performed by template literals and [String(v)]. *)
Definition to_string (v : value) : string :=
  match v with
  | VUndef => "undefined"
  | VNull => "null"
  | VBool true => "true"
  | VBool false => "false"
  | VNum x => Number_toString rt x
  | VStr s => s
  | VArr l => join "," l
  end.

(** ToNumber. *)
Definition to_number (v : value) : float :=
  match v with
  | VUndef => nan
  | VNull => 0%float
  | VBool true => 1%float
  | VBool false => 0%float
  | VNum x => x
  | VStr s => StringToNumber rt s
  | VArr l => StringToNumber rt (join "," l)
  end.

(** [v > n] for a number literal [n]. *)
Definition gt (v : value) (n : float) : bool := PrimFloat.ltb n (to_number v).

End Conversions.

(* ================================================================== *)
(** * modules/job-scraper-fallback.js *)
(* ================================================================== *)

Module JobScraperFallback.

(** What one scraping method returns:
    [{ found, titles, hasSales, hasMarketing, hasBD }]. *)
Module Method.
Record t : Type := mk {
  found : bool;
  titles : list string;
  hasSales : bool;
  hasMarketing : bool;
  hasBD : bool
}.
Definition empty : t := mk false [] false false false.
End Method.

(** The [results] object of [findJobOpenings]. *)
Record results : Type := mkResults {
  found : bool;
  sources : list string;
  jobTitles : list string;
  hasSales : bool;
  hasMarketing : bool;
  hasBD : bool;
  confidence : float
}.

(** What the career-page and LinkedIn-page requests produce, as a function
    of the tick at which they are made. *)
Record network : Type := mkNetwork {
  career_page_answer : nat -> Method.t;
  linkedin_public_answer : nat -> Method.t
}.

Definition salesPatterns : list string :=
  [ "sales"; "account executive"; "account manager"; "commercial"; "ae"; "am";
    "business development representative"; "bdr"; "sdr"; "sales development";
    "revenue"; "hunter"; "closer"; "sales rep"; "territory manager";
    "inside sales"; "outside sales"; "field sales"; "enterprise sales";
    "vendeur"; "vente"; "responsable commercial"; "chargé commercial" ].

Definition marketingPatterns : list string :=
  [ "marketing"; "growth"; "demand gen"; "content"; "brand"; "digital marketing";
    "product marketing"; "pmm"; "seo"; "sem"; "social media"; "campaign";
    "marketing manager"; "marketing director"; "brand manager"; "content manager";
    "growth marketing"; "performance marketing"; "martech"; "webmarketing" ].

Definition bdPatterns : list string :=
  [ "business development"; "bd manager"; "biz dev"; "bizdev"; "partnership";
    "strategic partnership"; "alliance manager"; "channel manager";
    "corporate development"; "corp dev"; "développement commercial";
    "business development manager"; "partner development" ].

Definition matchesRolePattern (text : string) (patterns : list string) : bool :=
  existsb (fun pattern => includes text pattern) patterns.

Definition weights (source : string) : option float :=
  if String.eqb source "career_page" then Some 0.5%float
  else if String.eqb source "linkedin_public" then Some 0.3%float
  else if String.eqb source "google_search" then Some 0.2%float
  else None.

(** [sources.reduce((score, source) => score + (weights[source] || 0), 0)] *)
Definition calculateJobConfidence (sources : list string) : float :=
  fold_left
    (fun score source =>
       (score + match weights source with Some x => x | None => 0 end)%float)
    sources 0%float.

(** One of the three identical blocks of [findJobOpenings]: when the
    method found something, push its label and titles and OR its flags. *)
Definition absorb (label : string) (data : Method.t) (r : results) : results :=
  if Method.found data then
    mkResults (found r)
              (sources r ++ [label])
              (jobTitles r ++ Method.titles data)
              (hasSales r || Method.hasSales data)
              (hasMarketing r || Method.hasMarketing data)
              (hasBD r || Method.hasBD data)
              (confidence r)
  else r.

Definition initial : results := mkResults false [] [] false false false 0%float.

(** The last two statements of the [try] block. *)
Definition finish (r : results) : results :=
  mkResults (Nat.ltb 0 (List.length (sources r)))
            (sources r) (jobTitles r)
            (hasSales r) (hasMarketing r) (hasBD r)
            (calculateJobConfidence (sources r)).

Section Scraper.
Context (rt : runtime) (net : network).

Definition simulateGoogleResults (company : object) : list string :=
  (if gt rt (get "employee_count" company) 20
   then [(to_string rt (get "name" company)
           ++ " is hiring new team members")%string]
   else [])
  ++
  (if is_str (get "has_funding_data" company) "true"
   then [("Join the growing team at "
           ++ to_string rt (get "name" company))%string]
   else []).

(** The analysis of the found titles is a [forEach] that only ever sets
    a flag, hence an [existsb]. *)
Definition searchGoogleHiring (company : object) : M Method.t :=
  (_ <- record_call SearchEngine ;;
   let mockHiringSignals := simulateGoogleResults company in
   if Nat.ltb 0 (List.length mockHiringSignals) then
     ret (Method.mk true mockHiringSignals
            (existsb (fun title =>
               matchesRolePattern (toLowerCase title) salesPatterns)
               mockHiringSignals)
            (existsb (fun title =>
               matchesRolePattern (toLowerCase title) marketingPatterns)
               mockHiringSignals)
            (existsb (fun title =>
               matchesRolePattern (toLowerCase title) bdPatterns)
               mockHiringSignals))
   else ret Method.empty)%eff.

(** The requests and the HTML analysis happen outside; without a website
    the method returns its empty result before any request. *)
Definition scrapeCareerPage (company : object) : M Method.t :=
  if truthy (get "website" company)
  then interact CareerPage (career_page_answer net)
  else ret Method.empty.

Definition scrapeLinkedInPublic (company : object) : M Method.t :=
  if truthy (or_else (get "linkedin_url" company) (get "linkedin" company))
  then interact LinkedInPublic (linkedin_public_answer net)
  else ret Method.empty.

(** Each method catches its own errors, so the outer [catch] of the
    source is never entered. *)
Definition findJobOpenings (company : object) : M results :=
  (r1 <- (if truthy (get "website" company)
          then careerData <- scrapeCareerPage company ;;
               ret (absorb "career_page" careerData initial)
          else ret initial) ;;
   googleData <- searchGoogleHiring company ;;
   let r2 := absorb "google_search" googleData r1 in
   r3 <- (if truthy (get "linkedin_url" company)
             || truthy (get "linkedin" company)
          then linkedinData <- scrapeLinkedInPublic company ;;
               ret (absorb "linkedin_public" linkedinData r2)
          else ret r2) ;;
   ret (finish r3))%eff.

End Scraper.

End JobScraperFallback.

(* ================================================================== *)
(** * modules/job-analyzer-enhanced.js *)
(* ================================================================== *)

Module JobAnalyzerEnhanced.

(** A posting of the primary API's answer. *)
Record job : Type := mkJob {
  title : option string;
  listedAt : option string
}.

(** The object built by [getJobData] and rewritten by [mergeFallbackData]. *)
Record jobData : Type := mkJobData {
  api_success : bool;
  has_recent_jobs : bool;
  has_sales_jobs : bool;
  has_marketing_jobs : bool;
  has_bd_jobs : bool;
  recent_job_titles : string;
  job_posting_dates : string;
  recent_job_count : nat;
  hiring_urgency : string;
  data_sources : list string;
  confidence : float
}.

Record roleAnalysis : Type := mkRoleAnalysis {
  hasSales : bool;
  hasMarketing : bool;
  hasBusinessDevelopment : bool;
  titles : list (option string)
}.

(** An array element that is [undefined] joins as the empty string. *)
Definition shown (s : option string) : string :=
  match s with Some x => x | None => "" end.

(** [job.title || ''] and the like. *)
Definition or_empty (s : option string) : string := shown s.

Definition analyzeJobRoles (jobs : list job) : roleAnalysis :=
  let lowered := map (fun j => toLowerCase (or_empty (title j))) jobs in
  mkRoleAnalysis
    (existsb (fun t =>
       JobScraperFallback.matchesRolePattern t JobScraperFallback.salesPatterns)
       lowered)
    (existsb (fun t =>
       JobScraperFallback.matchesRolePattern t JobScraperFallback.marketingPatterns)
       lowered)
    (existsb (fun t =>
       JobScraperFallback.matchesRolePattern t JobScraperFallback.bdPatterns)
       lowered)
    (map title jobs).

Definition calculateHiringUrgency (recentJobs : list job) : string :=
  if Nat.eqb (List.length recentJobs) 0 then "None"
  else
    let veryRecentJobs :=
      filter (fun j =>
        let timeStr := toLowerCase (or_empty (listedAt j)) in
        includes timeStr "hour" || includes timeStr "minute"
        || includes timeStr "day"
        || (includes timeStr "1 week" || includes timeStr "this week"))
        recentJobs in
    if Nat.ltb 2 (List.length veryRecentJobs) then "High"
    else if Nat.ltb 0 (List.length veryRecentJobs) then "Moderate"
    else if Nat.ltb 0 (List.length recentJobs) then "Low"
    else "None".

(** [primaryData.recent_job_titles ? primaryData.recent_job_titles.split('; ') : []] *)
Definition split_titles (s : string) : list string :=
  if String.eqb s "" then [] else split "; " s.

Definition mergeFallbackData (primaryData : jobData)
           (fallbackData : JobScraperFallback.results) : jobData :=
  let sales := has_sales_jobs primaryData || JobScraperFallback.hasSales fallbackData in
  let marketing :=
    has_marketing_jobs primaryData || JobScraperFallback.hasMarketing fallbackData in
  let bd := has_bd_jobs primaryData || JobScraperFallback.hasBD fallbackData in
  let allTitles :=
    split_titles (recent_job_titles primaryData)
    ++ JobScraperFallback.jobTitles fallbackData in
  mkJobData
    (api_success primaryData)
    (sales || marketing || bd)
    sales marketing bd
    (join "; " (firstn 5 allTitles))
    (job_posting_dates primaryData)
    (recent_job_count primaryData)
    (hiring_urgency primaryData)
    (data_sources primaryData ++ JobScraperFallback.sources fallbackData)
    ((confidence primaryData + JobScraperFallback.confidence fallbackData) / 2)%float.

(** The ten assignments at the end of the [try] block. *)
Definition record_fields (d : jobData) (company : object) : object :=
  set "job_confidence" (VNum (confidence d))
  (set "job_data_sources" (VArr (data_sources d))
  (set "hiring_urgency" (VStr (hiring_urgency d))
  (set "recent_job_count" (VNum (of_nat (recent_job_count d)))
  (set "job_posting_dates" (VStr (job_posting_dates d))
  (set "recent_job_titles" (VStr (recent_job_titles d))
  (set "has_bd_jobs" (VBool (has_bd_jobs d))
  (set "has_marketing_jobs" (VBool (has_marketing_jobs d))
  (set "has_sales_jobs" (VBool (has_sales_jobs d))
  (set "has_recent_jobs" (VBool (has_recent_jobs d)) company))))))))).

(** The ten assignments of the [catch] block. *)
Definition record_defaults (company : object) : object :=
  set "job_confidence" (VNum 0)
  (set "job_data_sources" (VStr "")
  (set "hiring_urgency" (VStr "None")
  (set "recent_job_count" (VNum 0)
  (set "job_posting_dates" (VStr "")
  (set "recent_job_titles" (VStr "")
  (set "has_bd_jobs" (VBool false)
  (set "has_marketing_jobs" (VBool false)
  (set "has_sales_jobs" (VBool false)
  (set "has_recent_jobs" (VBool false) company))))))))).

Section Analyzer.
Context (rt : runtime) (net : JobScraperFallback.network).
(** The answers of the jobs endpoint, [response.data.response?.data?.jobs || []]
    or the error axios raises. *)
Context (jobs_answer : nat -> http (list job)).
(** [isJobRecent], a string heuristic on [listedAt] against
    [recent_threshold_weeks]; no property below depends on which
    postings it accepts. *)
Context (isJobRecent : option string -> bool).

(** The object literal returned on both request formats. *)
Definition analysis (allJobs : list job) : jobData :=
  let recentJobs := filter (fun j => isJobRecent (listedAt j)) allJobs in
  let roles := analyzeJobRoles recentJobs in
  mkJobData
    true
    (hasSales roles || hasMarketing roles || hasBusinessDevelopment roles)
    (hasSales roles)
    (hasMarketing roles)
    (hasBusinessDevelopment roles)
    (join "; " (map shown (firstn 5 (titles roles))))
    (join ", " (map (fun j => shown (listedAt j)) (firstn 3 recentJobs)))
    (List.length recentJobs)
    (calculateHiringUrgency recentJobs)
    ["linkedin_api"]
    0.8%float.

Definition status_is (e : error) (n : nat) : bool :=
  match status e with Some s => Nat.eqb s n | None => false end.

Definition getJobData (company : object) : M jobData :=
  if negb (truthy (get "linkedin_url" company))
     && negb (truthy (get "linkedin" company))
  then throw (mkError "No LinkedIn URL available for job analysis" None)
  else
    (first <- interact PrimaryApi jobs_answer ;;
     match first with
     | Response allJobs => ret (analysis allJobs)
     | Failure e =>
         if status_is e 400 then
           (second <- interact PrimaryApi jobs_answer ;;
            match second with
            | Response allJobs => ret (analysis allJobs)
            | Failure e' => throw e'
            end)
         else throw e
     end)%eff.

(** [getJobDataWithRetry(company, retryCount)] with
    [left = maxRetries - retryCount] retries still allowed. *)
Fixpoint getJobDataWithRetry_left (left : nat) (company : object)
  : M jobData :=
  try_catch (getJobData company)
    (fun e =>
       match left with
       | S left' =>
           if status_is e 429
           then getJobDataWithRetry_left left' company
           else throw e
       | O => throw e
       end).

Definition maxRetries : nat := 3.

Definition getJobDataWithRetry (company : object) : M jobData :=
  getJobDataWithRetry_left maxRetries company.

Definition shouldUseFallback (primaryData : jobData) (company : object)
  : bool :=
  if negb (api_success primaryData) then true
  else if Nat.eqb (recent_job_count primaryData) 0
          && gt rt (get "employee_count" company) 20 then true
  else if Nat.ltb (recent_job_count primaryData) 2
          && gt rt (get "employee_count" company) 50 then true
  else false.

(** Steps 1 to 3 of the loop body: the fused [jobData]. *)
Definition fuse (company : object) : M jobData :=
  (jobData <- getJobDataWithRetry company ;;
   if shouldUseFallback jobData company then
     (fallbackData <- JobScraperFallback.findJobOpenings rt net company ;;
      if JobScraperFallback.found fallbackData
      then ret (mergeFallbackData jobData fallbackData)
      else ret jobData)
   else ret jobData)%eff.

(** The body of the [for] loop of [process]. *)
Definition process_company (company : object) : M object :=
  try_catch
    (jobData <- fuse company ;; ret (record_fields jobData company))%eff
    (fun _ => ret (record_defaults company)).

(** [process(companies)]: the array after the loop. *)
Definition process (companies : list object) : M (list object) :=
  for_each process_company companies.

End Analyzer.

End JobAnalyzerEnhanced.

(* ================================================================== *)
(** * modules/funding-scraper-fallback.js *)
(* ================================================================== *)

Module FundingScraperFallback.

(** A funding round as the scraper records it:
    [{ amount, type, date, raw }]. *)
Record round : Type := mkRound {
  amount : string;
  type : string;
  date : string;
  raw : string
}.

(** An entry of [details]: [{ source, url, text, date }]. *)
Record detail : Type := mkDetail {
  source : string;
  url : option string;
  text : string;
  detail_date : string
}.

(** What one scraping method returns: [{ found, rounds, details }]. *)
Module Method.
Record t : Type := mk {
  found : bool;
  rounds : list round;
  details : list detail
}.
Definition empty : t := mk false [] [].
End Method.

(** The [results] object of [findFundingData]. *)
Record results : Type := mkResults {
  found : bool;
  sources : list string;
  fundingRounds : list round;
  recentFunding : bool;
  totalAmount : string;
  lastFundingDate : string;
  confidence : float;
  details : list detail
}.

Record network : Type := mkNetwork {
  press_releases_answer : nat -> Method.t;
  linkedin_funding_answer : nat -> Method.t
}.

Definition weights (source : string) : option float :=
  if String.eqb source "press_releases" then Some 0.5%float
  else if String.eqb source "linkedin_announcements" then Some 0.3%float
  else if String.eqb source "news_search" then Some 0.2%float
  else None.

Definition calculateFundingConfidence (sources : list string) : float :=
  fold_left
    (fun score source =>
       (score + match weights source with Some x => x | None => 0 end)%float)
    sources 0%float.

Definition calculateTotalFunding (rounds : list round) : string :=
  let amounts :=
    filter (fun a => negb (String.eqb a "")) (map amount rounds) in
  if Nat.ltb 0 (List.length amounts) then join ", " amounts else "".

Definition absorb (label : string) (data : Method.t) (r : results) : results :=
  if Method.found data then
    mkResults (found r)
              (sources r ++ [label])
              (fundingRounds r ++ Method.rounds data)
              (recentFunding r) (totalAmount r) (lastFundingDate r)
              (confidence r)
              (details r ++ Method.details data)
  else r.

Definition initial : results :=
  mkResults false [] [] false "" "" 0%float [].

Section Scraper.
Context (rt : runtime) (net : network).
(** [this.config.recentThresholdMonths]. *)
Context (recentThresholdMonths : nat).

Definition simulateFundingNews (company : object) : list round :=
  (if gt rt (get "employee_count" company) 50
      && negb (is_str (get "has_funding_data" company) "true")
   then [mkRound "$2.5M" "seed" "2024-06-15"
           (to_string rt (get "name" company)
            ++ " raises $2.5M seed round")%string]
   else [])
  ++
  (if gt rt (get "employee_count" company) 100
   then [mkRound "$10M" "series a" "2023-11-20"
           (to_string rt (get "name" company)
            ++ " secures $10M Series A")%string]
   else []).

Definition searchFundingNews (company : object) : M Method.t :=
  (_ <- record_call NewsSearch ;;
   let mockFundingNews := simulateFundingNews company in
   if Nat.ltb 0 (List.length mockFundingNews) then
     ret (Method.mk true mockFundingNews
            (map (fun round =>
                    mkDetail "news_search" None
                      (to_string rt (get "name" company)
                       ++ " funding news")%string
                      (date round))
                 mockFundingNews))
   else ret Method.empty)%eff.

Definition scrapePressReleases (company : object) : M Method.t :=
  if truthy (get "website" company)
  then interact PressReleases (press_releases_answer net)
  else ret Method.empty.

Definition scrapeLinkedInFunding (company : object) : M Method.t :=
  if truthy (or_else (get "linkedin_url" company) (get "linkedin" company))
  then interact LinkedInAnnouncements (linkedin_funding_answer net)
  else ret Method.empty.

(** [roundDate > thresholdDate]; an invalid date compares false. *)
Definition hasRecentFunding (rounds : list round) : bool :=
  let thresholdDate :=
    months_before rt recentThresholdMonths (Date_now rt) in
  existsb (fun round =>
             match Date_parse rt (date round) with
             | Some roundDate => Z.ltb thresholdDate roundDate
             | None => false
             end) rounds.

Definition valid_dates (rounds : list round) : list Z :=
  flat_map (fun round =>
              match Date_parse rt (date round) with
              | Some d => [d]
              | None => []
              end) rounds.

(** The first element after sorting in descending order is the
    maximum. *)
Definition getLastFundingDate (rounds : list round) : string :=
  match valid_dates rounds with
  | [] => ""
  | d :: ds => Date_toISODate rt (fold_left Z.max ds d)
  end.

(** The statements that follow the three methods. *)
Definition finish (r : results) : results :=
  let conf := calculateFundingConfidence (sources r) in
  if Nat.ltb 0 (List.length (fundingRounds r)) then
    mkResults true (sources r) (fundingRounds r)
              (hasRecentFunding (fundingRounds r))
              (calculateTotalFunding (fundingRounds r))
              (getLastFundingDate (fundingRounds r))
              conf (details r)
  else
    mkResults (found r) (sources r) (fundingRounds r)
              (recentFunding r) (totalAmount r) (lastFundingDate r)
              conf (details r).

(** As in the job scraper, the outer [catch] is never entered. *)
Definition findFundingData (company : object) : M results :=
  (r1 <- (if truthy (get "website" company)
          then pressData <- scrapePressReleases company ;;
               ret (absorb "press_releases" pressData initial)
          else ret initial) ;;
   newsData <- searchFundingNews company ;;
   let r2 := absorb "news_search" newsData r1 in
   r3 <- (if truthy (get "linkedin_url" company)
             || truthy (get "linkedin" company)
          then linkedinData <- scrapeLinkedInFunding company ;;
               ret (absorb "linkedin_announcements" linkedinData r2)
          else ret r2) ;;
   ret (finish r3))%eff.

End Scraper.

End FundingScraperFallback.

(* ================================================================== *)
(** * modules/funding-analyzer-enhanced.js *)
(* ================================================================== *)

Module FundingAnalyzerEnhanced.

(** A round of [companyData.crunchbase.funding_rounds]; an absent field
    is [None]. *)
Record api_round : Type := mkApiRound {
  announced_on : option string;
  date : option string;
  funding_type : option string;
  investment_type : option string;
  money_raised : option string;
  amount : option string
}.

(** [companyData.crunchbase || {}]. *)
Record crunchbase : Type := mkCrunchbase {
  cb_url : option string;               (* crunchbaseData.crunchbase_url *)
  cb_rounds : list api_round            (* ...funding_rounds || [] *)
}.

(** The object built by [getFundingData]. *)
Record fundingData : Type := mkFundingData {
  api_success : bool;
  has_funding_data : bool;
  has_recent_funding_1yr : bool;
  funding_details : string;
  last_funding_date : string;
  crunchbase_url : string;
  funding_rounds : string;
  total_funding : string;
  data_sources : list string;
  confidence : float
}.

(** [a || b] on optional strings: the empty string is falsy. *)
Definition orelse (a b : option string) : option string :=
  match a with
  | Some s => if String.eqb s "" then b else a
  | None => b
  end.

Definition present (a : option string) : bool :=
  match a with
  | Some s => negb (String.eqb s "")
  | None => false
  end.

Definition shown (a : option string) : string :=
  match a with Some s => s | None => "" end.

Definition format_round (round : api_round) : string :=
  let type :=
    shown (orelse (orelse (funding_type round) (investment_type round))
                  (Some "funding")) in
  let amount :=
    shown (orelse (orelse (money_raised round) (amount round)) (Some "")) in
  let date :=
    shown (orelse (orelse (announced_on round) (date round)) (Some "")) in
  (type
   ++ (if String.eqb amount "" then "" else ": " ++ amount)
   ++ (if String.eqb date "" then "" else " (" ++ date ++ ")"))%string.

Definition formatFundingDetails (fundingRounds : list api_round) : string :=
  if Nat.eqb (List.length fundingRounds) 0 then ""
  else join " | " (map format_round (firstn 3 fundingRounds)).

Definition calculateTotalFunding (fundingRounds : list api_round) : string :=
  let amounts :=
    filter present
      (map (fun round => orelse (money_raised round) (amount round))
           fundingRounds) in
  if Nat.eqb (List.length amounts) 0 then ""
  else join " + " (map shown amounts).

(** [primaryData.funding_details ? [primaryData.funding_details] : []] *)
Definition primaryDetails (d : fundingData) : list string :=
  if String.eqb (funding_details d) "" then [] else [funding_details d].

Definition fallbackDetails (fb : FundingScraperFallback.results)
  : list string :=
  map (fun d =>
         (FundingScraperFallback.text d ++ " ("
          ++ FundingScraperFallback.source d ++ ")")%string)
      (FundingScraperFallback.details fb).

Definition mergeFallbackData (primaryData : fundingData)
           (fallbackData : FundingScraperFallback.results) : fundingData :=
  let allDetails := primaryDetails primaryData ++ fallbackDetails fallbackData in
  let fbDate := FundingScraperFallback.lastFundingDate fallbackData in
  let fbTotal := FundingScraperFallback.totalAmount fallbackData in
  mkFundingData
    (api_success primaryData)
    (has_funding_data primaryData || FundingScraperFallback.found fallbackData)
    (has_recent_funding_1yr primaryData
     || FundingScraperFallback.recentFunding fallbackData)
    (join " | " (firstn 3 allDetails))
    (if negb (String.eqb fbDate "")
        && (String.eqb (last_funding_date primaryData) ""
            || String.ltb (last_funding_date primaryData) fbDate)
     then fbDate else last_funding_date primaryData)
    (crunchbase_url primaryData)
    (funding_rounds primaryData)
    (if negb (String.eqb fbTotal "")
        && String.eqb (total_funding primaryData) ""
     then fbTotal else total_funding primaryData)
    (data_sources primaryData ++ FundingScraperFallback.sources fallbackData)
    ((confidence primaryData + FundingScraperFallback.confidence fallbackData)
     / 2)%float.

Definition record_fields (d : fundingData) (company : object) : object :=
  set "funding_confidence" (VNum (confidence d))
  (set "funding_data_sources" (VArr (data_sources d))
  (set "total_funding" (VStr (total_funding d))
  (set "funding_rounds" (VStr (funding_rounds d))
  (set "crunchbase_url" (VStr (crunchbase_url d))
  (set "last_funding_date" (VStr (last_funding_date d))
  (set "funding_details" (VStr (funding_details d))
  (set "has_recent_funding_1yr" (VBool (has_recent_funding_1yr d))
  (set "has_funding_data" (VBool (has_funding_data d)) company)))))))).

Definition record_defaults (company : object) : object :=
  set "funding_confidence" (VNum 0)
  (set "funding_data_sources" (VStr "")
  (set "total_funding" (VStr "")
  (set "funding_rounds" (VStr "")
  (set "crunchbase_url" (VStr "")
  (set "last_funding_date" (VStr "")
  (set "funding_details" (VStr "")
  (set "has_recent_funding_1yr" (VBool false)
  (set "has_funding_data" (VBool false) company)))))))).

Section Analyzer.
Context (rt : runtime) (net : FundingScraperFallback.network).
(** The answers of the company endpoint, reduced to
    [response.data.response?.data.crunchbase || {}], or the error. *)
Context (funding_answer : nat -> http crunchbase).
(** [this.config.recent_threshold_months]. *)
Context (recent_threshold_months : nat).

(** The scraper is constructed with
    [stageConfig.recent_threshold_months || 12]. *)
Definition recentThresholdMonths : nat :=
  if Nat.eqb recent_threshold_months 0 then 12 else recent_threshold_months.

Definition round_date (round : api_round) : option Z :=
  match orelse (announced_on round) (date round) with
  | Some s => Date_parse rt s
  | None => None
  end.

Definition hasRecentFunding (fundingRounds : list api_round) : bool :=
  if Nat.eqb (List.length fundingRounds) 0 then false
  else
    let thresholdDate :=
      months_before rt recent_threshold_months (Date_now rt) in
    existsb (fun round =>
               match round_date round with
               | Some roundDate => Z.ltb thresholdDate roundDate
               | None => false
               end) fundingRounds.

Definition valid_dates (fundingRounds : list api_round) : list Z :=
  flat_map (fun round =>
              if present (orelse (announced_on round) (date round))
              then match round_date round with
                   | Some d => [d]
                   | None => []
                   end
              else []) fundingRounds.

Definition getLastFundingDate (fundingRounds : list api_round) : string :=
  if Nat.eqb (List.length fundingRounds) 0 then ""
  else match valid_dates fundingRounds with
       | [] => ""
       | d :: ds => Date_toISODate rt (fold_left Z.max ds d)
       end.

(** The object literal returned on both request formats. *)
Definition analysis (crunchbaseData : crunchbase) : fundingData :=
  let fundingRounds := cb_rounds crunchbaseData in
  mkFundingData
    true
    (Nat.ltb 0 (List.length fundingRounds))
    (hasRecentFunding fundingRounds)
    (formatFundingDetails fundingRounds)
    (getLastFundingDate fundingRounds)
    (shown (orelse (cb_url crunchbaseData) (Some "")))
    (nat_to_string (List.length fundingRounds))
    (calculateTotalFunding fundingRounds)
    ["linkedin_api"]
    0.8%float.

Definition status_is (e : error) (n : nat) : bool :=
  match status e with Some s => Nat.eqb s n | None => false end.

Definition getFundingData (company : object) : M fundingData :=
  if negb (truthy (get "linkedin_url" company))
     && negb (truthy (get "linkedin" company))
  then throw (mkError "No LinkedIn URL available for funding analysis" None)
  else
    (first <- interact PrimaryApi funding_answer ;;
     match first with
     | Response data => ret (analysis data)
     | Failure e =>
         if status_is e 400 then
           (second <- interact PrimaryApi funding_answer ;;
            match second with
            | Response data => ret (analysis data)
            | Failure e' => throw e'
            end)
         else throw e
     end)%eff.

Fixpoint getFundingDataWithRetry_left (left : nat) (company : object)
  : M fundingData :=
  try_catch (getFundingData company)
    (fun e =>
       match left with
       | S left' =>
           if status_is e 429
           then getFundingDataWithRetry_left left' company
           else throw e
       | O => throw e
       end).

Definition maxRetries : nat := 3.

Definition getFundingDataWithRetry (company : object) : M fundingData :=
  getFundingDataWithRetry_left maxRetries company.

Definition shouldUseFallback (primaryData : fundingData) (company : object)
  : bool :=
  if negb (api_success primaryData) then true
  else if negb (has_funding_data primaryData)
          && gt rt (get "employee_count" company) 50 then true
  else if negb (has_recent_funding_1yr primaryData)
          && gt rt (get "employee_count" company) 100 then true
  else false.

Definition fuse (company : object) : M fundingData :=
  (fundingData <- getFundingDataWithRetry company ;;
   if shouldUseFallback fundingData company then
     (fallbackData <-
        FundingScraperFallback.findFundingData rt net recentThresholdMonths
          company ;;
      if FundingScraperFallback.found fallbackData
      then ret (mergeFallbackData fundingData fallbackData)
      else ret fundingData)
   else ret fundingData)%eff.

Definition process_company (company : object) : M object :=
  try_catch
    (fundingData <- fuse company ;; ret (record_fields fundingData company))%eff
    (fun _ => ret (record_defaults company)).

Definition process (companies : list object) : M (list object) :=
  for_each process_company companies.

End Analyzer.

End FundingAnalyzerEnhanced.

(* ================================================================== *)
(** * modules/employee-analyzer.js *)
(* ================================================================== *)

Module EmployeeAnalyzer.

(** [data.employeeCountRange]: absent, a string, or an object with
    [start] and [end]. *)
Inductive count_range : Type :=
  | NoRange
  | RangeString (s : string)
  | RangeObject (start finish : value).

(** The fields of the profile endpoint's answer that the analyzer reads. *)
Record profile : Type := mkProfile {
  employeeCount : value;
  employee_count : value;
  employeesCount : value;
  employeeCountRange : count_range;
  employee_range : value;
  employeeRange : value;
  employeesOnLinkedIn : value
}.

(** The object built by [getEmployeeCount]. *)
Record employeeData : Type := mkEmployeeData {
  api_success : bool;
  count : value;                       (* employee_count *)
  range : value;                       (* employee_range *)
  in_target_range_11_200 : bool;
  employee_data_source : string
}.

Definition is_digit (c : ascii) : bool :=
  let n := nat_of_ascii c in Nat.leb 48 n && Nat.leb n 57.

(** The longest run of digits at the head of [s], and what follows. *)
Fixpoint digits (s : string) : string * string :=
  match s with
  | String c s' =>
      if is_digit c
      then let (d, rest) := digits s' in (String c d, rest)
      else (EmptyString, s)
  | EmptyString => (EmptyString, EmptyString)
  end.

(** [s.match(/(\d+)-(\d+)/)]: the two groups of the leftmost match. *)
Fixpoint match_range (s : string) : option (string * string) :=
  match s with
  | EmptyString => None
  | String _ s' =>
      match digits s with
      | (String a d1, String sep rest) =>
          if Ascii.eqb sep "-"%char then
            match digits rest with
            | (String b d2, _) => Some (String a d1, String b d2)
            | _ => match_range s'
            end
          else match_range s'
      | _ => match_range s'
      end
  end.

Section Analyzer.
Context (rt : runtime).
Context (profile_answer : nat -> http profile).
(** [this.config.target_range]. *)
Context (min max : float).

Definition extractEmployeeCount (data : profile) : value :=
  or_else (employeeCount data)
    (or_else (employee_count data) (or_else (employeesCount data) VNull)).

Definition extractEmployeeRange (data : profile) : value :=
  let otherwise :=
    or_else (employee_range data) (or_else (employeeRange data) VNull) in
  match employeeCountRange data with
  | RangeString s => if String.eqb s "" then otherwise else VStr s
  | RangeObject start finish =>
      if truthy start && truthy finish
      then VStr (to_string rt start ++ "-" ++ to_string rt finish)%string
      else otherwise
  | NoRange => otherwise
  end.

(** The second pattern of the source, [/(\d+)-(\d+)\s*employees?/i], can
    only match where the first one does, so its branch is never taken. *)
Definition isInTargetRange (employeeCount employeeRange : value) : bool :=
  if truthy employeeCount
     && negb (is_nan (parseInt rt (to_string rt employeeCount)))
  then
    let count := parseInt rt (to_string rt employeeCount) in
    PrimFloat.leb min count && PrimFloat.leb count max
  else
    match employeeRange with
    | VStr s =>
        match match_range s with
        | Some (a, b) =>
            PrimFloat.leb (parseInt rt a) max
            && PrimFloat.leb min (parseInt rt b)
        | None => false
        end
    | _ => false
    end.

Definition generateEvidence (employeeCount employeeRange : value)
           (rawData : profile) : string :=
  join " | "
    ((if truthy employeeCount
      then [("Exact count: " ++ to_string rt employeeCount)%string] else [])
     ++ (if truthy employeeRange
         then [("Range: " ++ to_string rt employeeRange)%string] else [])
     ++ (if truthy (employeesOnLinkedIn rawData)
         then [("LinkedIn employees: "
                ++ to_string rt (employeesOnLinkedIn rawData))%string]
         else [])).

Definition getEmployeeCount (company : object) : M employeeData :=
  if negb (truthy (get "linkedin_url" company))
     && negb (truthy (get "linkedin" company))
  then throw (mkError "No LinkedIn URL available" None)
  else
    (answer <- interact PrimaryApi profile_answer ;;
     match answer with
     | Response data =>
         let employeeCount := extractEmployeeCount data in
         let employeeRange := extractEmployeeRange data in
         ret (mkEmployeeData true employeeCount employeeRange
                (isInTargetRange employeeCount employeeRange)
                (generateEvidence employeeCount employeeRange data))
     | Failure e => throw e
     end)%eff.

Definition status_is (e : error) (n : nat) : bool :=
  match status e with Some s => Nat.eqb s n | None => false end.

Fixpoint getEmployeeCountWithRetry_left (left : nat) (company : object)
  : M employeeData :=
  try_catch (getEmployeeCount company)
    (fun e =>
       match left with
       | S left' =>
           if status_is e 429
           then getEmployeeCountWithRetry_left left' company
           else throw e
       | O => throw e
       end).

Definition maxRetries : nat := 3.

Definition getEmployeeCountWithRetry (company : object) : M employeeData :=
  getEmployeeCountWithRetry_left maxRetries company.

Definition record_fields (d : employeeData) (company : object) : object :=
  set "employee_data_source" (VStr (employee_data_source d))
  (set "in_target_range_11_200" (VBool (in_target_range_11_200 d))
  (set "employee_range" (range d)
  (set "employee_count" (count d) company))).

Definition record_error (e : error) (company : object) : object :=
  set "employee_data_source" (VStr ("Error: " ++ message e)%string)
  (set "in_target_range_11_200" (VBool false)
  (set "employee_range" VNull
  (set "employee_count" VNull company))).

(** The loop body: the rewritten company, and whether it was pushed on
    [filteredCompanies]. *)
Definition process_company (company : object) : M (object * bool) :=
  try_catch
    (employeeData <- getEmployeeCountWithRetry company ;;
     ret (record_fields employeeData company,
          in_target_range_11_200 employeeData))%eff
    (fun e => ret (record_error e company, false)).

(** [process(companies)]: the array after
    [companies.length = 0; companies.push(...filteredCompanies)]. *)
Definition process (companies : list object) : M (list object) :=
  (verdicts <- for_each process_company companies ;;
   ret (map fst (filter snd verdicts)))%eff.

End Analyzer.

End EmployeeAnalyzer.

(* ================================================================== *)
(** * modules/consolidator.js *)
(* ================================================================== *)

Module StringOrder <: Orders.TotalLeBool.
Definition t : Type := string.
Definition leb : t -> t -> bool := String.leb.
Theorem leb_total : forall a b, leb a b = true \/ leb b a = true.
Proof. exact String.leb_total. Qed.
End StringOrder.

Module StringSort := Mergesort.Sort StringOrder.

Module Consolidator.

Definition priorityColumns : list string :=
  [ "name"; "companyName"; "website"; "linkedin_url"; "linkedin_source";
    "description"; "industry"; "employee_count"; "in_target_range_11_200";
    "has_funding_data"; "has_recent_funding_1yr"; "funding_details";
    "has_recent_jobs"; "has_sales_jobs"; "has_marketing_jobs"; "has_bd_jobs";
    "priority_score"; "processing_date"; "processing_notes" ].

Definition excludeColumns : list string :=
  [ "linkedin"; "LinkedIn"; "LinkedIn URL"; "LinkedIn url";
    "linkedin_original" ].

(** [xs.includes(x)] on an array of strings. *)
Definition mem (x : string) (xs : list string) : bool :=
  existsb (String.eqb x) xs.

(** [ks.forEach(key => allHeaders.add(key))]: a [Set] keeps the first
    insertion of each element. *)
Definition add_all (ks : list string) (seen : list string) : list string :=
  fold_left (fun acc k => if mem k acc then acc else acc ++ [k]) ks seen.

Definition allHeaders (companies : list object) : list string :=
  fold_left (fun seen company => add_all (keys company) seen) companies [].

(** The priority columns that occur, in their fixed order, then the other
    columns that are not excluded, sorted. *)
Definition orderedHeaders (companies : list object) : list string :=
  let all := allHeaders companies in
  filter (fun col => mem col all) priorityColumns
  ++ StringSort.sort
       (filter (fun col => negb (mem col excludeColumns))
               (filter (fun col => negb (mem col priorityColumns)) all)).

Definition newline : string := String (ascii_of_nat 10) EmptyString.
Definition quote_mark : string := String dquote EmptyString.

Definition quoted (s : string) : string :=
  (quote_mark ++ double_quotes s ++ quote_mark)%string.

(** [v === true || v === 'TRUE'] *)
Definition flagged (v : value) : bool :=
  is_literal_true v || is_str v "TRUE".

(** [v && v.trim() !== ''], and [!v || v.trim() === ''] as its negation;
    [trim] exists on strings only. *)
Definition filled (v : value) : M bool :=
  if truthy v then
    match v with
    | VStr s => ret (negb (String.eqb (trim s) ""))
    | _ => throw (mkError "trim is not a function" None)
    end
  else ret false.

Definition calculatePriorityScore (company : object) : M nat :=
  (hasLinkedIn <- filled (get "linkedin_url" company) ;;
   ret ((if flagged (get "in_target_range_11_200" company) then 2 else 0)
        + (if flagged (get "has_funding_data" company) then 1 else 0)
        + (if flagged (get "has_recent_funding_1yr" company) then 2 else 0)
        + (if flagged (get "has_recent_jobs" company) then 1 else 0)
        + (if flagged (get "has_sales_jobs" company) then 2 else 0)
        + (if flagged (get "has_marketing_jobs" company) then 1 else 0)
        + (if flagged (get "has_bd_jobs" company) then 1 else 0)
        + (if hasLinkedIn then 1 else 0)))%eff.

Definition generateProcessingNotes (company : object) : M string :=
  let source := get "linkedin_source" company in
  let about_source :=
    if truthy source then
      if is_str source "website" then ["LinkedIn found via website"]
      else if is_str source "web_search" then ["LinkedIn found via web search"]
      else if is_str source "existing" then ["LinkedIn already present"]
      else if is_str source "not_found" then ["LinkedIn not found"]
      else []
    else [] in
  (hasWebsite <- filled (get "website" company) ;;
   hasLinkedIn <- filled (get "linkedin_url" company) ;;
   ret (join "; "
          (about_source
           ++ (if hasWebsite then [] else ["No website"])
           ++ (if hasLinkedIn then [] else ["No LinkedIn URL"]))))%eff.

Section Consolidator.
Context (rt : runtime).

(** The text of one cell. *)
Definition cell (v : value) : string :=
  match v with
  | VNull | VUndef => ""
  | VBool true => "TRUE"
  | VBool false => "FALSE"
  | VArr l => quoted (JSON_stringify rt l)
  | _ =>
      let stringValue := to_string rt v in
      if includes stringValue "," || includes stringValue quote_mark
         || includes stringValue newline
      then quoted stringValue
      else stringValue
  end.

Definition csvHeader (companies : list object) : string :=
  join "," (orderedHeaders companies).

Definition csvRow (headers : list string) (company : object) : string :=
  join "," (map (fun header => cell (get header company)) headers).

Definition csvRows (companies : list object) : list string :=
  map (csvRow (orderedHeaders companies)) companies.

Definition generateCSV (companies : list object) : string :=
  if Nat.eqb (List.length companies) 0 then "No data"
  else join newline (csvHeader companies :: csvRows companies).

(** The [forEach] of [generate]. *)
Definition stamp (company : object) : M object :=
  (score <- calculatePriorityScore company ;;
   let c1 := set "priority_score" (VNum (of_nat score)) company in
   let c2 :=
     set "processing_date" (VStr (Date_toISOString rt (Date_now rt))) c1 in
   notes <- generateProcessingNotes c2 ;;
   ret (set "processing_notes" (VStr notes) c2))%eff.

(** [generate]: the stamped collection and the text written to the
    results file. *)
Definition generate (companies : list object) : M (list object * string) :=
  (stamped <- for_each stamp companies ;;
   ret (stamped, generateCSV stamped))%eff.

End Consolidator.

End Consolidator.

(* ================================================================== *)
(** * The pipeline ([ExpoPipeline.run]) *)
(* ================================================================== *)

Module Pipeline.

(** A stage is the [process] method of its analyzer, acting on the shared
    array of companies. *)
Definition stage : Type := list object -> M (list object).

(** [for (const stage of stages) await this.runStage(stage, companies)] *)
Fixpoint runStages (stages : list stage) (companies : list object)
  : M (list object) :=
  match stages with
  | [] => ret companies
  | s :: rest =>
      (companies' <- s companies ;; runStages rest companies')%eff
  end.

Section Run.
Context (rt : runtime).
Context (jobs_net : JobScraperFallback.network).
Context (funding_net : FundingScraperFallback.network).
Context (profile_answer : nat -> http EmployeeAnalyzer.profile).
Context (funding_answer : nat -> http FundingAnalyzerEnhanced.crunchbase).
Context (jobs_answer : nat -> http (list JobAnalyzerEnhanced.job)).
Context (isJobRecent : option string -> bool).
Context (min max : float) (recent_threshold_months : nat).

(** The stages from [employee_analysis] on, with the enhanced
    analyzers. *)
Definition stages : list stage :=
  [ EmployeeAnalyzer.process rt profile_answer min max;
    FundingAnalyzerEnhanced.process rt funding_net funding_answer
      recent_threshold_months;
    JobAnalyzerEnhanced.process rt jobs_net jobs_answer isJobRecent ].

(** [run]: the stages, then the consolidated CSV. *)
Definition run (companies : list object) : M (list object * string) :=
  (enriched <- runStages stages companies ;;
   Consolidator.generate rt enriched)%eff.

End Run.

End Pipeline.

(* ================================================================== *)
(** * modules/funding-analyzer-integrated.js: the fallback steps of
    [JobAnalyzerIntegrated] *)
(* ================================================================== *)

(** The integrated analyzer is the later revision of the enhanced one.  Its
    scraper ([JobScraperReal]) has no search method; the analyzer itself
    calls a web search as a third step.  Steps 2 and 3 of its loop body are
    modelled here, for a given outcome of step 1. *)
Module JobAnalyzerIntegrated.

Import JobScraperFallback.

(** [JobScraperReal.calculateJobConfidence]. *)
Definition weights (source : string) : option float :=
  if String.eqb source "career_page" then Some 0.7%float
  else if String.eqb source "linkedin_public" then Some 0.5%float
  else None.

Definition calculateJobConfidence (sources : list string) : float :=
  fold_left
    (fun score source =>
       (score + match weights source with Some x => x | None => 0 end)%float)
    sources 0%float.

Definition finish (r : results) : results :=
  mkResults (Nat.ltb 0 (List.length (sources r)))
            (sources r) (jobTitles r)
            (hasSales r) (hasMarketing r) (hasBD r)
            (calculateJobConfidence (sources r)).

(** [Math.min(a, b)]. *)
Definition Math_min (a b : float) : float :=
  if is_nan a || is_nan b then nan
  else if PrimFloat.ltb b a then b else a.

(** [mergeFallbackData(primaryData, fallbackData, sourceType)]; a missing
    [confidence] reads as [undefined], which [||] treats like [0]. *)
Definition mergeFallbackData (primaryData : JobAnalyzerEnhanced.jobData)
           (fallbackData : results) (sourceType : string)
  : JobAnalyzerEnhanced.jobData :=
  let sales := JobAnalyzerEnhanced.has_sales_jobs primaryData || hasSales fallbackData in
  let marketing :=
    JobAnalyzerEnhanced.has_marketing_jobs primaryData || hasMarketing fallbackData in
  let bd := JobAnalyzerEnhanced.has_bd_jobs primaryData || hasBD fallbackData in
  let allTitles :=
    JobAnalyzerEnhanced.split_titles
      (JobAnalyzerEnhanced.recent_job_titles primaryData)
    ++ jobTitles fallbackData in
  let fallbackConfidence :=
    if truthy (VNum (confidence fallbackData))
    then confidence fallbackData else 0.3%float in
  JobAnalyzerEnhanced.mkJobData
    (JobAnalyzerEnhanced.api_success primaryData)
    (sales || marketing || bd)
    sales marketing bd
    (join "; " (firstn 5 allTitles))
    (JobAnalyzerEnhanced.job_posting_dates primaryData)
    (JobAnalyzerEnhanced.recent_job_count primaryData)
    (JobAnalyzerEnhanced.hiring_urgency primaryData)
    (JobAnalyzerEnhanced.data_sources primaryData
     ++ (if String.eqb sourceType "web_search" then ["web_search"]
         else sources fallbackData))
    (Math_min 1
       ((JobAnalyzerEnhanced.confidence primaryData + fallbackConfidence) / 2))%float.

Section Analyzer.
Context (rt : runtime) (net : network).
(** What [UniversalWebSearch.searchJobOpenings] returns; it catches its own
    errors. *)
Context (web_search_answer : nat -> results).

(** [JobScraperReal.findJobOpenings]: the career page, then the LinkedIn
    page. *)
Definition findJobOpenings (company : object) : M results :=
  (r1 <- (if truthy (get "website" company)
          then careerData <- scrapeCareerPage net company ;;
               ret (absorb "career_page" careerData initial)
          else ret initial) ;;
   r2 <- (if truthy (get "linkedin_url" company)
             || truthy (get "linkedin" company)
          then linkedinData <- scrapeLinkedInPublic net company ;;
               ret (absorb "linkedin_public" linkedinData r1)
          else ret r1) ;;
   ret (finish r2))%eff.

Definition shouldUseFallback (primaryData : JobAnalyzerEnhanced.jobData)
           (company : object) : bool :=
  if negb (JobAnalyzerEnhanced.api_success primaryData) then true
  else if Nat.eqb (JobAnalyzerEnhanced.recent_job_count primaryData) 0
          && gt rt (get "employee_count" company) 30 then true
  else if Nat.leb (JobAnalyzerEnhanced.recent_job_count primaryData) 1
          && gt rt (get "employee_count" company) 100 then true
  else false.

(** Whether step 3 runs, given the data after step 2. *)
Definition stillNeedsMore (jobData : JobAnalyzerEnhanced.jobData)
           (company : object) : bool :=
  negb (JobAnalyzerEnhanced.has_recent_jobs jobData)
  && gt rt (get "employee_count" company) 50.

(** Steps 2 and 3, from [apiError] and the [jobData] of step 1. *)
Definition fallback_steps (apiError : bool)
           (jobData : JobAnalyzerEnhanced.jobData) (company : object)
  : M JobAnalyzerEnhanced.jobData :=
  if apiError || shouldUseFallback jobData company then
    (fallbackData <- findJobOpenings company ;;
     let scraped :=
       if found fallbackData
       then mergeFallbackData jobData fallbackData "scraping"
       else jobData in
     if stillNeedsMore scraped company then
       (webData <- interact WebSearch web_search_answer ;;
        if found webData
        then ret (mergeFallbackData scraped webData "web_search")
        else ret scraped)
     else ret scraped)%eff
  else ret jobData.

End Analyzer.

End JobAnalyzerIntegrated.

(* ================================================================== *)
(** * Results that the fusion can produce *)
(* ================================================================== *)

Module Fusion.

Import JobScraperFallback.

(** The [results] of [findJobOpenings] as a function of what the three
    methods returned, in invocation order; a method that was not invoked
    contributes like one that found nothing. *)
Definition job_tiers (career google linkedin : Method.t) : results :=
  finish (absorb "linkedin_public" linkedin
            (absorb "google_search" google
               (absorb "career_page" career initial))).

(** What [searchGoogleHiring] returns for a company. *)
Definition google_method (rt : runtime) (company : object) : Method.t :=
  let mockHiringSignals := simulateGoogleResults rt company in
  if Nat.ltb 0 (List.length mockHiringSignals) then
    Method.mk true mockHiringSignals
      (existsb (fun title => matchesRolePattern (toLowerCase title) salesPatterns)
               mockHiringSignals)
      (existsb (fun title => matchesRolePattern (toLowerCase title) marketingPatterns)
               mockHiringSignals)
      (existsb (fun title => matchesRolePattern (toLowerCase title) bdPatterns)
               mockHiringSignals)
  else Method.empty.

(** The [jobData] objects that reach the assignments of
    [JobAnalyzerEnhanced.process]: the primary answer alone, or merged with
    a fallback result that found something. *)
Inductive job_fused (isJobRecent : option string -> bool)
  : JobAnalyzerEnhanced.jobData -> Prop :=
| job_primary (allJobs : list JobAnalyzerEnhanced.job) :
  job_fused isJobRecent (JobAnalyzerEnhanced.analysis isJobRecent allJobs)
| job_merged (allJobs : list JobAnalyzerEnhanced.job)
           (career google linkedin : Method.t) :
  found (job_tiers career google linkedin) = true ->
  job_fused isJobRecent
    (JobAnalyzerEnhanced.mergeFallbackData
       (JobAnalyzerEnhanced.analysis isJobRecent allJobs)
       (job_tiers career google linkedin)).

End Fusion.

Module FundingFusion.

Import FundingScraperFallback.

(** The [results] of [findFundingData] as a function of what the three
    methods returned, in invocation order. *)
Definition funding_tiers (rt : runtime) (recentThresholdMonths : nat)
           (press news linkedin : Method.t) : results :=
  finish rt recentThresholdMonths
    (absorb "linkedin_announcements" linkedin
       (absorb "news_search" news
          (absorb "press_releases" press initial))).

(** What [searchFundingNews] returns for a company. *)
Definition news_method (rt : runtime) (company : object) : Method.t :=
  let mockFundingNews := simulateFundingNews rt company in
  if Nat.ltb 0 (List.length mockFundingNews) then
    Method.mk true mockFundingNews
      (map (fun round =>
              mkDetail "news_search" None
                (to_string rt (get "name" company) ++ " funding news")%string
                (date round))
           mockFundingNews)
  else Method.empty.

(** The [fundingData] objects that reach the assignments of
    [FundingAnalyzerEnhanced.process]. *)
Inductive funding_fused (rt : runtime) (recent_threshold_months : nat)
  : FundingAnalyzerEnhanced.fundingData -> Prop :=
| funding_primary (data : FundingAnalyzerEnhanced.crunchbase) :
  funding_fused rt recent_threshold_months
    (FundingAnalyzerEnhanced.analysis rt recent_threshold_months data)
| funding_merged (data : FundingAnalyzerEnhanced.crunchbase)
               (press news linkedin : Method.t) :
  found (funding_tiers rt
           (FundingAnalyzerEnhanced.recentThresholdMonths
              recent_threshold_months)
           press news linkedin) = true ->
  funding_fused rt recent_threshold_months
    (FundingAnalyzerEnhanced.mergeFallbackData
       (FundingAnalyzerEnhanced.analysis rt recent_threshold_months data)
       (funding_tiers rt
          (FundingAnalyzerEnhanced.recentThresholdMonths
             recent_threshold_months)
          press news linkedin)).

End FundingFusion.

(* ================================================================== *)
(** * A concrete environment for the examples *)
(* ================================================================== *)

Module Demo.

(** The value of a string of decimal digits. *)
Fixpoint decimal (acc : nat) (s : string) : nat :=
  match s with
  | String c s' => decimal (10 * acc + (nat_of_ascii c - 48)) s'
  | EmptyString => acc
  end.

(** [parseInt] on a string that starts with its digits. *)
Definition parse_int (s : string) : float :=
  match fst (EmployeeAnalyzer.digits s) with
  | EmptyString => nan
  | d => of_nat (decimal 0 d)
  end.

(** [Number(s)] on the empty string and on strings of digits. *)
Definition string_to_number (s : string) : float :=
  match EmployeeAnalyzer.digits s with
  | (EmptyString, EmptyString) => 0%float
  | (d, EmptyString) => of_nat (decimal 0 d)
  | _ => nan
  end.

(** The natural number a float denotes, when it denotes one below 2^53:
    [x] is its 53-bit mantissa times a power of two. *)
Definition natural (x : float) : option N :=
  if PrimFloat.ltb x 0 || is_nan x || PrimFloat.leb 9007199254740992 x
  then None
  else if PrimFloat.eqb x 0 then Some 0%N
  else
    let (m, e) := PrimFloat.frshiftexp x in
    let mantissa := Uint63.to_Z (PrimFloat.normfr_mantissa m) in
    let exponent := (Uint63.to_Z e - 2101 - 53)%Z in
    if (exponent <? 0)%Z then
      if (mantissa mod 2 ^ (- exponent) =? 0)%Z
      then Some (Z.to_N (mantissa / 2 ^ (- exponent)))
      else None
    else Some (Z.to_N (mantissa * 2 ^ exponent)).

(** The confidence values the stages can write, with their shortest
    decimal form. *)
Definition confidences : list (float * string) :=
  [ (0.5, "0.5"); (0.55, "0.55"); (0.65, "0.65"); (0.75, "0.75");
    (0.8, "0.8"); (0.9, "0.9") ]%float.

(** [String(x)] on natural numbers and on the confidence values. *)
Definition number_to_string (x : float) : string :=
  match natural x with
  | Some n => NilZero.string_of_uint (N.to_uint n)
  | None =>
      match find (fun entry => PrimFloat.eqb (fst entry) x) confidences with
      | Some entry => snd entry
      | None => "NaN"
      end
  end.

(** [JSON.stringify] on an array of strings without quote, backslash or
    control character. *)
Definition json (l : list string) : string :=
  ("[" ++ join ","
            (map (fun s => String dquote s ++ String dquote "") l)
       ++ "]")%string.

(** A runtime for running the code on concrete companies.  It prints
    natural numbers and confidence values, parses digit strings, and knows
    no dates; the examples consult nothing else of it. *)
Definition rt : runtime :=
  mkRuntime number_to_string string_to_number parse_int json
            (fun _ => None)
            (fun _ => "2025-09-06T11:31:07.000Z")
            (fun _ => "2025-09-06")
            1757158267000%Z
            (fun _ now => now).

(** A network on which every scraped page is empty. *)
Definition silent_jobs : JobScraperFallback.network :=
  JobScraperFallback.mkNetwork
    (fun _ => JobScraperFallback.Method.empty)
    (fun _ => JobScraperFallback.Method.empty).

Definition silent_funding : FundingScraperFallback.network :=
  FundingScraperFallback.mkNetwork
    (fun _ => FundingScraperFallback.Method.empty)
    (fun _ => FundingScraperFallback.Method.empty).

(** The primary API answers every request with an empty result. *)
Definition no_jobs : nat -> http (list JobAnalyzerEnhanced.job) :=
  fun _ => Response [].

Definition no_funding : nat -> http FundingAnalyzerEnhanced.crunchbase :=
  fun _ => Response (FundingAnalyzerEnhanced.mkCrunchbase None []).

Definition start : world := mkWorld 0 [].

(** A company with a LinkedIn URL and a given head count, without and with
    a website. *)
Definition company (employees : float) : object :=
  [ ("name", VStr "Acme");
    ("linkedin_url", VStr "https://www.linkedin.com/company/acme");
    ("employee_count", VNum employees) ].

Definition company_with_site (employees : float) : object :=
  [ ("name", VStr "Acme");
    ("website", VStr "https://acme.example");
    ("linkedin_url", VStr "https://www.linkedin.com/company/acme");
    ("employee_count", VNum employees) ].

(** A network on which the career page lists one opening, and one on which
    the press page carries one funding announcement. *)
Definition career_found : JobScraperFallback.network :=
  JobScraperFallback.mkNetwork
    (fun _ => JobScraperFallback.Method.mk true ["Account Executive"]
                true false false)
    (fun _ => JobScraperFallback.Method.empty).

Definition press_found : FundingScraperFallback.network :=
  FundingScraperFallback.mkNetwork
    (fun _ => FundingScraperFallback.Method.mk true
                [FundingScraperFallback.mkRound "$5 million" "series a"
                   "2025-03-01" "Acme raises $5 million Series A..."]
                [FundingScraperFallback.mkDetail "press_release"
                   (Some "https://acme.example/press")
                   "Acme raises $5 million Series A..." "2025-03-01"])
    (fun _ => FundingScraperFallback.Method.empty).

(** A press page with four announcements. *)
Definition four_announcements : FundingScraperFallback.Method.t :=
  FundingScraperFallback.Method.mk true
    [ FundingScraperFallback.mkRound "" "seed" "2021-01-10" "Seed...";
      FundingScraperFallback.mkRound "" "series a" "2022-02-10" "Series A...";
      FundingScraperFallback.mkRound "" "series b" "2023-03-10" "Series B...";
      FundingScraperFallback.mkRound "" "series c" "2024-04-10" "Series C..." ]
    [ FundingScraperFallback.mkDetail "press_release" None "Seed..." "2021-01-10";
      FundingScraperFallback.mkDetail "press_release" None "Series A..." "2022-02-10";
      FundingScraperFallback.mkDetail "press_release" None "Series B..." "2023-03-10";
      FundingScraperFallback.mkDetail "press_release" None "Series C..." "2024-04-10" ].

(** A primary answer without funding rounds, and the fallback result when
    only the press page found something. *)
Definition unfunded : FundingAnalyzerEnhanced.fundingData :=
  FundingAnalyzerEnhanced.analysis rt 12
    (FundingAnalyzerEnhanced.mkCrunchbase None []).

Definition four_scraped : FundingScraperFallback.results :=
  FundingFusion.funding_tiers rt 12 four_announcements
    FundingScraperFallback.Method.empty FundingScraperFallback.Method.empty.

(** A row with a LinkedIn URL, as read from a CSV file, and a profile
    endpoint that reports 45 employees. *)
Definition listed : object :=
  [ ("name", VStr "Globex");
    ("website", VStr "https://globex.example");
    ("linkedin_url", VStr "https://www.linkedin.com/company/globex");
    ("booth", VStr "B12") ].



(** A profile endpoint that reports 5, 45 and 250 employees on its first
    three requests. *)
Definition head_counts : nat -> http EmployeeAnalyzer.profile :=
  fun n => Response (EmployeeAnalyzer.mkProfile
                       (VNum (nth n [5; 45; 250] 0)%float) VUndef VUndef
                       EmployeeAnalyzer.NoRange VUndef VUndef VUndef).

Definition named (name : string) : object :=
  [ ("name", VStr name);
    ("linkedin_url", VStr ("https://www.linkedin.com/company/" ++ name)%string) ].



End Demo.

(* ================================================================== *)
(** * Vocabulary of the properties *)
(* ================================================================== *)

(** The columns written by each stage. *)
Definition job_columns : list string :=
  [ "has_recent_jobs"; "has_sales_jobs"; "has_marketing_jobs"; "has_bd_jobs";
    "recent_job_titles"; "job_posting_dates"; "recent_job_count";
    "hiring_urgency"; "job_data_sources"; "job_confidence" ].

Definition funding_columns : list string :=
  [ "has_funding_data"; "has_recent_funding_1yr"; "funding_details";
    "last_funding_date"; "crunchbase_url"; "funding_rounds"; "total_funding";
    "funding_data_sources"; "funding_confidence" ].

Definition employee_columns : list string :=
  [ "employee_count"; "employee_range"; "in_target_range_11_200";
    "employee_data_source" ].

Definition stamp_columns : list string :=
  [ "priority_score"; "processing_date"; "processing_notes" ].

(** The columns written after the employee stage, and the columns any
    stage writes. *)
Definition later_columns : list string :=
  funding_columns ++ job_columns ++ stamp_columns.

Definition enrichment_columns : list string :=
  employee_columns ++ later_columns.


(** [0 <= x <= 1] on JavaScript numbers. *)
Definition within_unit (x : float) : Prop :=
  PrimFloat.leb 0 x = true /\ PrimFloat.leb x 1 = true.

(** [c'] is [c] after assignments to the columns [W] only: every other
    column reads the same, and no column disappears. *)
Definition extends (W : list string) (c c' : object) : Prop :=
  (forall k, Consolidator.mem k W = false -> get k c' = get k c)
  /\ (forall k, In k (keys c) -> In k (keys c')).



(** [ys] lists, in order, the images of the elements of [xs] that were
    kept: the effect of a filtering stage. *)
Inductive Kept {A B : Type} (R : A -> B -> Prop) : list A -> list B -> Prop :=
| Kept_nil : Kept R [] []
| Kept_keep x y xs ys : R x y -> Kept R xs ys -> Kept R (x :: xs) (y :: ys)
| Kept_drop x xs ys : Kept R xs ys -> Kept R (x :: xs) ys.

(** A tail that cannot complete a separator begun by the last character of
    the piece before it: it is empty or does not start with a space. *)
Definition no_space_head (tail : string) : Prop :=
  match tail with
  | String c _ => c <> " "%char
  | EmptyString => True
  end.


(* ================================================================== *)
(** * modules/job-analyzer-enhanced.js: [isJobRecent] *)
(* ================================================================== *)

Module Recency.

Definition backslash : ascii := ascii_of_nat 92.

(** The longest run of the character [c] at the head of [s], and what
    follows it. *)
Fixpoint run (c : ascii) (s : string) : string * string :=
  match s with
  | String c' s' =>
      if Ascii.eqb c' c
      then let (r, rest) := run c s' in (String c' r, rest)
      else (EmptyString, s)
  | EmptyString => (EmptyString, EmptyString)
  end.

(** A match of [/(\\d+)\\s*unit/] that starts at the head of [s].  In the
    source of the enhanced analyzer the backslashes of the two patterns are
    themselves escaped, so each pattern reads: a backslash, one or more
    letters d, a backslash, any number of letters s, the unit.  The result
    is the first group, the backslash with the letters d. *)
Definition match_here (unit s : string) : option string :=
  match s with
  | String c s1 =>
      if Ascii.eqb c backslash then
        match run "d" s1 with
        | (String d ds, String c' s2) =>
            if Ascii.eqb c' backslash then
              if String.prefix unit (snd (run "s" s2))
              then Some (String c (String d ds))
              else None
            else None
        | _ => None
        end
      else None
  | EmptyString => None
  end.

(** [s.match(/(\\d+)\\s*unit/)]: the first group of the leftmost match. *)
Fixpoint match_escaped (unit s : string) : option string :=
  match match_here unit s with
  | Some group => Some group
  | None =>
      match s with
      | String _ s' => match_escaped unit s'
      | EmptyString => None
      end
  end.

Section Recency.
Context (rt : runtime).
(** [this.config.recent_threshold_weeks]. *)
Context (recent_threshold_weeks : float).

Definition isJobRecent (postedTime : option string) : bool :=
  match postedTime with
  | None => false
  | Some posted =>
      if String.eqb posted "" then false
      else
        let timeStr := toLowerCase posted in
        let thresholdDays := (recent_threshold_weeks * 7)%float in
        if includes timeStr "hour" || includes timeStr "minute"
           || includes timeStr "second"
        then true
        else if includes timeStr "day" then
          match match_escaped "day" timeStr with
          | Some group => PrimFloat.leb (parseInt rt group) thresholdDays
          | None => true
          end
        else if includes timeStr "week" then
          match match_escaped "week" timeStr with
          | Some group => PrimFloat.leb (parseInt rt group) recent_threshold_weeks
          | None => true
          end
        else false
  end.

End Recency.

End Recency.

(* ================================================================== *)
(** * modules/job-scraper-fallback.js: the two page scrapers *)
(* ================================================================== *)

(** [JobScraperFallback] above takes the outcome of a page scrape from the
    network.  Here the two scrapers are followed request by request; what
    is left to the outside is the answer to each request and what cheerio
    selects from it. *)
Module JobPages.

Import JobScraperFallback.

(** A fetched page, as the scraper looks at it: the text of each element
    its selector matches, in document order, and the text of the body. *)
Record page : Type := mkPage {
  elements : list string;
  body : string
}.

Definition careerPaths : list string :=
  [ "/careers"; "/career"; "/jobs"; "/join-us"; "/work-with-us";
    "/opportunities"; "/hiring"; "/open-positions"; "/employment";
    "/careers/"; "/jobs/"; "/team/careers"; "/company/careers" ].

Definition jobKeywords : list string :=
  [ "hiring"; "join"; "position"; "role"; "opportunity"; "career";
    "we are looking"; "seeking"; "recruiting"; "apply now" ].

Definition containsJobKeywords (text : string) : bool :=
  existsb (fun keyword => includes text keyword) jobKeywords.

(** The [hiringIndicators] of [scrapeCareerPage] and of
    [scrapeLinkedInPublic]. *)
Definition careerIndicators : list string :=
  [ "we are hiring"; "now hiring"; "join our team"; "open positions";
    "careers"; "work with us"; "come work"; "hiring" ].

Definition linkedinIndicators : list string :=
  [ "we're hiring"; "now hiring"; "join us"; "careers"; "open roles" ].

(** [hiringIndicators.some(indicator => pageText.includes(indicator))] *)
Definition hasHiringSignals (indicators : list string) (p : page) : bool :=
  existsb (fun indicator => includes (toLowerCase (body p)) indicator)
          indicators.

(** [s.substring(0, n)]. *)
Definition substring_to (n : nat) (s : string) : string :=
  String.substring 0 n s.

(** The callback of [each]: an element that mentions a job keyword
    contributes a title (as [shown] prints it) and its role flags. *)
Definition note (shown : string -> string) (results : Method.t)
           (elem : string) : Method.t :=
  let text := toLowerCase elem in
  if containsJobKeywords text then
    Method.mk (Method.found results)
              (Method.titles results ++ [shown elem])
              (Method.hasSales results || matchesRolePattern text salesPatterns)
              (Method.hasMarketing results
               || matchesRolePattern text marketingPatterns)
              (Method.hasBD results || matchesRolePattern text bdPatterns)
  else results.

Definition career_title (elem : string) : string := trim elem.

Definition post_title (elem : string) : string :=
  (substring_to 100 (trim elem) ++ "...")%string.

Definition with_found (found : bool) (results : Method.t) : Method.t :=
  Method.mk found (Method.titles results) (Method.hasSales results)
            (Method.hasMarketing results) (Method.hasBD results).

Section Scrapers.
Context (rt : runtime).
(** [new URL(path, base).toString()], [None] when the constructor
    throws. *)
Context (URL_resolve : string -> string -> option string).
(** [axios.get(url)] followed by [cheerio.load]: the page, or the error
    axios raises (for the career pages also on a status of 400 and
    above). *)
Context (fetch : string -> nat -> http page).

(** The [for] loop over the career paths: a path whose URL cannot be built
    or whose request fails is skipped; the first page with a title or a
    hiring indicator ends the loop. *)
Fixpoint visit (website : string) (paths : list string) (results : Method.t)
  : M Method.t :=
  match paths with
  | [] => ret results
  | path :: rest =>
      match URL_resolve path website with
      | None => visit website rest results
      | Some careerUrl =>
          (answer <- interact CareerPage (fetch careerUrl) ;;
           match answer with
           | Failure _ => visit website rest results
           | Response p =>
               let results' :=
                 fold_left (note career_title) (elements p) results in
               if Nat.ltb 0 (List.length (Method.titles results'))
                  || hasHiringSignals careerIndicators p
               then ret (with_found true results')
               else visit website rest results'
           end)%eff
      end
  end.

Definition scrapeCareerPage (company : object) : M Method.t :=
  let website := get "website" company in
  if negb (truthy website) then ret Method.empty
  else visit (to_string rt website) careerPaths Method.empty.

Definition scrapeLinkedInPublic (company : object) : M Method.t :=
  let linkedinUrl :=
    or_else (get "linkedin_url" company) (get "linkedin" company) in
  if negb (truthy linkedinUrl) then ret Method.empty
  else
    (answer <- interact LinkedInPublic (fetch (to_string rt linkedinUrl)) ;;
     match answer with
     | Failure _ => ret Method.empty
     | Response p =>
         let results :=
           fold_left (note post_title) (elements p) Method.empty in
         ret (with_found
                (hasHiringSignals linkedinIndicators p
                 || Nat.ltb 0 (List.length (Method.titles results)))
                results)
     end)%eff.

End Scrapers.

End JobPages.

(* ================================================================== *)
(** * modules/funding-scraper-fallback.js: the two page scrapers *)
(* ================================================================== *)

Module FundingPages.

Import FundingScraperFallback.

(** An element the press-release selector matches: its text and the text
    of its parent. *)
Record element : Type := mkElement {
  elem_text : string;
  parent_text : string
}.

Definition fundingKeywords : list string :=
  [ "raised"; "funding"; "investment"; "round"; "capital";
    "series a"; "series b"; "series c"; "seed"; "pre-seed";
    "venture capital"; "vc"; "angel"; "investor"; "closes";
    "secures funding"; "announces funding"; "completes";
    "million"; "billion"; "$"; "EUR"; "€"; "£"; "investment round";
    "led by"; "participated"; "backing"; "startup funding" ].

(** The sources of the regular expressions of [fundingAmountPatterns]
    (flags [gi]) and of [extractDate] (the first with flags [gi], the
    others with [g]). *)
Definition fundingAmountPatterns : list string :=
  [ "\$[\d,.]+ ?(million|billion|m|b|k)";
    "€[\d,.]+ ?(million|billion|m|b|k)";
    "£[\d,.]+ ?(million|billion|m|b|k)";
    "[\d,.]+ ?(million|billion) dollars?" ].

Definition datePatterns : list (string * string) :=
  [ ("\b(january|february|march|april|may|june|july|august|september|october|november|december)\s+\d{1,2},?\s+\d{4}",
     "gi");
    ("\b\d{1,2}\/\d{1,2}\/\d{4}", "g");
    ("\b\d{4}-\d{2}-\d{2}", "g");
    ("\b\d{1,2}-\d{1,2}-\d{4}", "g") ].

Definition roundPatterns : list string :=
  [ "series a"; "series b"; "series c"; "series d";
    "seed"; "pre-seed"; "angel"; "bridge"; "ipo" ].

Definition pressPaths : list string :=
  [ "/press"; "/news"; "/press-releases"; "/newsroom"; "/media";
    "/press/"; "/news/"; "/announcements"; "/blog"; "/updates";
    "/company/news"; "/about/news"; "/investors/news" ].

Definition containsFundingKeywords (text : string) : bool :=
  existsb (fun keyword => includes text keyword) fundingKeywords.

(** [a || b] on strings. *)
Definition or_string (a b : string) : string :=
  if String.eqb a "" then b else a.

Definition substring_to (n : nat) (s : string) : string :=
  String.substring 0 n s.

Section Scrapers.
Context (rt : runtime).
(** [text.match(new RegExp(source, flags))]: the first match, [None] when
    there is none. *)
Context (RegExp_match : string -> string -> string -> option string).
Context (URL_resolve : string -> string -> option string).
(** The elements the selector matches on the fetched page, or the error
    axios raises. *)
Context (fetch_press : string -> nat -> http (list element)).
Context (fetch_linkedin : string -> nat -> http (list string)).

(** The first pattern that matches decides. *)
Definition first_match (patterns : list (string * string)) (text : string)
  : option string :=
  fold_right
    (fun pattern later =>
       match RegExp_match (fst pattern) (snd pattern) text with
       | Some found => Some found
       | None => later
       end)
    None patterns.

Definition extractDate (text : string) : string :=
  match first_match datePatterns text with
  | Some found => found
  | None => Date_toISODate rt (Date_now rt)
  end.

Definition extractFundingInfo (originalText lowerText : string)
  : option round :=
  let amount :=
    match first_match (map (fun source => (source, "gi"))
                           fundingAmountPatterns) originalText with
    | Some found => found
    | None => ""
    end in
  let roundType :=
    match find (fun round => includes lowerText round) roundPatterns with
    | Some round => round
    | None => ""
    end in
  if negb (String.eqb amount "") || negb (String.eqb roundType "")
     || containsFundingKeywords lowerText
  then Some (mkRound amount (or_string roundType "funding")
               (extractDate originalText)
               (substring_to 100 originalText ++ "..."))
  else None.

(** The callback of [each] in [scrapePressReleases]. *)
Definition note_release (pressUrl : string) (results : Method.t)
           (elem : element) : Method.t :=
  let text := elem_text elem in
  let textLower := toLowerCase text in
  if containsFundingKeywords textLower then
    match extractFundingInfo text textLower with
    | Some fundingInfo =>
        Method.mk (Method.found results)
                  (Method.rounds results ++ [fundingInfo])
                  (Method.details results
                   ++ [mkDetail "press_release" (Some pressUrl)
                         (substring_to 200 text ++ "...")
                         (extractDate (parent_text elem))])
    | None => results
    end
  else results.

(** The callback of [each] in [scrapeLinkedInFunding]. *)
Definition note_post (linkedinUrl : string) (results : Method.t)
           (postText : string) : Method.t :=
  let textLower := toLowerCase postText in
  if containsFundingKeywords textLower then
    match extractFundingInfo postText textLower with
    | Some fundingInfo =>
        Method.mk true
                  (Method.rounds results ++ [fundingInfo])
                  (Method.details results
                   ++ [mkDetail "linkedin_announcement" (Some linkedinUrl)
                         (substring_to 200 postText ++ "...")
                         (extractDate postText)])
    | None => results
    end
  else results.

Fixpoint visit (website : string) (paths : list string) (results : Method.t)
  : M Method.t :=
  match paths with
  | [] => ret results
  | path :: rest =>
      match URL_resolve path website with
      | None => visit website rest results
      | Some pressUrl =>
          (answer <- interact PressReleases (fetch_press pressUrl) ;;
           match answer with
           | Failure _ => visit website rest results
           | Response elems =>
               let results' := fold_left (note_release pressUrl) elems results in
               if Nat.ltb 0 (List.length (Method.rounds results'))
               then ret (Method.mk true (Method.rounds results')
                           (Method.details results'))
               else visit website rest results'
           end)%eff
      end
  end.

Definition scrapePressReleases (company : object) : M Method.t :=
  let website := get "website" company in
  if negb (truthy website) then ret Method.empty
  else visit (to_string rt website) pressPaths Method.empty.

Definition scrapeLinkedInFunding (company : object) : M Method.t :=
  let linkedinUrl :=
    or_else (get "linkedin_url" company) (get "linkedin" company) in
  if negb (truthy linkedinUrl) then ret Method.empty
  else
    (answer <-
       interact LinkedInAnnouncements
         (fetch_linkedin (to_string rt linkedinUrl)) ;;
     match answer with
     | Failure _ => ret Method.empty
     | Response posts =>
         ret (fold_left (note_post (to_string rt linkedinUrl)) posts
                        Method.empty)
     end)%eff.

End Scrapers.

End FundingPages.

(* ================================================================== *)
(** * modules/employee-analyzer.js: the counters and the report *)
(* ================================================================== *)

(** [EmployeeAnalyzer.process] above is the array of companies after the
    stage.  Here the same loop also keeps [this.results] and builds the
    object that [process] returns to the pipeline. *)
Module EmployeeReport.

Import EmployeeAnalyzer.

(** [this.results]; an entry of [errors] is [{ company, error }]. *)
Record tallies : Type := mkTallies {
  processed : nat;
  successful : nat;
  inTargetRange : nat;
  errors : list (value * string)
}.

(** The counters of a new analyzer. *)
Definition fresh : tallies := mkTallies 0 0 0 [].

(** The object built by [getSummary]. *)
Record summary : Type := mkSummary {
  summary_processed : nat;
  summary_successful : nat;
  successRate : value;
  qualifiedCount : nat;
  errorCount : nat
}.

(** The object returned by [process]. *)
Record report : Type := mkReport {
  results : list employeeData;
  report_summary : summary;
  filteredCount : nat;
  originalCount : nat
}.

(** The loop variables: [this.results], [results] and
    [filteredCompanies]. *)
Record progress : Type := mkProgress {
  counts : tallies;
  answers : list employeeData;
  filteredCompanies : list object
}.

Section Report.
Context (rt : runtime).
Context (profile_answer : nat -> http profile).
Context (min max : float).
(** [x.toFixed(1)]. *)
Context (toFixed1 : float -> string).

(** The loop body. *)
Definition step (st : progress) (company : object) : M progress :=
  try_catch
    (employeeData <- getEmployeeCountWithRetry rt profile_answer min max company ;;
     ret (mkProgress
            (mkTallies
               (S (processed (counts st)))
               (successful (counts st)
                + (if api_success employeeData then 1 else 0))
               (inTargetRange (counts st)
                + (if in_target_range_11_200 employeeData then 1 else 0))
               (errors (counts st)))
            (answers st ++ [employeeData])
            (if in_target_range_11_200 employeeData
             then filteredCompanies st ++ [record_fields employeeData company]
             else filteredCompanies st)))%eff
    (fun e =>
       ret (mkProgress
              (mkTallies (processed (counts st)) (successful (counts st))
                         (inTargetRange (counts st))
                         (errors (counts st)
                          ++ [(get "name" company, message e)]))
              (answers st)
              (filteredCompanies st))).

Fixpoint loop (companies : list object) (st : progress) : M progress :=
  match companies with
  | [] => ret st
  | company :: rest => (st' <- step st company ;; loop rest st')%eff
  end.

Definition getSummary (r : tallies) : summary :=
  mkSummary
    (processed r)
    (successful r)
    (if Nat.ltb 0 (processed r)
     then VStr (toFixed1 (of_nat (successful r) / of_nat (processed r) * 100)%float)
     else VNum 0)
    (inTargetRange r)
    (List.length (errors r)).

(** [process(companies)] on an analyzer whose counters are [this_results]:
    the array [companies] as the stage leaves it, and the returned
    object.  [originalCount] is computed after the array has been replaced
    by the filtered list. *)
Definition process (this_results : tallies) (companies : list object)
  : M (list object * report) :=
  (st <- loop companies (mkProgress this_results [] []) ;;
   let companies' := filteredCompanies st in
   ret (companies',
        mkReport (answers st)
                 (getSummary (counts st))
                 (List.length (filteredCompanies st))
                 (List.length companies'
                  + List.length (filteredCompanies st))))%eff.

End Report.

End EmployeeReport.

(* ================================================================== *)
(** * [ExpoPipeline.getPipelineStages] *)
(* ================================================================== *)

Module ExpoPipeline.

(** The names of [allStages], in pipeline order. *)
Definition allStages : list string :=
  [ "linkedin_enhancement"; "employee_analysis"; "funding_analysis";
    "job_analysis" ].

(** [stages.findIndex(stage => stage.name === resumeFrom)]; [None] is the
    index -1. *)
Fixpoint findIndex (resumeFrom : value) (stages : list string) : option nat :=
  match stages with
  | [] => None
  | name :: rest =>
      if is_str resumeFrom name then Some 0
      else match findIndex resumeFrom rest with
           | Some i => Some (S i)
           | None => None
           end
  end.

Section Stages.
Context (rt : runtime).
(** [this.config.stages]: for each stage name the value of
    [this.config.stages[name]?.enabled]; [None] when the configuration has
    no [stages] object. *)
Context (config_stages : option (string -> value)).

Definition getPipelineStages (resumeFrom : value) : result (list string) :=
  if truthy resumeFrom then
    match findIndex resumeFrom allStages with
    | None =>
        Throw (mkError ("Invalid resume stage: " ++ to_string rt resumeFrom)
                       None)
    | Some resumeIndex => Ok (skipn resumeIndex allStages)
    end
  else
    match config_stages with
    | None =>
        Throw (mkError
                 "Cannot read properties of undefined (reading 'linkedin_enhancement')"
                 None)
    | Some enabled => Ok (filter (fun name => truthy (enabled name)) allStages)
    end.

End Stages.

End ExpoPipeline.

(* ================================================================== *)
(** * modules/consolidator.js: the name of the results file *)
(* ================================================================== *)

Module OutputFile.

Definition lower_or_digit (c : ascii) : bool :=
  let n := nat_of_ascii c in
  (Nat.leb 97 n && Nat.leb n 122) || (Nat.leb 48 n && Nat.leb n 57).

(** [s.replace(/[^a-z0-9]/g, '_')] *)
Fixpoint underscore_others (s : string) : string :=
  match s with
  | EmptyString => EmptyString
  | String c s' =>
      String (if lower_or_digit c then c else "_"%char) (underscore_others s')
  end.

(** [s.replace(/[:.]/g, '-')] *)
Fixpoint dash_marks (s : string) : string :=
  match s with
  | EmptyString => EmptyString
  | String c s' =>
      String (if Ascii.eqb c ":"%char || Ascii.eqb c "."%char
              then "-"%char else c)
             (dash_marks s')
  end.

(** [s.slice(0, -n)] *)
Definition slice_end (n : nat) (s : string) : string :=
  String.substring 0 (String.length s - n) s.

Definition cleanExpoName (expoName : string) : string :=
  underscore_others (toLowerCase expoName).

Definition timestamp (rt : runtime) : string :=
  slice_end 5 (dash_marks (Date_toISOString rt (Date_now rt))).

(** The name that [path.join] appends to the [results] directory. *)
Definition fileName (rt : runtime) (expoName : string) : string :=
  (cleanExpoName expoName ++ "_processed_" ++ timestamp rt ++ ".csv")%string.

End OutputFile.

(* ================================================================== *)
(** * Further environments for the examples *)
(* ================================================================== *)

Module Samples.

(** A profile endpoint that answers every request with a status 429. *)
Definition rate_limited : nat -> http EmployeeAnalyzer.profile :=
  fun _ => Failure (mkError "Request failed with status code 429" (Some 429)).

End Samples.

(* ================================================================== *)
(** * Reading a CSV record *)
(* ================================================================== *)

(** The fields of one record of a CSV file: a comma outside double quotes
    ends a field, a double quote opens or closes a quoted section.  [inside]
    tells whether the scan is in a quoted section, [cur] is the current
    field, reversed.  The fields are returned as written, quotes
    included. *)
Fixpoint fields_from (inside : bool) (cur s : string) : list string :=
  match s with
  | EmptyString => [rev_string "" cur]
  | String c s' =>
      if Ascii.eqb c dquote
      then fields_from (negb inside) (String c cur) s'
      else if Ascii.eqb c ","%char && negb inside
           then rev_string "" cur :: fields_from false "" s'
           else fields_from inside (String c cur) s'
  end.

Definition fields (s : string) : list string := fields_from false "" s.

(** The content of a quoted section once its closing quote is dropped: a
    doubled quote stands for one quote. *)
Fixpoint undouble (s : string) : string :=
  match s with
  | EmptyString => EmptyString
  | String a rest =>
      match rest with
      | EmptyString => if Ascii.eqb a dquote then EmptyString else s
      | String b rest' =>
          if Ascii.eqb a dquote && Ascii.eqb b dquote
          then String dquote (undouble rest')
          else String a (undouble rest)
      end
  end.

(** The text a field stands for: a field that starts with a double quote is
    unwrapped and its doubled quotes are halved; any other field is taken
    as it is. *)
Definition field_text (field : string) : string :=
  match field with
  | String c rest => if Ascii.eqb c dquote then undouble rest else field
  | EmptyString => EmptyString
  end.

(** A text that a reader passes over without ending the field: scanned from
    outside a quoted section, it leaves the reader outside one. *)
Definition self_contained (t : string) : Prop :=
  forall cur rest,
    fields_from false cur (t ++ rest) = fields_from false (rev_string cur t) rest.

(* ================================================================== *)
(** * modules/employee-analyzer.js: [isInTargetRange] with both patterns *)
(* ================================================================== *)

(** [EmployeeAnalyzer.isInTargetRange] above leaves out the second pattern
    of the source.  Here the function is followed branch by branch. *)
Module TargetRange.

Import EmployeeAnalyzer.

Section TargetRange.
Context (rt : runtime).
Context (min max : float).
(** Whether [\s*employees?], read without regard to case, matches at the
    head of a text. *)
Context (employees_follow : string -> bool).

(** [s.match(/(\d+)-(\d+)\s*employees?/i)]: the two groups of the leftmost
    match. *)
Fixpoint match_range_employees (s : string) : option (string * string) :=
  match s with
  | EmptyString => None
  | String _ s' =>
      match digits s with
      | (String a d1, String sep rest) =>
          if Ascii.eqb sep "-"%char then
            match digits rest with
            | (String b d2, after) =>
                if employees_follow after
                then Some (String a d1, String b d2)
                else match_range_employees s'
            | _ => match_range_employees s'
            end
          else match_range_employees s'
      | _ => match_range_employees s'
      end
  end.

(** [rangeStart <= max && rangeEnd >= min] *)
Definition overlaps (groups : string * string) : bool :=
  PrimFloat.leb (parseInt rt (fst groups)) max
  && PrimFloat.leb min (parseInt rt (snd groups)).

Definition isInTargetRange (employeeCount employeeRange : value) : bool :=
  if truthy employeeCount
     && negb (is_nan (parseInt rt (to_string rt employeeCount)))
  then
    let count := parseInt rt (to_string rt employeeCount) in
    PrimFloat.leb min count && PrimFloat.leb count max
  else
    match employeeRange with
    | VStr s =>
        if truthy employeeRange then
          match match_range s with
          | Some rangeMatch => overlaps rangeMatch
          | None =>
              match match_range_employees s with
              | Some employeeMatch => overlaps employeeMatch
              | None => false
              end
          end
        else false
    | _ => false
    end.

End TargetRange.

End TargetRange.

(* ================================================================== *)
(** * Properties *)
(* ================================================================== *)

(** ** Objects *)

Lemma get_set_same (k : string) (v : value) (o : object) :
  get k (set k v o) = v.
Proof.
  induction o as [|[k' v'] o IH]; simpl.
  - now rewrite String.eqb_refl.
  - destruct (String.eqb k k') eqn:E; simpl.
    + now rewrite String.eqb_refl.
    + now rewrite E.
Qed.

Lemma get_set_other (k k' : string) (v : value) (o : object) :
  String.eqb k k' = false -> get k (set k' v o) = get k o.
Proof.
  intros Hk. induction o as [|[k'' v''] o IH]; simpl.
  - now rewrite Hk.
  - destruct (String.eqb k' k'') eqn:E; simpl.
    + apply String.eqb_eq in E. subst k''. now rewrite Hk.
    + destruct (String.eqb k k''); [reflexivity | exact IH].
Qed.


Lemma keys_set_new (k : string) (v : value) (o : object) :
  In k (keys (set k v o)).
Proof.
  unfold keys. induction o as [|[k' v'] o IH]; simpl; [now left|].
  destruct (String.eqb k k') eqn:E; simpl; [now left | now right].
Qed.

(** Reading a field through a stack of assignments. *)
Ltac read_field :=
  repeat first
    [ rewrite get_set_same
    | rewrite get_set_other by reflexivity ].

(** ** The monad *)

Lemma for_each_total {A B : Type} (R : A -> B -> Prop) (body : A -> M B) :
  (forall x w, exists y w', body x w = (Ok y, w') /\ R x y) ->
  forall xs w, exists ys w',
    for_each body xs w = (Ok ys, w') /\ Forall2 R xs ys.
Proof.
  intros Hbody xs. induction xs as [|x xs IH]; intros w; simpl.
  - exists [], w. split; [reflexivity | constructor].
  - destruct (Hbody x w) as (y & w1 & Hy & HR).
    destruct (IH w1) as (ys & w2 & Hys & HRs).
    exists (y :: ys), w2. unfold bind, ret. rewrite Hy, Hys.
    split; [reflexivity | now constructor].
Qed.

(** ** The job fallback scraper *)

Section JobScraperFacts.
Context (rt : runtime) (net : JobScraperFallback.network).

Import JobScraperFallback.

Lemma searchGoogleHiring_run (company : object) (w : world) :
  searchGoogleHiring rt company w
  = (Ok (Fusion.google_method rt company),
     mkWorld (tick w) (SearchEngine :: trace w)).
Proof.
  unfold searchGoogleHiring, Fusion.google_method, bind, record_call, ret.
  simpl. now destruct (Nat.ltb 0 _).
Qed.

(** [findJobOpenings] always returns, and its result is the combination of
    the three methods' results; the search method always runs. *)
Lemma findJobOpenings_run (company : object) (w : world) :
  exists career linkedin w',
    findJobOpenings rt net company w
    = (Ok (Fusion.job_tiers career (Fusion.google_method rt company) linkedin), w')
    /\ invoked SearchEngine w' = true.
Proof.
  unfold findJobOpenings, Fusion.job_tiers, bind.
  destruct (truthy (get "website" company)) eqn:Hweb.
  - unfold scrapeCareerPage. rewrite Hweb. unfold interact at 1. cbn beta iota.
    unfold ret at 1. rewrite searchGoogleHiring_run.
    destruct (truthy (get "linkedin_url" company) || truthy (get "linkedin" company))
      eqn:Hli.
    + unfold scrapeLinkedInPublic, or_else.
      assert (Hor : truthy (if truthy (get "linkedin_url" company)
                            then get "linkedin_url" company
                            else get "linkedin" company) = true).
      { destruct (truthy (get "linkedin_url" company)) eqn:E; [exact E|exact Hli]. }
      rewrite Hor. unfold interact, ret. cbn.
      eexists _, _, _. split; reflexivity.
    + unfold ret. exists (career_page_answer net (tick w)), Method.empty.
      eexists. split; reflexivity.
  - unfold ret at 1. rewrite searchGoogleHiring_run.
    destruct (truthy (get "linkedin_url" company) || truthy (get "linkedin" company))
      eqn:Hli.
    + unfold scrapeLinkedInPublic, or_else.
      assert (Hor : truthy (if truthy (get "linkedin_url" company)
                            then get "linkedin_url" company
                            else get "linkedin" company) = true).
      { destruct (truthy (get "linkedin_url" company)) eqn:E; [exact E|exact Hli]. }
      rewrite Hor. unfold interact, ret. cbn.
      exists Method.empty. eexists _, _. split; reflexivity.
    + unfold ret. exists Method.empty, Method.empty.
      eexists. split; reflexivity.
Qed.

(** The labels pushed by the three methods. *)
Lemma job_tiers_sources (career google linkedin : Method.t) :
  sources (Fusion.job_tiers career google linkedin)
  = (if Method.found career then ["career_page"] else [])
    ++ (if Method.found google then ["google_search"] else [])
    ++ (if Method.found linkedin then ["linkedin_public"] else []).
Proof.
  unfold Fusion.job_tiers, finish, absorb.
  destruct (Method.found career), (Method.found google), (Method.found linkedin);
    reflexivity.
Qed.

Lemma job_tiers_confidence (career google linkedin : Method.t) :
  confidence (Fusion.job_tiers career google linkedin)
  = calculateJobConfidence (sources (Fusion.job_tiers career google linkedin)).
Proof. reflexivity. Qed.

Lemma job_tiers_titles (career google linkedin : Method.t) :
  jobTitles (Fusion.job_tiers career google linkedin)
  = (if Method.found career then Method.titles career else [])
    ++ (if Method.found google then Method.titles google else [])
    ++ (if Method.found linkedin then Method.titles linkedin else []).
Proof.
  unfold Fusion.job_tiers, finish, absorb.
  destruct (Method.found career), (Method.found google), (Method.found linkedin);
    simpl; rewrite ?app_nil_r, <- ?app_assoc; reflexivity.
Qed.

End JobScraperFacts.

(** ** The enhanced job analyzer *)

Section JobAnalyzerFacts.
Context (rt : runtime) (net : JobScraperFallback.network).
Context (jobs_answer : nat -> http (list JobAnalyzerEnhanced.job)).
Context (isJobRecent : option string -> bool).

Import JobAnalyzerEnhanced.

Local Abbreviation getJobData := (getJobData jobs_answer isJobRecent).
Local Abbreviation analysis := (analysis isJobRecent).
Local Abbreviation fuse := (fuse rt net jobs_answer isJobRecent).
Local Abbreviation process_company :=
  (process_company rt net jobs_answer isJobRecent).

(** A successful primary call returns the analysis of some answer. *)
Lemma getJobData_returns (company : object) (w w' : world) (d : jobData) :
  getJobData company w = (Ok d, w') -> exists allJobs, d = analysis allJobs.
Proof.
  unfold JobAnalyzerEnhanced.getJobData.
  destruct (negb _ && negb _); [discriminate|].
  unfold bind, interact, ret, throw.
  destruct (jobs_answer (tick w)) as [jobs|e].
  - intros [= <- _]. now exists jobs.
  - destruct (status_is e 400); [|discriminate].
    cbn. destruct (jobs_answer (S (tick w))) as [jobs|e']; [|discriminate].
    intros [= <- _]. now exists jobs.
Qed.

Lemma getJobDataWithRetry_left_returns (left : nat) (company : object)
      (w w' : world) (d : jobData) :
  getJobDataWithRetry_left jobs_answer isJobRecent left company w = (Ok d, w') ->
  exists allJobs, d = analysis allJobs.
Proof.
  revert w. induction left as [|left IH]; intros w; simpl; unfold try_catch;
    destruct (getJobData company w) as [[d0|e] w0] eqn:E.
  - intros [= <- _]. eapply getJobData_returns; eauto.
  - discriminate.
  - intros [= <- _]. eapply getJobData_returns; eauto.
  - destruct (status_is e 429); [apply IH | discriminate].
Qed.

(** The fused data of a company: an exception, the primary analysis, or the
    primary analysis merged with a fallback result that found something. *)
Lemma fuse_cases (company : object) (w : world) :
  exists w',
    (exists e, fuse company w = (Throw e, w'))
    \/ (exists d, fuse company w = (Ok d, w') /\ Fusion.job_fused isJobRecent d).
Proof.
  unfold JobAnalyzerEnhanced.fuse, bind, getJobDataWithRetry.
  destruct (getJobDataWithRetry_left jobs_answer isJobRecent maxRetries company w)
    as [[d|e] w1] eqn:E.
  - apply getJobDataWithRetry_left_returns in E as [allJobs ->].
    destruct (shouldUseFallback rt (analysis allJobs) company).
    + destruct (findJobOpenings_run rt net company w1)
        as (career & linkedin & w2 & Hrun & _).
      rewrite Hrun.
      destruct (JobScraperFallback.found
                  (Fusion.job_tiers career (Fusion.google_method rt company) linkedin))
        eqn:Hfound; unfold ret; exists w2; right; eexists; split;
        try reflexivity.
      * now constructor.
      * constructor.
    + unfold ret. exists w1. right. eexists. split; [reflexivity | constructor].
  - exists w1. left. now exists e.
Qed.

(** The loop body never throws: it records the fused data, or the
    defaults. *)
Lemma process_company_cases (company : object) (w : world) :
  exists w',
    ((exists e, fuse company w = (Throw e, w'))
     /\ process_company company w = (Ok (record_defaults company), w'))
    \/ (exists d, fuse company w = (Ok d, w')
                  /\ process_company company w
                     = (Ok (record_fields d company), w')
                  /\ Fusion.job_fused isJobRecent d).
Proof.
  unfold JobAnalyzerEnhanced.process_company, try_catch, bind.
  destruct (fuse_cases company w) as (w' & [(e & H) | (d & H & Hd)]);
    rewrite H; unfold ret; exists w'.
  - left. split; [now exists e | reflexivity].
  - right. now exists d.
Qed.

End JobAnalyzerFacts.

(** ** The funding fallback scraper *)

Section FundingScraperFacts.
Context (rt : runtime) (net : FundingScraperFallback.network).
Context (recentThresholdMonths : nat).

Import FundingScraperFallback.

Lemma searchFundingNews_run (company : object) (w : world) :
  searchFundingNews rt company w
  = (Ok (FundingFusion.news_method rt company),
     mkWorld (tick w) (NewsSearch :: trace w)).
Proof.
  unfold searchFundingNews, FundingFusion.news_method, bind, record_call, ret.
  simpl. now destruct (Nat.ltb 0 _).
Qed.

(** [findFundingData] always returns the combination of the three methods'
    results; the news search always runs. *)
Lemma findFundingData_run (company : object) (w : world) :
  exists press linkedin w',
    findFundingData rt net recentThresholdMonths company w
    = (Ok (FundingFusion.funding_tiers rt recentThresholdMonths
             press (FundingFusion.news_method rt company) linkedin), w')
    /\ invoked NewsSearch w' = true.
Proof.
  unfold findFundingData, FundingFusion.funding_tiers, bind.
  assert (Hor : truthy (get "linkedin_url" company) || truthy (get "linkedin" company)
                = true ->
                truthy (or_else (get "linkedin_url" company) (get "linkedin" company))
                = true).
  { unfold or_else. intros H.
    destruct (truthy (get "linkedin_url" company)) eqn:E; [exact E | exact H]. }
  destruct (truthy (get "website" company)) eqn:Hweb.
  - unfold scrapePressReleases. rewrite Hweb. unfold interact at 1. cbn beta iota.
    unfold ret at 1. rewrite searchFundingNews_run.
    destruct (truthy (get "linkedin_url" company) || truthy (get "linkedin" company))
      eqn:Hli.
    + unfold scrapeLinkedInFunding. rewrite (Hor eq_refl).
      unfold interact, ret. cbn.
      eexists _, _, _. split; reflexivity.
    + unfold ret. exists (press_releases_answer net (tick w)), Method.empty.
      eexists. split; reflexivity.
  - unfold ret at 1. rewrite searchFundingNews_run.
    destruct (truthy (get "linkedin_url" company) || truthy (get "linkedin" company))
      eqn:Hli.
    + unfold scrapeLinkedInFunding. rewrite (Hor eq_refl).
      unfold interact, ret. cbn.
      exists Method.empty. eexists _, _. split; reflexivity.
    + unfold ret. exists Method.empty, Method.empty.
      eexists. split; reflexivity.
Qed.

Lemma finish_sources (r : results) :
  sources (finish rt recentThresholdMonths r) = sources r.
Proof. unfold finish. now destruct (Nat.ltb 0 (List.length (fundingRounds r))). Qed.

Lemma finish_details (r : results) :
  details (finish rt recentThresholdMonths r) = details r.
Proof. unfold finish. now destruct (Nat.ltb 0 (List.length (fundingRounds r))). Qed.

Lemma funding_tiers_sources (press news linkedin : Method.t) :
  sources (FundingFusion.funding_tiers rt recentThresholdMonths press news linkedin)
  = (if Method.found press then ["press_releases"] else [])
    ++ (if Method.found news then ["news_search"] else [])
    ++ (if Method.found linkedin then ["linkedin_announcements"] else []).
Proof.
  unfold FundingFusion.funding_tiers. rewrite finish_sources. unfold absorb.
  destruct (Method.found press), (Method.found news), (Method.found linkedin);
    reflexivity.
Qed.

Lemma funding_tiers_confidence (press news linkedin : Method.t) :
  confidence (FundingFusion.funding_tiers rt recentThresholdMonths press news linkedin)
  = calculateFundingConfidence
      (sources (FundingFusion.funding_tiers rt recentThresholdMonths
                  press news linkedin)).
Proof.
  unfold FundingFusion.funding_tiers, finish.
  now destruct (Nat.ltb 0 (List.length (fundingRounds _))).
Qed.

Lemma funding_tiers_details (press news linkedin : Method.t) :
  details (FundingFusion.funding_tiers rt recentThresholdMonths press news linkedin)
  = (if Method.found press then Method.details press else [])
    ++ (if Method.found news then Method.details news else [])
    ++ (if Method.found linkedin then Method.details linkedin else []).
Proof.
  unfold FundingFusion.funding_tiers. rewrite finish_details. unfold absorb.
  destruct (Method.found press), (Method.found news), (Method.found linkedin);
    simpl; rewrite ?app_nil_r, <- ?app_assoc; reflexivity.
Qed.

End FundingScraperFacts.

(** ** The enhanced funding analyzer *)

Section FundingAnalyzerFacts.
Context (rt : runtime) (net : FundingScraperFallback.network).
Context (funding_answer : nat -> http FundingAnalyzerEnhanced.crunchbase).
Context (recent_threshold_months : nat).

Import FundingAnalyzerEnhanced.

Local Abbreviation getFundingData :=
  (getFundingData rt funding_answer recent_threshold_months).
Local Abbreviation analysis := (analysis rt recent_threshold_months).
Local Abbreviation fuse := (fuse rt net funding_answer recent_threshold_months).
Local Abbreviation process_company :=
  (process_company rt net funding_answer recent_threshold_months).

Lemma getFundingData_returns (company : object) (w w' : world)
      (d : fundingData) :
  getFundingData company w = (Ok d, w') -> exists data, d = analysis data.
Proof.
  unfold FundingAnalyzerEnhanced.getFundingData.
  destruct (negb _ && negb _); [discriminate|].
  unfold bind, interact, ret, throw.
  destruct (funding_answer (tick w)) as [data|e].
  - intros [= <- _]. now exists data.
  - destruct (status_is e 400); [|discriminate].
    cbn. destruct (funding_answer (S (tick w))) as [data|e']; [|discriminate].
    intros [= <- _]. now exists data.
Qed.

Lemma getFundingDataWithRetry_left_returns (left : nat) (company : object)
      (w w' : world) (d : fundingData) :
  getFundingDataWithRetry_left rt funding_answer recent_threshold_months
    left company w = (Ok d, w') ->
  exists data, d = analysis data.
Proof.
  revert w. induction left as [|left IH]; intros w; simpl; unfold try_catch;
    destruct (getFundingData company w) as [[d0|e] w0] eqn:E.
  - intros [= <- _]. eapply getFundingData_returns; eauto.
  - discriminate.
  - intros [= <- _]. eapply getFundingData_returns; eauto.
  - destruct (status_is e 429); [apply IH | discriminate].
Qed.

Lemma funding_fuse_cases (company : object) (w : world) :
  exists w',
    (exists e, fuse company w = (Throw e, w'))
    \/ (exists d, fuse company w = (Ok d, w')
                  /\ FundingFusion.funding_fused rt recent_threshold_months d).
Proof.
  unfold FundingAnalyzerEnhanced.fuse, bind, getFundingDataWithRetry.
  destruct (getFundingDataWithRetry_left rt funding_answer recent_threshold_months
              maxRetries company w) as [[d|e] w1] eqn:E.
  - apply getFundingDataWithRetry_left_returns in E as [data ->].
    destruct (shouldUseFallback rt (analysis data) company).
    + destruct (findFundingData_run rt net
                  (recentThresholdMonths recent_threshold_months) company w1)
        as (press & linkedin & w2 & Hrun & _).
      rewrite Hrun.
      destruct (FundingScraperFallback.found
                  (FundingFusion.funding_tiers rt
                     (recentThresholdMonths recent_threshold_months)
                     press (FundingFusion.news_method rt company) linkedin))
        eqn:Hfound; unfold ret; exists w2; right; eexists; split;
        try reflexivity.
      * now constructor.
      * constructor.
    + unfold ret. exists w1. right. eexists. split; [reflexivity | constructor].
  - exists w1. left. now exists e.
Qed.

Lemma funding_process_company_cases (company : object) (w : world) :
  exists w',
    ((exists e, fuse company w = (Throw e, w'))
     /\ process_company company w = (Ok (record_defaults company), w'))
    \/ (exists d, fuse company w = (Ok d, w')
                  /\ process_company company w
                     = (Ok (record_fields d company), w')
                  /\ FundingFusion.funding_fused rt recent_threshold_months d).
Proof.
  unfold FundingAnalyzerEnhanced.process_company, try_catch, bind.
  destruct (funding_fuse_cases company w) as (w' & [(e & H) | (d & H & Hd)]);
    rewrite H; unfold ret; exists w'.
  - left. split; [now exists e | reflexivity].
  - right. now exists d.
Qed.

End FundingAnalyzerFacts.

(** ** Confidence *)

Lemma job_fused_confidence (isJobRecent : option string -> bool)
      (d : JobAnalyzerEnhanced.jobData) :
  Fusion.job_fused isJobRecent d ->
  within_unit (JobAnalyzerEnhanced.confidence d).
Proof.
  intros [allJobs | allJobs career google linkedin _].
  - split; vm_compute; reflexivity.
  - unfold JobAnalyzerEnhanced.mergeFallbackData. cbn [JobAnalyzerEnhanced.confidence].
    rewrite job_tiers_confidence, job_tiers_sources.
    cbn [JobAnalyzerEnhanced.analysis JobAnalyzerEnhanced.confidence].
    destruct (JobScraperFallback.Method.found career),
             (JobScraperFallback.Method.found google),
             (JobScraperFallback.Method.found linkedin);
      split; vm_compute; reflexivity.
Qed.

Lemma funding_fused_confidence (rt : runtime) (months : nat)
      (d : FundingAnalyzerEnhanced.fundingData) :
  FundingFusion.funding_fused rt months d ->
  within_unit (FundingAnalyzerEnhanced.confidence d).
Proof.
  intros [data | data press news linkedin _].
  - split; vm_compute; reflexivity.
  - unfold FundingAnalyzerEnhanced.mergeFallbackData.
    cbn [FundingAnalyzerEnhanced.confidence].
    rewrite funding_tiers_confidence, funding_tiers_sources.
    cbn [FundingAnalyzerEnhanced.analysis FundingAnalyzerEnhanced.confidence].
    destruct (FundingScraperFallback.Method.found press),
             (FundingScraperFallback.Method.found news),
             (FundingScraperFallback.Method.found linkedin);
      split; vm_compute; reflexivity.
Qed.

(** C4.  Every confidence value the jobs and the funding stage write on a
    company lies in [0, 1], whether the primary answer is used alone, merged
    with a fallback result, or replaced by the error defaults; a merged
    confidence is the mean of the primary confidence 0.8 and the weighted sum
    over the fallback's sources. *)
Theorem confidence_bounds
        (rt : runtime)
        (jobs_net : JobScraperFallback.network)
        (funding_net : FundingScraperFallback.network)
        (jobs_answer : nat -> http (list JobAnalyzerEnhanced.job))
        (funding_answer : nat -> http FundingAnalyzerEnhanced.crunchbase)
        (isJobRecent : option string -> bool)
        (recent_threshold_months : nat)
        (company : object) (w : world) :
  (exists c' w' x,
      JobAnalyzerEnhanced.process_company rt jobs_net jobs_answer isJobRecent
        company w = (Ok c', w')
      /\ get "job_confidence" c' = VNum x /\ within_unit x)
  /\ (exists c' w' x,
         FundingAnalyzerEnhanced.process_company rt funding_net funding_answer
           recent_threshold_months company w = (Ok c', w')
         /\ get "funding_confidence" c' = VNum x /\ within_unit x)
  /\ (forall allJobs career google linkedin,
         JobAnalyzerEnhanced.confidence
           (JobAnalyzerEnhanced.mergeFallbackData
              (JobAnalyzerEnhanced.analysis isJobRecent allJobs)
              (Fusion.job_tiers career google linkedin))
         = ((0.8 + JobScraperFallback.calculateJobConfidence
                     (JobScraperFallback.sources
                        (Fusion.job_tiers career google linkedin))) / 2)%float)
  /\ (forall data months press news linkedin,
         FundingAnalyzerEnhanced.confidence
           (FundingAnalyzerEnhanced.mergeFallbackData
              (FundingAnalyzerEnhanced.analysis rt recent_threshold_months data)
              (FundingFusion.funding_tiers rt months press news linkedin))
         = ((0.8 + FundingScraperFallback.calculateFundingConfidence
                     (FundingScraperFallback.sources
                        (FundingFusion.funding_tiers rt months
                           press news linkedin))) / 2)%float).
Proof.
  split; [|split; [|split]].
  - destruct (process_company_cases rt jobs_net jobs_answer isJobRecent company w)
      as (w' & [(_ & H) | (d & _ & H & Hd)]).
    + exists (JobAnalyzerEnhanced.record_defaults company), w', 0%float.
      split; [exact H|]. split.
      * unfold JobAnalyzerEnhanced.record_defaults. now read_field.
      * split; vm_compute; reflexivity.
    + exists (JobAnalyzerEnhanced.record_fields d company), w',
        (JobAnalyzerEnhanced.confidence d).
      split; [exact H|]. split.
      * unfold JobAnalyzerEnhanced.record_fields. now read_field.
      * eapply job_fused_confidence; eauto.
  - destruct (funding_process_company_cases rt funding_net funding_answer
                recent_threshold_months company w)
      as (w' & [(_ & H) | (d & _ & H & Hd)]).
    + exists (FundingAnalyzerEnhanced.record_defaults company), w', 0%float.
      split; [exact H|]. split.
      * unfold FundingAnalyzerEnhanced.record_defaults. now read_field.
      * split; vm_compute; reflexivity.
    + exists (FundingAnalyzerEnhanced.record_fields d company), w',
        (FundingAnalyzerEnhanced.confidence d).
      split; [exact H|]. split.
      * unfold FundingAnalyzerEnhanced.record_fields. now read_field.
      * eapply funding_fused_confidence; eauto.
  - intros. unfold JobAnalyzerEnhanced.mergeFallbackData.
    cbn [JobAnalyzerEnhanced.confidence JobAnalyzerEnhanced.analysis].
    now rewrite job_tiers_confidence.
  - intros. unfold FundingAnalyzerEnhanced.mergeFallbackData.
    cbn [FundingAnalyzerEnhanced.confidence FundingAnalyzerEnhanced.analysis].
    now rewrite funding_tiers_confidence.
Qed.

(** ** Escalation *)

(** C5.  With a successful primary answer that found no recent job, a
    company of exactly 20 employees does not escalate to the fallback and an
    otherwise identical company of 21 employees does: the comparison with
    the floor 20 is strict. *)
Theorem jobs_escalation_boundary
        (rt : runtime) (primaryData : JobAnalyzerEnhanced.jobData)
        (company20 company21 : object) :
  JobAnalyzerEnhanced.api_success primaryData = true ->
  JobAnalyzerEnhanced.recent_job_count primaryData = 0 ->
  get "employee_count" company20 = VNum 20 ->
  get "employee_count" company21 = VNum 21 ->
  JobAnalyzerEnhanced.shouldUseFallback rt primaryData company20 = false
  /\ JobAnalyzerEnhanced.shouldUseFallback rt primaryData company21 = true.
Proof.
  intros Hapi Hcount H20 H21.
  unfold JobAnalyzerEnhanced.shouldUseFallback.
  rewrite Hapi, Hcount, H20, H21. split; reflexivity.
Qed.

Lemma jobs_escalation_boundary_witness :
  JobAnalyzerEnhanced.api_success
    (JobAnalyzerEnhanced.analysis (fun _ => true) []) = true
  /\ JobAnalyzerEnhanced.recent_job_count
       (JobAnalyzerEnhanced.analysis (fun _ => true) []) = 0
  /\ get "employee_count" [("name", VStr "Acme"); ("employee_count", VNum 20)]
     = VNum 20
  /\ get "employee_count" [("name", VStr "Acme"); ("employee_count", VNum 21)]
     = VNum 21
  /\ JobAnalyzerEnhanced.shouldUseFallback Demo.rt
       (JobAnalyzerEnhanced.analysis (fun _ => true) [])
       [("name", VStr "Acme"); ("employee_count", VNum 20)] = false
  /\ JobAnalyzerEnhanced.shouldUseFallback Demo.rt
       (JobAnalyzerEnhanced.analysis (fun _ => true) [])
       [("name", VStr "Acme"); ("employee_count", VNum 21)] = true.
Proof.
  split; [reflexivity|]. split; [reflexivity|].
  split; [reflexivity|]. split; [reflexivity|].
  apply (jobs_escalation_boundary Demo.rt
           (JobAnalyzerEnhanced.analysis (fun _ => true) [])
           [("name", VStr "Acme"); ("employee_count", VNum 20)]
           [("name", VStr "Acme"); ("employee_count", VNum 21)]);
    reflexivity.
Defined.

(** ** Role flags *)


(** C6.  Role flags combine by logical OR and are never retracted: the flag
    of the merged record is the primary flag OR the fallback flag, whatever
    the fallback reports, and the fallback flag is the OR over the methods
    that found something, in whatever order they ran. *)
Theorem merge_non_retraction :
  (forall (primaryData : JobAnalyzerEnhanced.jobData)
          (fallbackData : JobScraperFallback.results),
      let merged := JobAnalyzerEnhanced.mergeFallbackData primaryData fallbackData in
      JobAnalyzerEnhanced.has_sales_jobs merged
      = JobAnalyzerEnhanced.has_sales_jobs primaryData
        || JobScraperFallback.hasSales fallbackData
      /\ JobAnalyzerEnhanced.has_marketing_jobs merged
         = JobAnalyzerEnhanced.has_marketing_jobs primaryData
           || JobScraperFallback.hasMarketing fallbackData
      /\ JobAnalyzerEnhanced.has_bd_jobs merged
         = JobAnalyzerEnhanced.has_bd_jobs primaryData
           || JobScraperFallback.hasBD fallbackData)
  /\ (forall career google linkedin : JobScraperFallback.Method.t,
         let fused := Fusion.job_tiers career google linkedin in
         let said (flag : JobScraperFallback.Method.t -> bool)
                  (m : JobScraperFallback.Method.t) :=
           JobScraperFallback.Method.found m && flag m in
         JobScraperFallback.hasSales fused
         = said JobScraperFallback.Method.hasSales career
           || said JobScraperFallback.Method.hasSales google
           || said JobScraperFallback.Method.hasSales linkedin
         /\ JobScraperFallback.hasMarketing fused
            = said JobScraperFallback.Method.hasMarketing career
              || said JobScraperFallback.Method.hasMarketing google
              || said JobScraperFallback.Method.hasMarketing linkedin
         /\ JobScraperFallback.hasBD fused
            = said JobScraperFallback.Method.hasBD career
              || said JobScraperFallback.Method.hasBD google
              || said JobScraperFallback.Method.hasBD linkedin).
Proof.
  split.
  - intros primaryData fallbackData. cbv zeta. repeat split.
  - intros career google linkedin. cbv zeta.
    unfold Fusion.job_tiers, JobScraperFallback.finish, JobScraperFallback.absorb.
    destruct career as [f1 t1 s1 m1 b1], google as [f2 t2 s2 m2 b2],
             linkedin as [f3 t3 s3 m3 b3].
    destruct f1, f2, f3; cbn;
      rewrite ?Bool.orb_false_r; repeat split.
Qed.

(** ** Completeness of a stage's output *)








(** ** The search tier *)

(** C1 (the code departs from it).  With no real search wired in, the
    search method still reports a hit built from the company's head count.
    For a company of 21 employees whose primary answer lists no job and
    whose pages yield nothing, the jobs stage records a fabricated title and
    a sales flag; for a company of 120 employees without funding in the
    primary answer, the funding stage records two fabricated rounds. *)
Theorem search_tier_fabricates (rt : runtime) :
  Fusion.google_method rt (Demo.company 21)
  = JobScraperFallback.Method.mk true ["Acme is hiring new team members"]
      true false false
  /\ (exists c' w',
         JobAnalyzerEnhanced.process_company rt Demo.silent_jobs Demo.no_jobs
           (fun _ => true) (Demo.company 21) Demo.start = (Ok c', w')
         /\ get "has_recent_jobs" c' = VBool true
         /\ get "has_sales_jobs" c' = VBool true
         /\ get "recent_job_titles" c' = VStr "Acme is hiring new team members"
         /\ get "job_data_sources" c' = VArr ["linkedin_api"; "google_search"])
  /\ FundingScraperFallback.Method.rounds
       (FundingFusion.news_method rt (Demo.company 120))
     = [ FundingScraperFallback.mkRound "$2.5M" "seed" "2024-06-15"
           "Acme raises $2.5M seed round";
         FundingScraperFallback.mkRound "$10M" "series a" "2023-11-20"
           "Acme secures $10M Series A" ]
  /\ (exists c' w',
         FundingAnalyzerEnhanced.process_company rt Demo.silent_funding
           Demo.no_funding 12 (Demo.company 120) Demo.start = (Ok c', w')
         /\ get "has_funding_data" c' = VBool true
         /\ get "total_funding" c' = VStr "$2.5M, $10M"
         /\ get "funding_details" c'
            = VStr "Acme funding news (news_search) | Acme funding news (news_search)"
         /\ get "funding_data_sources" c' = VArr ["linkedin_api"; "news_search"]).
Proof.
  split; [reflexivity|]. split.
  - eexists _, _. split; [reflexivity|]. repeat split.
  - split; [reflexivity|].
    eexists _, _. split; [reflexivity|]. repeat split.
Qed.

(** C2 (the code departs from it).  The search method runs for every
    company that reaches the fallback, whatever its head count and whatever
    the first method found.  Here a company of 25 employees whose career
    page lists an opening, and a company of 60 employees whose press page
    carries an announcement, are both searched for. *)
Theorem search_tier_not_last_resort (rt : runtime) :
  (exists d w',
      JobAnalyzerEnhanced.fuse rt Demo.career_found Demo.no_jobs (fun _ => true)
        (Demo.company_with_site 25) Demo.start = (Ok d, w')
      /\ trace w' = [LinkedInPublic; SearchEngine; CareerPage; PrimaryApi]
      /\ JobAnalyzerEnhanced.data_sources d
         = ["linkedin_api"; "career_page"; "google_search"])
  /\ (exists d w',
         FundingAnalyzerEnhanced.fuse rt Demo.press_found Demo.no_funding 12
           (Demo.company_with_site 60) Demo.start = (Ok d, w')
         /\ trace w' = [LinkedInAnnouncements; NewsSearch; PressReleases; PrimaryApi]
         /\ FundingAnalyzerEnhanced.data_sources d
            = ["linkedin_api"; "press_releases"; "news_search"]).
Proof.
  split; eexists _, _; (split; [reflexivity|]); split; reflexivity.
Qed.

(** ** List-valued payloads *)

(** C7, as stated, fails for funding details: with no details in the primary
    answer and four announcements scraped from the press page, the merged
    details keep three of the four, although four is below the cap of 5. *)
Lemma funding_details_capped_at_three :
  FundingAnalyzerEnhanced.funding_details
    (FundingAnalyzerEnhanced.mergeFallbackData Demo.unfunded Demo.four_scraped)
  = "Seed... (press_release) | Series A... (press_release) | Series B... (press_release)"
  /\ FundingAnalyzerEnhanced.funding_details
       (FundingAnalyzerEnhanced.mergeFallbackData Demo.unfunded Demo.four_scraped)
     <> join " | "
          (firstn 5
             (FundingAnalyzerEnhanced.primaryDetails Demo.unfunded
              ++ FundingAnalyzerEnhanced.fallbackDetails Demo.four_scraped)).
Proof.
  split; [reflexivity | discriminate].
Qed.

(** C7, amended.  Job titles: the pieces of the primary title string, then
    the titles of the career page, of the search and of the LinkedIn page
    (the methods that found something, in invocation order), cut to 5 items.
    Funding details: the primary details string as one item when it is not
    empty, then the details of the press page, of the news search and of the
    LinkedIn page, each shown as its text followed by its source in
    parentheses, cut to 3 items. *)
Theorem merged_lists_capped :
  (forall (primaryData : JobAnalyzerEnhanced.jobData)
          (career google linkedin : JobScraperFallback.Method.t),
      let titles_of (m : JobScraperFallback.Method.t) :=
        if JobScraperFallback.Method.found m
        then JobScraperFallback.Method.titles m else [] in
      JobAnalyzerEnhanced.recent_job_titles
        (JobAnalyzerEnhanced.mergeFallbackData primaryData
           (Fusion.job_tiers career google linkedin))
      = join "; "
          (firstn 5
             (JobAnalyzerEnhanced.split_titles
                (JobAnalyzerEnhanced.recent_job_titles primaryData)
              ++ titles_of career ++ titles_of google ++ titles_of linkedin)))
  /\ (forall (rt : runtime) (months : nat)
             (primaryData : FundingAnalyzerEnhanced.fundingData)
             (press news linkedin : FundingScraperFallback.Method.t),
         let details_of (m : FundingScraperFallback.Method.t) :=
           if FundingScraperFallback.Method.found m
           then FundingScraperFallback.Method.details m else [] in
         let shown (d : FundingScraperFallback.detail) :=
           (FundingScraperFallback.text d ++ " ("
            ++ FundingScraperFallback.source d ++ ")")%string in
         FundingAnalyzerEnhanced.funding_details
           (FundingAnalyzerEnhanced.mergeFallbackData primaryData
              (FundingFusion.funding_tiers rt months press news linkedin))
         = join " | "
             (firstn 3
                ((if String.eqb
                       (FundingAnalyzerEnhanced.funding_details primaryData) ""
                  then []
                  else [FundingAnalyzerEnhanced.funding_details primaryData])
                 ++ map shown
                      (details_of press ++ details_of news
                       ++ details_of linkedin)))).
Proof.
  split.
  - intros. cbv zeta. unfold JobAnalyzerEnhanced.mergeFallbackData.
    cbn [JobAnalyzerEnhanced.recent_job_titles].
    now rewrite job_tiers_titles.
  - intros. cbv zeta. unfold FundingAnalyzerEnhanced.mergeFallbackData.
    cbn [FundingAnalyzerEnhanced.funding_details].
    unfold FundingAnalyzerEnhanced.fallbackDetails.
    now rewrite funding_tiers_details.
Qed.

(** ** Frame: what a stage leaves alone *)













(** ** The filtering stage *)

Lemma Kept_length {A B : Type} (R : A -> B -> Prop) (xs : list A) (ys : list B) :
  Kept R xs ys -> List.length ys <= List.length xs.
Proof. induction 1; simpl; lia. Qed.



Lemma Kept_filter {A B : Type} (R : A -> B -> Prop) (xs : list A)
      (verdicts : list (B * bool)) :
  Forall2 (fun x v => snd v = true -> R x (fst v)) xs verdicts ->
  Kept R xs (map fst (filter snd verdicts)).
Proof.
  induction 1 as [|x [y keep] xs vs Hv HF IH]; simpl.
  - constructor.
  - destruct keep; simpl.
    + apply Kept_keep; auto.
    + now apply Kept_drop.
Qed.

Section EmployeeFacts.
Context (rt : runtime).
Context (profile_answer : nat -> http EmployeeAnalyzer.profile).
Context (min max : float).

Import EmployeeAnalyzer.



End EmployeeFacts.

(** ** The consolidator *)





Section ConsolidatorFacts.
Context (rt : runtime).

Import Consolidator.




End ConsolidatorFacts.

(** ** The pipeline *)

Section PipelineFacts.
Context (rt : runtime).
Context (jobs_net : JobScraperFallback.network).
Context (funding_net : FundingScraperFallback.network).
Context (profile_answer : nat -> http EmployeeAnalyzer.profile).
Context (funding_answer : nat -> http FundingAnalyzerEnhanced.crunchbase).
Context (jobs_answer : nat -> http (list JobAnalyzerEnhanced.job)).
Context (isJobRecent : option string -> bool).
Context (min max : float) (recent_threshold_months : nat).

(** How a company of the final collection relates to the input row it comes
    from. *)
Let enriched (c c' : object) : Prop :=
  extends enrichment_columns c c'
  /\ get "in_target_range_11_200" c' = VBool true.




End PipelineFacts.




(** ** The columns of the consolidated file *)

Section HeaderFacts.

Import Consolidator.












End HeaderFacts.




(** ** The web search of the integrated analyzer *)

Section IntegratedFacts.
Context (rt : runtime) (net : JobScraperFallback.network).
Context (web_search_answer : nat -> JobScraperFallback.results).

Import JobAnalyzerIntegrated.

(** The scraper of the integrated analyzer never searches. *)
Lemma real_findJobOpenings_run (company : object) (w : world) :
  exists fallbackData w',
    findJobOpenings net company w = (Ok fallbackData, w')
    /\ invoked WebSearch w' = invoked WebSearch w
    /\ invoked SearchEngine w' = invoked SearchEngine w.
Proof.
  unfold findJobOpenings, bind, JobScraperFallback.scrapeCareerPage,
    JobScraperFallback.scrapeLinkedInPublic, or_else.
  destruct (truthy (get "website" company));
    destruct (truthy (get "linkedin_url" company)) eqn:E1;
    destruct (truthy (get "linkedin" company)) eqn:E2;
    cbn [orb]; rewrite ?E1, ?E2; unfold interact, ret; cbn;
    eexists _, _; repeat split.
Qed.

(** In the integrated analyzer the web search is a last resort: it runs
    only for a company that reached the fallback, has more than 50
    employees, and shows no target role after the scraping step; and it runs
    for every such company. *)
Lemma web_search_is_last_resort (apiError : bool)
      (jobData : JobAnalyzerEnhanced.jobData) (company : object) (w : world) :
  invoked WebSearch w = false ->
  exists d w' scraped,
    fallback_steps rt net web_search_answer apiError jobData company w = (Ok d, w')
    /\ invoked WebSearch w'
       = (apiError || shouldUseFallback rt jobData company)
         && negb (JobAnalyzerEnhanced.has_recent_jobs scraped)
         && gt rt (get "employee_count" company) 50
    /\ (exists fallbackData,
           scraped = if JobScraperFallback.found fallbackData
                     then mergeFallbackData jobData fallbackData "scraping"
                     else jobData).
Proof.
  intros Hw. unfold fallback_steps.
  destruct (apiError || shouldUseFallback rt jobData company).
  - unfold bind.
    destruct (real_findJobOpenings_run company w)
      as (fallbackData & w1 & Hrun & Hweb & _).
    rewrite Hrun.
    set (scraped := if JobScraperFallback.found fallbackData
                    then mergeFallbackData jobData fallbackData "scraping"
                    else jobData).
    unfold stillNeedsMore.
    destruct (negb (JobAnalyzerEnhanced.has_recent_jobs scraped)
              && gt rt (get "employee_count" company) 50) eqn:Hmore.
    + unfold interact.
      destruct (JobScraperFallback.found (web_search_answer (tick w1)));
        unfold ret; eexists _, _, scraped; (split; [reflexivity|]);
        (split; [| now exists fallbackData]);
        unfold invoked; cbn [trace existsb call_eqb orb andb];
        now rewrite Hmore.
    + unfold ret. eexists _, _, scraped. split; [reflexivity|].
      split; [| now exists fallbackData].
      cbn [andb]. now rewrite Hweb, Hw, Hmore.
  - unfold ret. exists jobData, w, jobData. split; [reflexivity|]. split.
    + now rewrite Hw.
    + exists JobScraperFallback.initial. reflexivity.
Qed.

End IntegratedFacts.

(** ** Splitting a joined title string *)

Lemma append_empty (s : string) : (s ++ "")%string = s.
Proof. induction s as [|c s IH]; simpl; congruence. Qed.

Lemma rev_string_twice (x acc1 acc2 : string) :
  rev_string acc2 (rev_string acc1 x) = rev_string (x ++ acc2)%string acc1.
Proof.
  revert acc1 acc2. induction x as [|c x IH]; intros acc1 acc2; simpl.
  - reflexivity.
  - now rewrite IH.
Qed.

Lemma rev_string_involutive (x : string) :
  rev_string "" (rev_string "" x) = x.
Proof. rewrite rev_string_twice. simpl. apply append_empty. Qed.

Lemma prefix_separator_extends (c : ascii) (x tail : string) :
  no_space_head tail ->
  String.prefix "; " (String c x) = false ->
  String.prefix "; " (String c (x ++ tail)) = false.
Proof.
  intros Htail. cbn [String.prefix].
  destruct (ascii_dec ";" c) as [_|_]; [|reflexivity].
  destruct x as [|c2 x]; cbn [String.prefix append].
  - intros _. destruct tail as [|t tail]; [reflexivity|].
    cbn [no_space_head] in Htail. cbn [String.prefix].
    destruct (ascii_dec " " t) as [E|_]; [|reflexivity].
    now subst t.
  - destruct (ascii_dec " " c2) as [_|_]; [|reflexivity].
    destruct x; discriminate.
Qed.

(** Scanning a piece that contains no separator only accumulates it. *)
Lemma split_from_piece (x cur tail : string) :
  includes x "; " = false ->
  no_space_head tail ->
  split_from "; " 0 cur (x ++ tail) = split_from "; " 0 (rev_string cur x) tail.
Proof.
  revert cur. induction x as [|c x IH]; intros cur Hx Htail.
  - reflexivity.
  - cbn [includes] in Hx. apply Bool.orb_false_iff in Hx as [Hp Hx].
    change ((String c x ++ tail)%string) with (String c (x ++ tail)).
    cbn [split_from].
    rewrite (prefix_separator_extends c x tail Htail Hp).
    cbn [rev_string]. now apply IH.
Qed.

Lemma prefix_empty (s : string) : String.prefix "" s = true.
Proof. now destruct s. Qed.

(** At a separator the current piece is emitted and scanning resumes after
    the separator. *)
Lemma split_from_separator (cur rest : string) :
  split_from "; " 0 cur (String ";" (String " " rest))
  = rev_string "" cur :: split_from "; " 0 "" rest.
Proof.
  cbn [split_from].
  assert (H : String.prefix "; " (String ";" (String " " rest)) = true).
  { cbn [String.prefix].
    destruct (ascii_dec ";" ";") as [_|N]; [|now elim N].
    destruct (ascii_dec " " " ") as [_|N]; [|now elim N].
    apply prefix_empty. }
  rewrite H. reflexivity.
Qed.

Lemma split_join (x : string) (xs : list string) :
  Forall (fun t => includes t "; " = false) (x :: xs) ->
  split "; " (join "; " (x :: xs)) = x :: xs.
Proof.
  unfold split, join. revert x. induction xs as [|y ys IH]; intros x Hall.
  - inversion Hall as [|? ? Hx _]; subst. simpl String.concat.
    rewrite <- (append_empty x) at 1.
    rewrite split_from_piece; [|exact Hx|exact I].
    simpl. now rewrite rev_string_involutive.
  - inversion Hall as [|? ? Hx Hrest]; subst.
    change (String.concat "; " (x :: y :: ys))
      with (x ++ "; " ++ String.concat "; " (y :: ys))%string.
    rewrite split_from_piece; [|exact Hx|simpl; discriminate].
    change (("; " ++ String.concat "; " (y :: ys))%string)
      with (String ";" (String " " (String.concat "; " (y :: ys)))).
    rewrite split_from_separator, rev_string_involutive.
    f_equal. now apply IH.
Qed.

(** When no title contains the separator, the pieces of the joined title
    string are the titles themselves. *)
Lemma split_titles_join (titles : list string) :
  Forall (fun t => includes t "; " = false) titles ->
  titles <> [""] ->
  JobAnalyzerEnhanced.split_titles (join "; " titles) = titles.
Proof.
  intros Hall Hne. unfold JobAnalyzerEnhanced.split_titles.
  destruct titles as [|x xs]; [reflexivity|].
  destruct (String.eqb (join "; " (x :: xs)) "") eqn:E.
  - apply String.eqb_eq in E. exfalso. apply Hne.
    destruct xs as [|y ys]; [simpl in E; now subst|].
    unfold join in E. simpl in E. destruct x; discriminate.
  - now apply split_join.
Qed.

(** ** Scenarios of the specification, run on the model *)

(** A company of 150 employees without jobs in the primary answer reaches
    the career page; one "Account Executive" title there sets the sales
    flag. *)
Example scenario_career_page :
  exists c' w',
    JobAnalyzerEnhanced.process_company Demo.rt Demo.career_found Demo.no_jobs
      (fun _ => true) (Demo.company_with_site 150) Demo.start = (Ok c', w')
    /\ invoked CareerPage w' = true
    /\ get "has_sales_jobs" c' = VBool true
    /\ get "has_recent_jobs" c' = VBool true
    /\ get "job_data_sources" c'
       = VArr ["linkedin_api"; "career_page"; "google_search"].
Proof. eexists _, _. split; [reflexivity|]. repeat split. Qed.

(** A company of 10 employees without jobs in the primary answer does not
    escalate. *)
Example scenario_no_escalation :
  exists c',
    JobAnalyzerEnhanced.process_company Demo.rt Demo.career_found Demo.no_jobs
      (fun _ => true) (Demo.company_with_site 10) Demo.start
    = (Ok c', mkWorld 1 [PrimaryApi])
    /\ get "has_recent_jobs" c' = VBool false
    /\ get "job_data_sources" c' = VArr ["linkedin_api"].
Proof. eexists. split; [reflexivity|]. split; reflexivity. Qed.

(** The employee stage on head counts 5, 45 and 250 with the window
    [11, 200] retains the company of 45 employees only. *)
Example scenario_employee_window :
  exists kept w',
    EmployeeAnalyzer.process Demo.rt Demo.head_counts 11 200
      [Demo.named "small"; Demo.named "medium"; Demo.named "large"] Demo.start
    = (Ok [kept], w')
    /\ get "name" kept = VStr "medium"
    /\ get "employee_count" kept = VNum 45.
Proof. eexists _, _. split; [vm_compute; reflexivity|]. split; reflexivity. Qed.

(** In range, recently funded, hiring for sales, with a LinkedIn URL: the
    priority score is 2 + 2 + 2 + 1 = 7. *)
Example scenario_priority_score :
  Consolidator.calculatePriorityScore
    [ ("name", VStr "Acme");
      ("linkedin_url", VStr "https://www.linkedin.com/company/acme");
      ("in_target_range_11_200", VBool true);
      ("has_recent_funding_1yr", VBool true);
      ("has_sales_jobs", VBool true) ] Demo.start
  = (Ok 7, Demo.start).
Proof. reflexivity. Qed.

(* ================================================================== *)
(** * Further properties of the code *)
(* ================================================================== *)

(** ** Which postings count as recent *)

Lemma includes_char_head (c d : ascii) (s : string) :
  includes (String d s) (String c "") = false ->
  d <> c /\ includes s (String c "") = false.
Proof.
  simpl. destruct (ascii_dec c d) as [->|N].
  - rewrite prefix_empty. discriminate.
  - intros H. split; [congruence | exact H].
Qed.

Lemma match_escaped_needs_backslash (unit s : string) :
  includes s (String Recency.backslash "") = false ->
  Recency.match_escaped unit s = None.
Proof.
  induction s as [|d s IH]; intros H.
  - reflexivity.
  - apply includes_char_head in H as [Hd Hs].
    simpl. destruct (Ascii.eqb d Recency.backslash) eqn:E.
    + apply Ascii.eqb_eq in E. contradiction.
    + now apply IH.
Qed.

(** The age written in a posting is never compared with the threshold: a
    posting whose time text holds no backslash is recent exactly when the
    text mentions an hour, a minute, a second, a day or a week, whatever
    [recent_threshold_weeks] is. *)
Theorem posting_age_is_not_compared
        (rt : runtime) (recent_threshold_weeks : float) (posted : string) :
  includes (toLowerCase posted) (String Recency.backslash "") = false ->
  Recency.isJobRecent rt recent_threshold_weeks (Some posted)
  = includes (toLowerCase posted) "hour"
    || includes (toLowerCase posted) "minute"
    || includes (toLowerCase posted) "second"
    || includes (toLowerCase posted) "day"
    || includes (toLowerCase posted) "week".
Proof.
  intros H. unfold Recency.isJobRecent.
  destruct (String.eqb posted "") eqn:E.
  - apply String.eqb_eq in E. subst posted. reflexivity.
  - rewrite !(match_escaped_needs_backslash _ _ H).
    destruct (includes (toLowerCase posted) "hour"
              || includes (toLowerCase posted) "minute"
              || includes (toLowerCase posted) "second"); [reflexivity|].
    cbn [orb].
    destruct (includes (toLowerCase posted) "day"); [reflexivity|].
    now destruct (includes (toLowerCase posted) "week").
Qed.

Lemma posting_age_is_not_compared_witness :
  includes (toLowerCase "45 days ago") (String Recency.backslash "") = false
  /\ Recency.isJobRecent Demo.rt 3 (Some "45 days ago") = true.
Proof.
  split; [reflexivity|].
  rewrite (posting_age_is_not_compared Demo.rt 3 "45 days ago" eq_refl).
  reflexivity.
Defined.

(** ** Hiring urgency *)



(** ** The primary lookup *)

Lemma getJobData_requests
      (jobs_answer : nat -> http (list JobAnalyzerEnhanced.job))
      (isJobRecent : option string -> bool) (company : object) (w : world) :
  exists r w' k,
    JobAnalyzerEnhanced.getJobData jobs_answer isJobRecent company w = (r, w')
    /\ k <= 2
    /\ tick w' = tick w + k
    /\ trace w' = repeat PrimaryApi k ++ trace w
    /\ match r with
       | Ok d => JobAnalyzerEnhanced.api_success d = true
       | Throw _ => True
       end.
Proof.
  unfold JobAnalyzerEnhanced.getJobData.
  destruct (negb _ && negb _).
  - exists (Throw (mkError "No LinkedIn URL available for job analysis" None)), w, 0.
    unfold throw. repeat split; auto.
  - unfold bind, interact, ret, throw.
    destruct (jobs_answer (tick w)) as [jobs|e].
    + eexists _, _, 1. split; [reflexivity|]. cbn. repeat split; auto; lia.
    + destruct (JobAnalyzerEnhanced.status_is e 400).
      * cbn. destruct (jobs_answer (S (tick w))) as [jobs|e'];
          eexists _, _, 2; (split; [reflexivity|]); cbn; repeat split; auto; lia.
      * eexists _, _, 1. split; [reflexivity|]. cbn. repeat split; auto; lia.
Qed.

Lemma getJobDataWithRetry_left_requests
      (jobs_answer : nat -> http (list JobAnalyzerEnhanced.job))
      (isJobRecent : option string -> bool) (left : nat)
      (company : object) (w : world) :
  exists r w' k,
    JobAnalyzerEnhanced.getJobDataWithRetry_left jobs_answer isJobRecent
      left company w = (r, w')
    /\ k <= 2 * S left
    /\ tick w' = tick w + k
    /\ trace w' = repeat PrimaryApi k ++ trace w
    /\ match r with
       | Ok d => JobAnalyzerEnhanced.api_success d = true
       | Throw _ => True
       end.
Proof.
  revert w. induction left as [|left IH]; intros w; simpl; unfold try_catch;
    destruct (getJobData_requests jobs_answer isJobRecent company w)
      as (r & w1 & k & E & Hk & Ht & Htr & Hr); rewrite E; destruct r as [d|e].
  - exists (Ok d), w1, k. repeat split; auto; lia.
  - exists (Throw e), w1, k. unfold throw. repeat split; auto; lia.
  - exists (Ok d), w1, k. repeat split; auto; lia.
  - destruct (JobAnalyzerEnhanced.status_is e 429).
    + destruct (IH w1) as (r' & w2 & k' & E' & Hk' & Ht' & Htr' & Hr').
      exists r', w2, (k' + k). split; [exact E'|].
      split; [lia|]. split; [lia|]. split; [|exact Hr'].
      rewrite Htr', Htr, repeat_app, app_assoc. reflexivity.
    + exists (Throw e), w1, k. unfold throw. repeat split; auto; lia.
Qed.

Lemma getJobDataWithRetry_requests
      (jobs_answer : nat -> http (list JobAnalyzerEnhanced.job))
      (isJobRecent : option string -> bool)
      (company : object) (w : world) :
  exists r w' k,
    JobAnalyzerEnhanced.getJobDataWithRetry jobs_answer isJobRecent company w
    = (r, w')
    /\ k <= 8
    /\ tick w' = tick w + k
    /\ trace w' = repeat PrimaryApi k ++ trace w
    /\ match r with
       | Ok d => JobAnalyzerEnhanced.api_success d = true
       | Throw _ => True
       end.
Proof.
  unfold JobAnalyzerEnhanced.getJobDataWithRetry, JobAnalyzerEnhanced.maxRetries.
  destruct (getJobDataWithRetry_left_requests jobs_answer isJobRecent 3 company w)
    as (r & w' & k & E & Hk & H).
  exists r, w', k. split; [exact E|]. split; [simpl in Hk; lia | exact H].
Qed.

(** The lookup of one company on the jobs endpoint makes at most eight
    requests (four attempts, each repeated once in the other parameter
    format on a status 400) and nothing else. *)
Theorem job_lookup_request_budget
        (jobs_answer : nat -> http (list JobAnalyzerEnhanced.job))
        (isJobRecent : option string -> bool)
        (company : object) (w : world) :
  exists r w' k,
    JobAnalyzerEnhanced.getJobDataWithRetry jobs_answer isJobRecent company w
    = (r, w')
    /\ k <= 8
    /\ tick w' = tick w + k
    /\ trace w' = repeat PrimaryApi k ++ trace w.
Proof.
  destruct (getJobDataWithRetry_requests jobs_answer isJobRecent company w)
    as (r & w' & k & E & Hk & Ht & Htr & _).
  now exists r, w', k.
Qed.

Lemma invoked_after_primary (c : call) (k : nat) (t : list call) :
  c <> PrimaryApi ->
  existsb (call_eqb c) (repeat PrimaryApi k ++ t) = existsb (call_eqb c) t.
Proof.
  intros Hc. induction k as [|k IH]; simpl; [reflexivity|].
  rewrite IH. destruct c; try reflexivity. now elim Hc.
Qed.

(** A failed primary lookup is never followed by the fallback.  The lookup
    of the jobs stage either returns data, which then always has
    [api_success] set, or throws; when it throws, the stage writes the
    defaults at once: no scraper and no search runs for the company. *)
Theorem failed_job_lookup_gets_no_fallback
        (rt : runtime) (net : JobScraperFallback.network)
        (jobs_answer : nat -> http (list JobAnalyzerEnhanced.job))
        (isJobRecent : option string -> bool)
        (company : object) (w : world) :
  exists r w1,
    JobAnalyzerEnhanced.getJobDataWithRetry jobs_answer isJobRecent company w
    = (r, w1)
    /\ (forall c, c <> PrimaryApi -> invoked c w1 = invoked c w)
    /\ match r with
       | Ok d => JobAnalyzerEnhanced.api_success d = true
       | Throw _ =>
           JobAnalyzerEnhanced.process_company rt net jobs_answer isJobRecent
             company w
           = (Ok (JobAnalyzerEnhanced.record_defaults company), w1)
       end.
Proof.
  destruct (getJobDataWithRetry_requests jobs_answer isJobRecent company w)
    as (r & w1 & k & E & _ & _ & Htr & Hr).
  exists r, w1. split; [exact E|]. split.
  - intros c Hc. unfold invoked. rewrite Htr. now apply invoked_after_primary.
  - destruct r as [d|e]; [exact Hr|].
    unfold JobAnalyzerEnhanced.process_company, JobAnalyzerEnhanced.fuse,
      try_catch, bind. now rewrite E.
Qed.

Lemma getFundingData_requests
      (rt : runtime)
      (funding_answer : nat -> http FundingAnalyzerEnhanced.crunchbase)
      (months : nat) (company : object) (w : world) :
  exists r w' k,
    FundingAnalyzerEnhanced.getFundingData rt funding_answer months company w
    = (r, w')
    /\ k <= 2
    /\ tick w' = tick w + k
    /\ trace w' = repeat PrimaryApi k ++ trace w
    /\ match r with
       | Ok d => FundingAnalyzerEnhanced.api_success d = true
       | Throw _ => True
       end.
Proof.
  unfold FundingAnalyzerEnhanced.getFundingData.
  destruct (negb _ && negb _).
  - eexists (Throw _), w, 0. unfold throw. repeat split; auto.
  - unfold bind, interact, ret, throw.
    destruct (funding_answer (tick w)) as [data|e].
    + eexists _, _, 1. split; [reflexivity|]. cbn. repeat split; auto; lia.
    + destruct (FundingAnalyzerEnhanced.status_is e 400).
      * cbn. destruct (funding_answer (S (tick w))) as [data|e'];
          eexists _, _, 2; (split; [reflexivity|]); cbn; repeat split; auto; lia.
      * eexists _, _, 1. split; [reflexivity|]. cbn. repeat split; auto; lia.
Qed.

Lemma getFundingDataWithRetry_left_requests
      (rt : runtime)
      (funding_answer : nat -> http FundingAnalyzerEnhanced.crunchbase)
      (months left : nat) (company : object) (w : world) :
  exists r w' k,
    FundingAnalyzerEnhanced.getFundingDataWithRetry_left rt funding_answer months
      left company w = (r, w')
    /\ k <= 2 * S left
    /\ tick w' = tick w + k
    /\ trace w' = repeat PrimaryApi k ++ trace w
    /\ match r with
       | Ok d => FundingAnalyzerEnhanced.api_success d = true
       | Throw _ => True
       end.
Proof.
  revert w. induction left as [|left IH]; intros w; simpl; unfold try_catch;
    destruct (getFundingData_requests rt funding_answer months company w)
      as (r & w1 & k & E & Hk & Ht & Htr & Hr); rewrite E; destruct r as [d|e].
  - exists (Ok d), w1, k. repeat split; auto; lia.
  - exists (Throw e), w1, k. unfold throw. repeat split; auto; lia.
  - exists (Ok d), w1, k. repeat split; auto; lia.
  - destruct (FundingAnalyzerEnhanced.status_is e 429).
    + destruct (IH w1) as (r' & w2 & k' & E' & Hk' & Ht' & Htr' & Hr').
      exists r', w2, (k' + k). split; [exact E'|].
      split; [lia|]. split; [lia|]. split; [|exact Hr'].
      rewrite Htr', Htr, repeat_app, app_assoc. reflexivity.
    + exists (Throw e), w1, k. unfold throw. repeat split; auto; lia.
Qed.

(** The funding stage behaves in the same way: its lookup makes at most
    eight requests and nothing else; data it returns always has
    [api_success] set; and when it throws, the stage writes the defaults at
    once, without consulting the press pages, the news search or the
    LinkedIn page. *)
Theorem failed_funding_lookup_gets_no_fallback
        (rt : runtime) (net : FundingScraperFallback.network)
        (funding_answer : nat -> http FundingAnalyzerEnhanced.crunchbase)
        (recent_threshold_months : nat)
        (company : object) (w : world) :
  exists r w1 k,
    FundingAnalyzerEnhanced.getFundingDataWithRetry rt funding_answer
      recent_threshold_months company w = (r, w1)
    /\ k <= 8
    /\ trace w1 = repeat PrimaryApi k ++ trace w
    /\ (forall c, c <> PrimaryApi -> invoked c w1 = invoked c w)
    /\ match r with
       | Ok d => FundingAnalyzerEnhanced.api_success d = true
       | Throw _ =>
           FundingAnalyzerEnhanced.process_company rt net funding_answer
             recent_threshold_months company w
           = (Ok (FundingAnalyzerEnhanced.record_defaults company), w1)
       end.
Proof.
  unfold FundingAnalyzerEnhanced.getFundingDataWithRetry,
    FundingAnalyzerEnhanced.maxRetries.
  destruct (getFundingDataWithRetry_left_requests rt funding_answer
              recent_threshold_months 3 company w)
    as (r & w1 & k & E & Hk & _ & Htr & Hr).
  exists r, w1, k. split; [exact E|]. split; [simpl in Hk; lia|].
  split; [exact Htr|]. split.
  - intros c Hc. unfold invoked. rewrite Htr. now apply invoked_after_primary.
  - destruct r as [d|e]; [exact Hr|].
    unfold FundingAnalyzerEnhanced.process_company, FundingAnalyzerEnhanced.fuse,
      FundingAnalyzerEnhanced.getFundingDataWithRetry,
      FundingAnalyzerEnhanced.maxRetries, try_catch, bind.
    now rewrite E.
Qed.

(** ** Merging funding data *)

Lemma ltb_irrefl (s : string) : String.ltb s s = false.
Proof.
  unfold String.ltb. pose proof (String.compare_antisym s s) as H.
  destruct (String.compare s s); try reflexivity; discriminate.
Qed.

Lemma ltb_asym (a b : string) : String.ltb a b = true -> String.ltb b a = false.
Proof.
  unfold String.ltb. rewrite (String.compare_antisym b a).
  now destruct (String.compare a b).
Qed.

(** Merging a fallback result into the primary funding data retracts
    nothing: the two flags can only turn true, the last funding date is one
    of the two dates and never an earlier one (as strings) than the primary
    date, a date or a total that the primary data has is never emptied, and
    the Crunchbase URL and the count of rounds stay those of the primary
    answer. *)
Theorem funding_merge_never_retracts
        (primaryData : FundingAnalyzerEnhanced.fundingData)
        (fallbackData : FundingScraperFallback.results) :
  let merged := FundingAnalyzerEnhanced.mergeFallbackData primaryData fallbackData in
  FundingAnalyzerEnhanced.has_funding_data merged
  = FundingAnalyzerEnhanced.has_funding_data primaryData
    || FundingScraperFallback.found fallbackData
  /\ FundingAnalyzerEnhanced.has_recent_funding_1yr merged
     = FundingAnalyzerEnhanced.has_recent_funding_1yr primaryData
       || FundingScraperFallback.recentFunding fallbackData
  /\ (FundingAnalyzerEnhanced.last_funding_date merged
      = FundingAnalyzerEnhanced.last_funding_date primaryData
      \/ FundingAnalyzerEnhanced.last_funding_date merged
         = FundingScraperFallback.lastFundingDate fallbackData)
  /\ String.ltb (FundingAnalyzerEnhanced.last_funding_date merged)
                (FundingAnalyzerEnhanced.last_funding_date primaryData) = false
  /\ (FundingAnalyzerEnhanced.last_funding_date merged = "" ->
      FundingAnalyzerEnhanced.last_funding_date primaryData = ""
      /\ FundingScraperFallback.lastFundingDate fallbackData = "")
  /\ (FundingAnalyzerEnhanced.total_funding primaryData <> "" ->
      FundingAnalyzerEnhanced.total_funding merged
      = FundingAnalyzerEnhanced.total_funding primaryData)
  /\ (FundingAnalyzerEnhanced.total_funding merged = "" ->
      FundingAnalyzerEnhanced.total_funding primaryData = ""
      /\ FundingScraperFallback.totalAmount fallbackData = "")
  /\ FundingAnalyzerEnhanced.crunchbase_url merged
     = FundingAnalyzerEnhanced.crunchbase_url primaryData
  /\ FundingAnalyzerEnhanced.funding_rounds merged
     = FundingAnalyzerEnhanced.funding_rounds primaryData.
Proof.
  cbn zeta. unfold FundingAnalyzerEnhanced.mergeFallbackData.
  cbn [FundingAnalyzerEnhanced.has_funding_data
       FundingAnalyzerEnhanced.has_recent_funding_1yr
       FundingAnalyzerEnhanced.last_funding_date
       FundingAnalyzerEnhanced.total_funding
       FundingAnalyzerEnhanced.crunchbase_url
       FundingAnalyzerEnhanced.funding_rounds].
  set (primaryDate := FundingAnalyzerEnhanced.last_funding_date primaryData).
  set (fbDate := FundingScraperFallback.lastFundingDate fallbackData).
  set (primaryTotal := FundingAnalyzerEnhanced.total_funding primaryData).
  set (fbTotal := FundingScraperFallback.totalAmount fallbackData).
  split; [reflexivity|]. split; [reflexivity|].
  assert (Hempty : forall s, String.ltb s "" = false)
    by (intros s; now destruct s).
  split; [|split; [|split; [|split; [|split; [|split; reflexivity]]]]].
  - destruct (negb (String.eqb fbDate "") && _); [now right | now left].
  - destruct (String.eqb fbDate "") eqn:Efb; cbn [negb andb];
      [apply ltb_irrefl|].
    destruct (String.eqb primaryDate "") eqn:Ep; cbn [orb].
    + apply String.eqb_eq in Ep. rewrite Ep. apply Hempty.
    + destruct (String.ltb primaryDate fbDate) eqn:Elt.
      * now apply ltb_asym.
      * apply ltb_irrefl.
  - destruct (String.eqb fbDate "") eqn:Efb; cbn [negb andb].
    + apply String.eqb_eq in Efb. intros ->. now split.
    + destruct (String.eqb primaryDate "") eqn:Ep; cbn [orb].
      * intros H. rewrite H in Efb. discriminate.
      * destruct (String.ltb primaryDate fbDate).
        -- intros H. rewrite H in Efb. discriminate.
        -- intros H. rewrite H in Ep. discriminate.
  - intros Hne. destruct (String.eqb primaryTotal "") eqn:Ep.
    + apply String.eqb_eq in Ep. contradiction.
    + now rewrite Bool.andb_false_r.
  - destruct (String.eqb fbTotal "") eqn:Efb; cbn [negb andb].
    + apply String.eqb_eq in Efb. intros ->. now split.
    + destruct (String.eqb primaryTotal "") eqn:Ep.
      * intros H. rewrite H in Efb. discriminate.
      * intros H. rewrite H in Ep. discriminate.
Qed.

(** ** The two funding flags *)

Lemma hasRecentFunding_needs_round
      (rt : runtime) (months : nat)
      (fundingRounds : list FundingAnalyzerEnhanced.api_round) :
  FundingAnalyzerEnhanced.hasRecentFunding rt months fundingRounds = true ->
  Nat.ltb 0 (List.length fundingRounds) = true.
Proof.
  unfold FundingAnalyzerEnhanced.hasRecentFunding.
  destruct fundingRounds; [discriminate | reflexivity].
Qed.

(** After the funding stage a company flagged as recently funded is also
    flagged as funded: on the primary answer, on a merged result and on the
    error defaults. *)
Theorem recent_funding_implies_funding_data
        (rt : runtime) (net : FundingScraperFallback.network)
        (funding_answer : nat -> http FundingAnalyzerEnhanced.crunchbase)
        (recent_threshold_months : nat)
        (companies : list object) (w : world) :
  exists out w',
    FundingAnalyzerEnhanced.process rt net funding_answer recent_threshold_months
      companies w = (Ok out, w')
    /\ Forall2
         (fun _ c' =>
            exists funded recent : bool,
              get "has_funding_data" c' = VBool funded
              /\ get "has_recent_funding_1yr" c' = VBool recent
              /\ (recent = true -> funded = true))
         companies out.
Proof.
  apply for_each_total. intros company w0.
  destruct (funding_process_company_cases rt net funding_answer
              recent_threshold_months company w0)
    as (w' & [(_ & H) | (d & _ & H & Hd)]); eexists _, w'; (split; [exact H|]).
  - exists false, false. unfold FundingAnalyzerEnhanced.record_defaults.
    read_field. repeat split; auto.
  - exists (FundingAnalyzerEnhanced.has_funding_data d),
           (FundingAnalyzerEnhanced.has_recent_funding_1yr d).
    unfold FundingAnalyzerEnhanced.record_fields. read_field.
    split; [reflexivity|]. split; [reflexivity|].
    destruct Hd as [data | data press news linkedin Hfound].
    + cbn [FundingAnalyzerEnhanced.analysis
           FundingAnalyzerEnhanced.has_funding_data
           FundingAnalyzerEnhanced.has_recent_funding_1yr].
      apply hasRecentFunding_needs_round.
    + cbn [FundingAnalyzerEnhanced.mergeFallbackData
           FundingAnalyzerEnhanced.has_funding_data
           FundingAnalyzerEnhanced.has_recent_funding_1yr].
      intros _. rewrite Hfound. apply Bool.orb_true_r.
Qed.

(** ** The employee lookup *)

Section EmployeeLookupFacts.
Context (rt : runtime).
Context (profile_answer : nat -> http EmployeeAnalyzer.profile).
Context (min max : float).

Import EmployeeAnalyzer.

(** Whether the row has a LinkedIn URL in one of the two columns the
    analyzers read. *)
Let linked (company : object) : bool :=
  truthy (get "linkedin_url" company) || truthy (get "linkedin" company).

Lemma linked_false (company : object) :
  linked company = false ->
  negb (truthy (get "linkedin_url" company))
  && negb (truthy (get "linkedin" company)) = true.
Proof.
  unfold linked. destruct (truthy (get "linkedin_url" company)),
    (truthy (get "linkedin" company)); simpl; congruence.
Qed.

Lemma linked_true (company : object) :
  linked company = true ->
  negb (truthy (get "linkedin_url" company))
  && negb (truthy (get "linkedin" company)) = false.
Proof.
  unfold linked. destruct (truthy (get "linkedin_url" company)),
    (truthy (get "linkedin" company)); simpl; congruence.
Qed.

(** One attempt: without a LinkedIn URL it throws before any request;
    otherwise it makes one request and returns data with [api_success]
    set, or throws the error of the request. *)
Lemma getEmployeeCount_cases (company : object) (w : world) :
  (linked company = false
   /\ getEmployeeCount rt profile_answer min max company w
      = (Throw (mkError "No LinkedIn URL available" None), w))
  \/ (linked company = true
      /\ exists r,
           getEmployeeCount rt profile_answer min max company w
           = (r, mkWorld (S (tick w)) (PrimaryApi :: trace w))
           /\ match r with
              | Ok d => api_success d = true
                        /\ exists data, profile_answer (tick w) = Response data
              | Throw e => profile_answer (tick w) = Failure e
              end).
Proof.
  unfold getEmployeeCount. destruct (linked company) eqn:E.
  - right. split; [reflexivity|]. rewrite (linked_true _ E).
    unfold bind, interact, ret, throw.
    destruct (profile_answer (tick w)) as [data|e]; eexists;
      (split; [reflexivity|]); cbn; eauto.
  - left. split; [reflexivity|]. now rewrite (linked_false _ E).
Qed.

Lemma getEmployeeCountWithRetry_left_cases (left : nat) (company : object)
      (w : world) :
  exists r w' k,
    getEmployeeCountWithRetry_left rt profile_answer min max left company w
    = (r, w')
    /\ k <= S left
    /\ tick w' = tick w + k
    /\ trace w' = repeat PrimaryApi k ++ trace w
    /\ match r with
       | Ok d => api_success d = true /\ linked company = true
       | Throw e =>
           linked company = false ->
           e = mkError "No LinkedIn URL available" None /\ w' = w
       end.
Proof.
  revert w. induction left as [|left IH]; intros w; simpl; unfold try_catch;
    destruct (getEmployeeCount_cases company w)
      as [[Hl E] | (Hl & r & E & Hr)]; rewrite E.
  - eexists _, w, 0. unfold throw. repeat split; auto.
  - destruct r as [d|e].
    + destruct Hr as [Hapi _]. eexists _, _, 1. split; [reflexivity|]. cbn.
      repeat split; auto; lia.
    + eexists _, _, 1. unfold throw. split; [reflexivity|]. cbn.
      repeat split; auto; try lia; congruence.
  - cbn. eexists _, w, 0. unfold throw. repeat split; auto; lia.
  - destruct r as [d|e].
    + destruct Hr as [Hapi _]. eexists _, _, 1. split; [reflexivity|]. cbn.
      repeat split; auto; lia.
    + destruct (status_is e 429).
      * destruct (IH (mkWorld (S (tick w)) (PrimaryApi :: trace w)))
          as (r' & w2 & k' & E' & Hk' & Ht' & Htr' & Hr').
        exists r', w2, (k' + 1). split; [exact E'|]. cbn in Ht', Htr'.
        split; [lia|]. split; [lia|]. split.
        -- rewrite Htr', repeat_app. cbn. now rewrite <- app_assoc.
        -- destruct r' as [d'|e']; [exact Hr' | congruence].
      * eexists _, _, 1. unfold throw. split; [reflexivity|]. cbn.
        repeat split; auto; try lia; congruence.
Qed.

(** What the loop body does with the outcome of the lookup. *)
Lemma employee_company_outcome (company : object) (w : world) :
  exists r w' k,
    getEmployeeCountWithRetry rt profile_answer min max company w = (r, w')
    /\ k <= 4
    /\ tick w' = tick w + k
    /\ trace w' = repeat PrimaryApi k ++ trace w
    /\ match r with
       | Ok d =>
           api_success d = true /\ linked company = true
           /\ process_company rt profile_answer min max company w
              = (Ok (record_fields d company, in_target_range_11_200 d), w')
       | Throw e =>
           process_company rt profile_answer min max company w
           = (Ok (record_error e company, false), w')
           /\ (linked company = false ->
               e = mkError "No LinkedIn URL available" None /\ w' = w)
       end.
Proof.
  unfold getEmployeeCountWithRetry, maxRetries.
  destruct (getEmployeeCountWithRetry_left_cases 3 company w)
    as (r & w' & k & E & Hk & Ht & Htr & Hr).
  exists r, w', k. split; [exact E|]. split; [lia|]. split; [exact Ht|].
  split; [exact Htr|].
  unfold process_company, getEmployeeCountWithRetry, maxRetries, try_catch, bind.
  rewrite E. destruct r as [d|e]; unfold ret.
  - destruct Hr as [H1 H2]. auto.
  - auto.
Qed.

End EmployeeLookupFacts.

(** A row without a LinkedIn URL never passes the employee stage, and costs
    no request: the lookup throws before the profile endpoint is called,
    and the company is dropped with the error text as its data source.
    Every company the stage keeps has a LinkedIn URL in its input row and
    carries the fields of a successful lookup that classified it in
    range. *)
Theorem employee_stage_needs_linkedin_url
        (rt : runtime) (profile_answer : nat -> http EmployeeAnalyzer.profile)
        (min max : float) :
  (forall company w,
      truthy (get "linkedin_url" company) || truthy (get "linkedin" company)
      = false ->
      EmployeeAnalyzer.process_company rt profile_answer min max company w
      = (Ok (EmployeeAnalyzer.record_error
               (mkError "No LinkedIn URL available" None) company,
             false), w))
  /\ (forall companies w,
         exists kept w',
           EmployeeAnalyzer.process rt profile_answer min max companies w
           = (Ok kept, w')
           /\ Kept (fun c c' =>
                      truthy (get "linkedin_url" c) || truthy (get "linkedin" c)
                      = true
                      /\ exists d,
                           c' = EmployeeAnalyzer.record_fields d c
                           /\ EmployeeAnalyzer.api_success d = true
                           /\ EmployeeAnalyzer.in_target_range_11_200 d = true)
                   companies kept).
Proof.
  split.
  - intros company w Hl.
    destruct (employee_company_outcome rt profile_answer min max company w)
      as (r & w' & k & _ & _ & _ & _ & Hr).
    destruct r as [d|e].
    + destruct Hr as (_ & Hl' & _). congruence.
    + destruct Hr as [Hrun He]. destruct (He Hl) as [-> ->]. exact Hrun.
  - intros companies w. unfold EmployeeAnalyzer.process, bind.
    destruct (for_each_total
                (fun c (v : object * bool) =>
                   snd v = true ->
                   truthy (get "linkedin_url" c) || truthy (get "linkedin" c)
                   = true
                   /\ exists d,
                        fst v = EmployeeAnalyzer.record_fields d c
                        /\ EmployeeAnalyzer.api_success d = true
                        /\ EmployeeAnalyzer.in_target_range_11_200 d = true)
                (EmployeeAnalyzer.process_company rt profile_answer min max))
      with (xs := companies) (w := w) as (verdicts & w' & Hrun & HF).
    + intros c w0.
      destruct (employee_company_outcome rt profile_answer min max c w0)
        as (r & w1 & k & _ & _ & _ & _ & Hr).
      destruct r as [d|e].
      * destruct Hr as (Hapi & Hl & Hrun). eexists _, w1. split; [exact Hrun|].
        cbn. intros Hin. split; [exact Hl|]. now exists d.
      * destruct Hr as [Hrun _]. eexists _, w1. split; [exact Hrun|].
        cbn. discriminate.
    + rewrite Hrun. unfold ret. eexists _, w'. split; [reflexivity|].
      now apply Kept_filter.
Qed.

Lemma retries_exhausted
      (rt : runtime) (profile_answer : nat -> http EmployeeAnalyzer.profile)
      (min max : float) (company : object) (left : nat) (w : world) :
  truthy (get "linkedin_url" company) || truthy (get "linkedin" company) = true ->
  (forall n, exists e, profile_answer n = Failure e /\ status e = Some 429) ->
  exists e,
    profile_answer (tick w + left) = Failure e
    /\ EmployeeAnalyzer.getEmployeeCountWithRetry_left rt profile_answer min max
         left company w
       = (Throw e,
          mkWorld (tick w + S left) (repeat PrimaryApi (S left) ++ trace w)).
Proof.
  intros Hl Hlimited. revert w.
  induction left as [|left IH]; intros w;
    destruct (Hlimited (tick w)) as (e & He & Hs);
    cbn [EmployeeAnalyzer.getEmployeeCountWithRetry_left]; unfold try_catch;
    unfold EmployeeAnalyzer.getEmployeeCount at 1;
    rewrite (linked_true _ Hl); unfold bind, interact; rewrite He.
  - exists e. rewrite Nat.add_0_r. split; [exact He|].
    unfold throw. cbn. do 2 f_equal. lia.
  - unfold throw at 1. cbn beta iota.
    unfold EmployeeAnalyzer.status_is. rewrite Hs. cbn [Nat.eqb].
    destruct (IH (mkWorld (S (tick w)) (PrimaryApi :: trace w))) as (e' & He' & Hrun).
    exists e'. cbn [tick trace] in He', Hrun. split.
    + rewrite <- He'. f_equal. lia.
    + rewrite Hrun. f_equal. f_equal; [lia|].
      change (PrimaryApi :: trace w) with (repeat PrimaryApi 1 ++ trace w).
      rewrite app_assoc, <- repeat_app. f_equal. f_equal. lia.
Qed.

(** A company whose lookups are all answered with a status 429 is dropped
    after exactly four requests (the first attempt and three retries); the
    employee data source records the message of the last error. *)
Theorem rate_limited_company_is_dropped
        (rt : runtime) (profile_answer : nat -> http EmployeeAnalyzer.profile)
        (min max : float) (company : object) (w : world) :
  truthy (get "linkedin_url" company) || truthy (get "linkedin" company) = true ->
  (forall n, exists e, profile_answer n = Failure e /\ status e = Some 429) ->
  exists e w',
    profile_answer (tick w + 3) = Failure e
    /\ EmployeeAnalyzer.process_company rt profile_answer min max company w
       = (Ok (EmployeeAnalyzer.record_error e company, false), w')
    /\ tick w' = tick w + 4
    /\ trace w' = repeat PrimaryApi 4 ++ trace w
    /\ get "employee_data_source" (EmployeeAnalyzer.record_error e company)
       = VStr ("Error: " ++ message e).
Proof.
  intros Hl Hlimited.
  destruct (retries_exhausted rt profile_answer min max company 3 w Hl Hlimited)
    as (e & He & Hrun).
  exists e. eexists. split; [exact He|]. split.
  - unfold EmployeeAnalyzer.process_company,
      EmployeeAnalyzer.getEmployeeCountWithRetry, EmployeeAnalyzer.maxRetries,
      try_catch, bind.
    rewrite Hrun. reflexivity.
  - cbn [tick trace]. split; [reflexivity|]. split; [reflexivity|].
    unfold EmployeeAnalyzer.record_error. now rewrite get_set_same.
Qed.

Lemma rate_limited_company_is_dropped_witness :
  exists e w',
    Samples.rate_limited (tick Demo.start + 3) = Failure e
    /\ EmployeeAnalyzer.process_company Demo.rt Samples.rate_limited 11 200
         (Demo.named "acme") Demo.start
       = (Ok (EmployeeAnalyzer.record_error e (Demo.named "acme"), false), w')
    /\ tick w' = tick Demo.start + 4
    /\ trace w' = repeat PrimaryApi 4 ++ trace Demo.start
    /\ get "employee_data_source"
           (EmployeeAnalyzer.record_error e (Demo.named "acme"))
       = VStr ("Error: " ++ message e).
Proof.
  apply (rate_limited_company_is_dropped Demo.rt Samples.rate_limited 11 200
           (Demo.named "acme") Demo.start).
  - reflexivity.
  - intros n. eexists. split; reflexivity.
Defined.

(** ** The report of the employee stage *)

Section EmployeeReportFacts.
Context (rt : runtime).
Context (profile_answer : nat -> http EmployeeAnalyzer.profile).
Context (min max : float).
Context (toFixed1 : float -> string).

Import EmployeeReport.

(** The loop with counters visits the companies as the loop of
    [EmployeeAnalyzer.process] does, and its variables grow by what the
    verdicts say. *)
Lemma loop_counts (companies : list object) (st : progress) (w : world) :
  exists verdicts st' w' ok failed,
    for_each (EmployeeAnalyzer.process_company rt profile_answer min max)
             companies w = (Ok verdicts, w')
    /\ loop rt profile_answer min max companies st w = (Ok st', w')
    /\ filteredCompanies st'
       = filteredCompanies st ++ map fst (filter snd verdicts)
    /\ ok + failed = List.length companies
    /\ processed (counts st') = processed (counts st) + ok
    /\ successful (counts st') = successful (counts st) + ok
    /\ inTargetRange (counts st')
       = inTargetRange (counts st) + List.length (filter snd verdicts)
    /\ List.length (errors (counts st'))
       = List.length (errors (counts st)) + failed
    /\ List.length (answers st') = List.length (answers st) + ok.
Proof.
  revert st w. induction companies as [|c cs IH]; intros st w.
  - exists [], st, w, 0, 0. cbn. unfold ret. rewrite app_nil_r.
    repeat split; lia.
  - destruct (employee_company_outcome rt profile_answer min max c w)
      as (r & w1 & k & E & _ & _ & _ & Hr).
    cbn [for_each loop]. unfold bind at 1 3. unfold step, try_catch, bind.
    rewrite E. destruct r as [d|e].
    + destruct Hr as (Hapi & _ & Hrun). rewrite Hrun. unfold ret at 2.
      match goal with
      | |- context [loop _ _ _ _ cs ?s w1] => destruct (IH s w1)
          as (vs & st' & w' & ok & failed & Hfor & Hloop & Hf & Hn & Hp & Hs
              & Hi & He & Ha)
      end.
      rewrite Hfor, Hloop. unfold ret.
      exists ((EmployeeAnalyzer.record_fields d c,
               EmployeeAnalyzer.in_target_range_11_200 d) :: vs),
        st', w', (S ok), failed.
      cbn [filteredCompanies counts processed successful inTargetRange errors
           answers] in *.
      rewrite Hapi in Hs. rewrite length_app in Ha. cbn [List.length] in *.
      split; [reflexivity|]. split; [reflexivity|]. split.
      * rewrite Hf. cbn [filter snd].
        destruct (EmployeeAnalyzer.in_target_range_11_200 d); cbn [map fst].
        -- now rewrite <- app_assoc.
        -- reflexivity.
      * cbn [filter snd].
        destruct (EmployeeAnalyzer.in_target_range_11_200 d);
          cbn [List.length]; repeat split; lia.
    + destruct Hr as [Hrun _]. rewrite Hrun. unfold ret at 2.
      match goal with
      | |- context [loop _ _ _ _ cs ?s w1] => destruct (IH s w1)
          as (vs & st' & w' & ok & failed & Hfor & Hloop & Hf & Hn & Hp & Hs
              & Hi & He & Ha)
      end.
      rewrite Hfor, Hloop. unfold ret.
      exists ((EmployeeAnalyzer.record_error e c, false) :: vs),
        st', w', ok, (S failed).
      cbn [filteredCompanies counts processed successful inTargetRange errors
           answers] in *.
      rewrite length_app in He. cbn [List.length] in *.
      split; [reflexivity|]. split; [reflexivity|]. split; [exact Hf|].
      cbn [filter snd]. repeat split; lia.
Qed.

End EmployeeReportFacts.

(** The object the employee stage returns, on a new analyzer.  Its
    [filteredCount] and [qualifiedCount] are the number of companies kept;
    [processed] counts the companies whose lookup succeeded, all of which
    count as [successful], and with [errorCount] it adds up to the number of
    input companies.  [originalCount] is twice the number of companies kept,
    not the number of input companies: it is computed from the array after
    the array has been cut down to the kept companies. *)
Theorem employee_report_counts
        (rt : runtime) (profile_answer : nat -> http EmployeeAnalyzer.profile)
        (min max : float) (toFixed1 : float -> string)
        (companies : list object) (w : world) :
  exists kept report w',
    EmployeeReport.process rt profile_answer min max toFixed1
      EmployeeReport.fresh companies w = (Ok (kept, report), w')
    /\ EmployeeAnalyzer.process rt profile_answer min max companies w
       = (Ok kept, w')
    /\ EmployeeReport.filteredCount report = List.length kept
    /\ EmployeeReport.originalCount report = 2 * List.length kept
    /\ EmployeeReport.qualifiedCount (EmployeeReport.report_summary report)
       = List.length kept
    /\ EmployeeReport.summary_processed (EmployeeReport.report_summary report)
       + EmployeeReport.errorCount (EmployeeReport.report_summary report)
       = List.length companies
    /\ EmployeeReport.summary_successful (EmployeeReport.report_summary report)
       = EmployeeReport.summary_processed (EmployeeReport.report_summary report)
    /\ List.length (EmployeeReport.results report)
       = EmployeeReport.summary_processed (EmployeeReport.report_summary report).
Proof.
  destruct (loop_counts rt profile_answer min max companies
              (EmployeeReport.mkProgress EmployeeReport.fresh [] []) w)
    as (vs & st' & w' & ok & failed & Hfor & Hloop & Hf & Hn & Hp & Hs & Hi
        & He & Ha).
  cbn in Hf, Hp, Hs, Hi, He, Ha.
  unfold EmployeeReport.process, EmployeeAnalyzer.process, bind.
  rewrite Hfor, Hloop. unfold ret.
  eexists _, _, w'. split; [reflexivity|].
  cbn [EmployeeReport.filteredCount EmployeeReport.originalCount
       EmployeeReport.report_summary EmployeeReport.results
       EmployeeReport.getSummary EmployeeReport.qualifiedCount
       EmployeeReport.summary_processed EmployeeReport.errorCount
       EmployeeReport.summary_successful].
  rewrite Hf. split; [reflexivity|].
  rewrite length_map in *.
  repeat split; lia.
Qed.

(** ** Reading the consolidated file back *)

Lemma rev_string_append (acc a b : string) :
  rev_string acc (a ++ b) = rev_string (rev_string acc a) b.
Proof. revert acc. induction a as [|c a IH]; intros acc; simpl; auto. Qed.

Lemma append_assoc (a b c : string) : ((a ++ b) ++ c = a ++ (b ++ c))%string.
Proof. induction a as [|x a IH]; simpl; [reflexivity | now rewrite IH]. Qed.

Lemma plain_self_contained (t : string) :
  includes t "," = false ->
  includes t Consolidator.quote_mark = false ->
  self_contained t.
Proof.
  unfold self_contained, Consolidator.quote_mark.
  induction t as [|c t IH]; intros Hc Hq cur rest.
  - reflexivity.
  - apply includes_char_head in Hc as [Hc1 Hc2].
    apply includes_char_head in Hq as [Hq1 Hq2].
    cbn [append fields_from rev_string].
    destruct (Ascii.eqb c dquote) eqn:E1;
      [apply Ascii.eqb_eq in E1; contradiction|].
    destruct (Ascii.eqb c ",") eqn:E2;
      [apply Ascii.eqb_eq in E2; contradiction|].
    cbn [andb]. now apply IH.
Qed.

Lemma quoted_section (x cur rest : string) :
  fields_from true cur (double_quotes x ++ String dquote rest)
  = fields_from false (String dquote (rev_string cur (double_quotes x))) rest.
Proof.
  revert cur. induction x as [|c x IH]; intros cur.
  - cbn [double_quotes append fields_from rev_string].
    now rewrite Ascii.eqb_refl.
  - cbn [double_quotes]. destruct (Ascii.eqb c dquote) eqn:E.
    + cbn [append fields_from rev_string]. rewrite Ascii.eqb_refl.
      cbn [negb]. apply IH.
    + cbn [append fields_from rev_string]. rewrite E.
      rewrite Bool.andb_false_r. apply IH.
Qed.

Lemma quoted_self_contained (x : string) :
  self_contained (Consolidator.quoted x).
Proof.
  unfold self_contained, Consolidator.quoted, Consolidator.quote_mark.
  intros cur rest.
  cbn [append fields_from]. rewrite Ascii.eqb_refl. cbn [negb].
  rewrite append_assoc. cbn [append].
  rewrite quoted_section. cbn [rev_string].
  rewrite rev_string_append. reflexivity.
Qed.

Lemma cell_self_contained (rt : runtime) (v : value) :
  self_contained (Consolidator.cell rt v).
Proof.
  assert (Hplain : forall s,
             self_contained
               (if includes s "," || includes s Consolidator.quote_mark
                   || includes s Consolidator.newline
                then Consolidator.quoted s else s)).
  { intros s. destruct (includes s ",") eqn:E1; cbn [orb];
      [apply quoted_self_contained|].
    destruct (includes s Consolidator.quote_mark) eqn:E2; cbn [orb];
      [apply quoted_self_contained|].
    destruct (includes s Consolidator.newline);
      [apply quoted_self_contained | now apply plain_self_contained]. }
  destruct v as [| |[|]|x|s|l]; cbn [Consolidator.cell];
    try apply Hplain; try apply quoted_self_contained;
    now apply plain_self_contained.
Qed.

Lemma fields_of_cells (cells : list string) (c : string) :
  Forall self_contained (c :: cells) ->
  fields (String.concat "," (c :: cells)) = c :: cells.
Proof.
  unfold fields. revert c. induction cells as [|d cells IH]; intros c Hall;
    inversion Hall as [|? ? Hc Hrest]; subst.
  - cbn [String.concat]. rewrite <- (append_empty c) at 1.
    rewrite Hc. cbn. now rewrite rev_string_involutive.
  - change (String.concat "," (c :: d :: cells))
      with (c ++ String "," (String.concat "," (d :: cells)))%string.
    rewrite Hc. cbn [fields_from].
    replace (Ascii.eqb "," dquote) with false by reflexivity.
    rewrite Ascii.eqb_refl. cbn [andb negb].
    rewrite rev_string_involutive. f_equal. now apply IH.
Qed.

(** Every row of the consolidated file reads back as one field per column:
    whatever the values are, splitting the row at the commas outside double
    quotes gives exactly the cells that were written, in column order. *)
Theorem csv_row_splits_into_its_cells
        (rt : runtime) (headers : list string) (company : object) :
  headers <> [] ->
  fields (Consolidator.csvRow rt headers company)
  = map (fun header => Consolidator.cell rt (get header company)) headers.
Proof.
  intros Hne. unfold Consolidator.csvRow, join.
  destruct headers as [|h hs]; [now elim Hne|].
  cbn [map]. apply fields_of_cells.
  change (Forall self_contained
            (map (fun header => Consolidator.cell rt (get header company))
                 (h :: hs))).
  apply Forall_forall. intros t Ht. apply in_map_iff in Ht as (k & <- & _).
  apply cell_self_contained.
Qed.

Lemma csv_row_splits_into_its_cells_witness :
  ["name"; "booth"] <> []
  /\ fields (Consolidator.csvRow Demo.rt ["name"; "booth"]
               [("name", VStr "Globex, Inc."); ("booth", VStr "B12")])
     = [Consolidator.quoted "Globex, Inc."; "B12"].
Proof.
  split; [discriminate|].
  apply (csv_row_splits_into_its_cells Demo.rt ["name"; "booth"]
           [("name", VStr "Globex, Inc."); ("booth", VStr "B12")]).
  discriminate.
Defined.

Lemma undouble_other (a : ascii) (rest : string) :
  Ascii.eqb a dquote = false -> rest <> "" ->
  undouble (String a rest) = String a (undouble rest).
Proof.
  intros Ha Hne. destruct rest as [|b rest]; [now elim Hne|].
  change (undouble (String a (String b rest)))
    with (if Ascii.eqb a dquote && Ascii.eqb b dquote
          then String dquote (undouble rest)
          else String a (undouble (String b rest))).
  now rewrite Ha.
Qed.

Lemma undouble_double_quotes (s : string) :
  undouble (double_quotes s ++ String dquote "") = s.
Proof.
  induction s as [|c s IH].
  - cbn [double_quotes append undouble]. now rewrite Ascii.eqb_refl.
  - cbn [double_quotes]. destruct (Ascii.eqb c dquote) eqn:E.
    + apply Ascii.eqb_eq in E. subst c.
      cbn [append undouble]. rewrite Ascii.eqb_refl. cbn [andb].
      now rewrite IH.
    + cbn [append]. rewrite undouble_other; [now rewrite IH | exact E |].
      destruct (double_quotes s); discriminate.
Qed.

(** A string value survives the trip through the file: the text of the cell
    written for it is the string itself, whether the cell had to be quoted
    or not.  A flag is written as TRUE or FALSE, which the priority score
    reads like the boolean it came from. *)
Theorem csv_cell_reads_back (rt : runtime) :
  (forall s, field_text (Consolidator.cell rt (VStr s)) = s)
  /\ (forall b,
         Consolidator.flagged (VStr (field_text (Consolidator.cell rt (VBool b))))
         = Consolidator.flagged (VBool b))
  /\ field_text (Consolidator.cell rt VNull) = ""
  /\ field_text (Consolidator.cell rt VUndef) = "".
Proof.
  split; [|split; [intros [|]; reflexivity | split; reflexivity]].
  intros s. cbn [Consolidator.cell to_string].
  destruct (includes s "," || includes s Consolidator.quote_mark
            || includes s Consolidator.newline) eqn:E.
  - unfold Consolidator.quoted, Consolidator.quote_mark.
    cbn [append field_text]. rewrite Ascii.eqb_refl.
    apply undouble_double_quotes.
  - destruct s as [|c s]; [reflexivity|]. cbn [field_text].
    destruct (Ascii.eqb c dquote) eqn:Ec; [|reflexivity].
    apply Ascii.eqb_eq in Ec. subst c.
    apply Bool.orb_false_iff in E as [E _].
    apply Bool.orb_false_iff in E as [_ E].
    unfold Consolidator.quote_mark in E. cbn in E.
    destruct (ascii_dec dquote dquote) as [_|N]; [|now elim N].
    rewrite prefix_empty in E. discriminate.
Qed.

(** ** The priority score *)

(** The priority score is computed without any request.  It throws only
    when [linkedin_url] holds a truthy value that is not a string; otherwise
    it lies between 0 and 11, and it is 11 exactly when the seven flags are
    set and the LinkedIn URL is a string that is not blank. *)
Theorem priority_score_range (company : object) (w : world) :
  let flag := fun k => Consolidator.flagged (get k company) in
  match Consolidator.calculatePriorityScore company w with
  | (Ok score, w') =>
      w' = w
      /\ score <= 11
      /\ (score = 11 <->
          flag "in_target_range_11_200" = true
          /\ flag "has_funding_data" = true
          /\ flag "has_recent_funding_1yr" = true
          /\ flag "has_recent_jobs" = true
          /\ flag "has_sales_jobs" = true
          /\ flag "has_marketing_jobs" = true
          /\ flag "has_bd_jobs" = true
          /\ exists s, get "linkedin_url" company = VStr s /\ trim s <> "")
  | (Throw e, w') =>
      w' = w
      /\ truthy (get "linkedin_url" company) = true
      /\ forall s, get "linkedin_url" company <> VStr s
  end.
Proof.
  cbn zeta. unfold Consolidator.calculatePriorityScore, Consolidator.filled, bind.
  assert (Hscore :
            forall linked : bool,
              (linked = true <->
               exists s, get "linkedin_url" company = VStr s /\ trim s <> "") ->
              let score :=
                (if Consolidator.flagged (get "in_target_range_11_200" company)
                 then 2 else 0)
                + (if Consolidator.flagged (get "has_funding_data" company)
                   then 1 else 0)
                + (if Consolidator.flagged (get "has_recent_funding_1yr" company)
                   then 2 else 0)
                + (if Consolidator.flagged (get "has_recent_jobs" company)
                   then 1 else 0)
                + (if Consolidator.flagged (get "has_sales_jobs" company)
                   then 2 else 0)
                + (if Consolidator.flagged (get "has_marketing_jobs" company)
                   then 1 else 0)
                + (if Consolidator.flagged (get "has_bd_jobs" company)
                   then 1 else 0)
                + (if linked then 1 else 0) in
              score <= 11
              /\ (score = 11 <->
                  Consolidator.flagged (get "in_target_range_11_200" company) = true
                  /\ Consolidator.flagged (get "has_funding_data" company) = true
                  /\ Consolidator.flagged (get "has_recent_funding_1yr" company)
                     = true
                  /\ Consolidator.flagged (get "has_recent_jobs" company) = true
                  /\ Consolidator.flagged (get "has_sales_jobs" company) = true
                  /\ Consolidator.flagged (get "has_marketing_jobs" company) = true
                  /\ Consolidator.flagged (get "has_bd_jobs" company) = true
                  /\ exists s, get "linkedin_url" company = VStr s
                               /\ trim s <> "")).
  { intros linked Hlinked. cbn zeta. rewrite <- Hlinked.
    destruct (Consolidator.flagged (get "in_target_range_11_200" company)),
      (Consolidator.flagged (get "has_funding_data" company)),
      (Consolidator.flagged (get "has_recent_funding_1yr" company)),
      (Consolidator.flagged (get "has_recent_jobs" company)),
      (Consolidator.flagged (get "has_sales_jobs" company)),
      (Consolidator.flagged (get "has_marketing_jobs" company)),
      (Consolidator.flagged (get "has_bd_jobs" company)), linked;
      cbn [Nat.add]; (split; [lia|]);
      (split; [intros H; try discriminate H; tauto | intuition congruence]). }
  destruct (get "linkedin_url" company) as [| |b|x|s|l] eqn:Hv.
  - cbn. split; [reflexivity|]. apply (Hscore false).
    split; [discriminate | intros (s & Hs & _); discriminate].
  - cbn. split; [reflexivity|]. apply (Hscore false).
    split; [discriminate | intros (s & Hs & _); discriminate].
  - destruct b; cbn.
    + repeat split; discriminate.
    + split; [reflexivity|]. apply (Hscore false).
      split; [discriminate | intros (s & Hs & _); discriminate].
  - destruct (truthy (VNum x)) eqn:Ht; unfold throw, ret; cbn beta iota.
    + repeat split; discriminate.
    + split; [reflexivity|]. apply (Hscore false).
      split; [discriminate | intros (s & Hs & _); discriminate].
  - destruct (truthy (VStr s)) eqn:Ht; unfold ret; cbn beta iota.
    + split; [reflexivity|]. apply Hscore. split.
      * intros H. exists s. split; [reflexivity|].
        intros E. rewrite E in H. discriminate.
      * intros (s0 & [= <-] & Hne).
        destruct (String.eqb (trim s) "") eqn:E; [|reflexivity].
        apply String.eqb_eq in E. contradiction.
    + split; [reflexivity|]. apply (Hscore false). split; [discriminate|].
      intros (s0 & [= <-] & Hne). cbn in Ht.
      destruct (String.eqb s "") eqn:E; [|discriminate].
      apply String.eqb_eq in E. subst s. now elim Hne.
  - cbn. repeat split; discriminate.
Qed.

(** ** The name of the results file *)

Lemma toLowerCase_fixes_lower (s : string) :
  Forall (fun c => OutputFile.lower_or_digit c = true \/ c = "_"%char)
         (list_ascii_of_string s) ->
  toLowerCase s = s.
Proof.
  induction s as [|c s IH]; cbn [list_ascii_of_string toLowerCase]; intros H.
  - reflexivity.
  - inversion H as [|? ? Hc Hs]; subst. rewrite (IH Hs). f_equal.
    unfold lower_ascii. destruct Hc as [Hc | ->]; [|reflexivity].
    unfold OutputFile.lower_or_digit in Hc.
    destruct (Nat.leb 65 (nat_of_ascii c) && Nat.leb (nat_of_ascii c) 90) eqn:E;
      [|reflexivity].
    apply Bool.andb_true_iff in E as [E1 E2].
    apply Nat.leb_le in E1, E2.
    apply Bool.orb_true_iff in Hc as [Hc | Hc];
      apply Bool.andb_true_iff in Hc as [H1 H2];
      apply Nat.leb_le in H1, H2; lia.
Qed.

Lemma underscore_others_allowed (s : string) :
  Forall (fun c => OutputFile.lower_or_digit c = true \/ c = "_"%char)
         (list_ascii_of_string (OutputFile.underscore_others s)).
Proof.
  induction s as [|c s IH]; cbn [OutputFile.underscore_others list_ascii_of_string].
  - constructor.
  - constructor; [|exact IH].
    destruct (OutputFile.lower_or_digit c) eqn:E; [now left | now right].
Qed.

Lemma underscore_others_fixes_allowed (s : string) :
  Forall (fun c => OutputFile.lower_or_digit c = true \/ c = "_"%char)
         (list_ascii_of_string s) ->
  OutputFile.underscore_others s = s.
Proof.
  induction s as [|c s IH]; cbn [list_ascii_of_string OutputFile.underscore_others];
    intros H.
  - reflexivity.
  - inversion H as [|? ? Hc Hs]; subst. rewrite (IH Hs). f_equal.
    destruct Hc as [Hc | ->]; [now rewrite Hc | reflexivity].
Qed.

Lemma dash_marks_clean (s : string) :
  Forall (fun c => c <> ":"%char /\ c <> "."%char)
         (list_ascii_of_string (OutputFile.dash_marks s)).
Proof.
  induction s as [|c s IH]; cbn [OutputFile.dash_marks list_ascii_of_string].
  - constructor.
  - constructor; [|exact IH].
    destruct (Ascii.eqb c ":") eqn:E1; cbn [orb]; [split; discriminate|].
    destruct (Ascii.eqb c ".") eqn:E2; [split; discriminate|].
    split; intros ->; discriminate.
Qed.

Lemma substring_prefix_chars (P : ascii -> Prop) (n : nat) (s : string) :
  Forall P (list_ascii_of_string s) ->
  Forall P (list_ascii_of_string (String.substring 0 n s)).
Proof.
  revert n. induction s as [|c s IH]; intros n H.
  - destruct n; constructor.
  - inversion H as [|? ? Hc Hs]; subst. destruct n as [|n].
    + constructor.
    + cbn [String.substring list_ascii_of_string]. constructor; auto.
Qed.

(** Whatever the exhibition is called, the part of the file name made from
    its name consists of the letters a to z, digits and underscores only, so
    it holds no path separator and no dot; cleaning a cleaned name changes
    nothing.  The time stamp that follows holds neither a colon nor a
    dot. *)
Theorem results_file_name_is_clean (rt : runtime) (expoName : string) :
  Forall (fun c => OutputFile.lower_or_digit c = true \/ c = "_"%char)
         (list_ascii_of_string (OutputFile.cleanExpoName expoName))
  /\ OutputFile.cleanExpoName (OutputFile.cleanExpoName expoName)
     = OutputFile.cleanExpoName expoName
  /\ Forall (fun c => c <> ":"%char /\ c <> "."%char)
            (list_ascii_of_string (OutputFile.timestamp rt)).
Proof.
  unfold OutputFile.cleanExpoName. split; [|split].
  - apply underscore_others_allowed.
  - rewrite (toLowerCase_fixes_lower _ (underscore_others_allowed _)).
    apply underscore_others_fixes_allowed, underscore_others_allowed.
  - unfold OutputFile.timestamp, OutputFile.slice_end.
    apply substring_prefix_chars, dash_marks_clean.
Qed.

(** ** Which stages a run consists of *)

(** Resuming overrides the configuration.  With the name of a stage as
    [resumeFrom], the run consists of that stage and all later ones in
    pipeline order, whether or not they are enabled, and even when the
    configuration has no [stages] entry at all; with any other non-empty
    string it throws before any stage runs.  Only without [resumeFrom] do
    the [enabled] flags decide, and then the enabled stages run in pipeline
    order. *)
Theorem resuming_overrides_enabled_flags
        (rt : runtime) (config_stages : option (string -> value)) :
  (forall name,
      In name ExpoPipeline.allStages ->
      exists before after,
        ExpoPipeline.allStages = before ++ name :: after
        /\ ~ In name before
        /\ ExpoPipeline.getPipelineStages rt config_stages (VStr name)
           = Ok (name :: after))
  /\ (forall name,
         name <> "" -> ~ In name ExpoPipeline.allStages ->
         ExpoPipeline.getPipelineStages rt config_stages (VStr name)
         = Throw (mkError ("Invalid resume stage: " ++ name) None))
  /\ (forall enabled resumeFrom,
         truthy resumeFrom = false ->
         ExpoPipeline.getPipelineStages rt (Some enabled) resumeFrom
         = Ok (filter (fun name => truthy (enabled name))
                      ExpoPipeline.allStages)).
Proof.
  split; [|split].
  - intros name [<- | [<- | [<- | [<- | []]]]].
    + exists [], (tl ExpoPipeline.allStages). repeat split. intros [].
    + exists (firstn 1 ExpoPipeline.allStages), (skipn 2 ExpoPipeline.allStages).
      repeat split. cbn. intros [H | []]. discriminate.
    + exists (firstn 2 ExpoPipeline.allStages), (skipn 3 ExpoPipeline.allStages).
      repeat split. cbn. intros [H | [H | []]]; discriminate.
    + exists (firstn 3 ExpoPipeline.allStages), (skipn 4 ExpoPipeline.allStages).
      repeat split. cbn. intros [H | [H | [H | []]]]; discriminate.
  - intros name Hne Hnot. unfold ExpoPipeline.getPipelineStages.
    assert (Ht : truthy (VStr name) = true).
    { cbn. destruct (String.eqb name "") eqn:E; [|reflexivity].
      apply String.eqb_eq in E. contradiction. }
    rewrite Ht.
    assert (Hmiss : forall stage, In stage ExpoPipeline.allStages ->
                                  String.eqb name stage = false).
    { intros stage Hin. destruct (String.eqb name stage) eqn:E; [|reflexivity].
      apply String.eqb_eq in E. subst stage. contradiction. }
    unfold ExpoPipeline.allStages in *. cbn [ExpoPipeline.findIndex is_str].
    rewrite !Hmiss by (cbn; tauto). reflexivity.
  - intros enabled resumeFrom Hf. unfold ExpoPipeline.getPipelineStages.
    now rewrite Hf.
Qed.

(** ** The page scrapers of the job fallback *)

Section JobPagesFacts.
Context (rt : runtime).
Context (URL_resolve : string -> string -> option string).
Context (fetch : string -> nat -> http JobPages.page).

Import JobScraperFallback.
Import JobPages.

(** A result without titles has no role flag either. *)
Let flags_need_title (r : Method.t) : Prop :=
  Method.titles r = [] -> r = with_found (Method.found r) Method.empty.

Lemma note_keeps (shown : string -> string) (r : Method.t) (elem : string) :
  flags_need_title r ->
  flags_need_title (note shown r elem)
  /\ Method.found (note shown r elem) = Method.found r
  /\ (Method.titles (note shown r elem) = [] -> note shown r elem = r)
  /\ (Forall (fun t => exists e, t = shown e) (Method.titles r) ->
      Forall (fun t => exists e, t = shown e)
             (Method.titles (note shown r elem))).
Proof.
  intros Hr. unfold note.
  destruct (containsJobKeywords (toLowerCase elem)).
  - cbn [Method.titles Method.found]. split; [|split; [reflexivity|split]].
    + intros H. now destruct (Method.titles r).
    + intros H. now destruct (Method.titles r).
    + intros H. apply Forall_app. split; [exact H|].
      constructor; [now exists elem | constructor].
  - repeat split; auto.
Qed.

Lemma notes_keep (shown : string -> string) (elems : list string) (r : Method.t) :
  flags_need_title r ->
  flags_need_title (fold_left (note shown) elems r)
  /\ Method.found (fold_left (note shown) elems r) = Method.found r
  /\ (Method.titles (fold_left (note shown) elems r) = [] ->
      fold_left (note shown) elems r = r)
  /\ (Forall (fun t => exists e, t = shown e) (Method.titles r) ->
      Forall (fun t => exists e, t = shown e)
             (Method.titles (fold_left (note shown) elems r))).
Proof.
  revert r. induction elems as [|e elems IH]; intros r Hr; cbn [fold_left].
  - repeat split; auto.
  - destruct (note_keeps shown r e Hr) as (H1 & H2 & H3 & H4).
    destruct (IH _ H1) as (G1 & G2 & G3 & G4).
    split; [exact G1|]. split; [congruence|]. split.
    + intros H. pose proof (G3 H) as E. rewrite E in H. rewrite E. now apply H3.
    + auto.
Qed.

Lemma empty_needs_title : flags_need_title Method.empty.
Proof. intros _. reflexivity. Qed.


Lemma substring_to_length (n : nat) (s : string) :
  String.length (String.substring 0 n s) <= n.
Proof.
  revert s. induction n as [|n IH]; intros s.
  - destruct s; cbn; lia.
  - destruct s as [|c s]; cbn; [lia|]. specialize (IH s). lia.
Qed.

Lemma length_append (a b : string) :
  String.length (a ++ b) = String.length a + String.length b.
Proof. induction a as [|c a IH]; cbn; congruence. Qed.

End JobPagesFacts.


(** The scraper of the public LinkedIn page makes one request, none when
    the company has no LinkedIn URL, and never throws: a failed request
    gives the empty result.  Its result is found exactly when the page
    shows a hiring indicator or a post that mentions a job keyword; a
    result that is not found is empty; and every title is a post cut to
    100 characters and followed by three dots. *)
Theorem linkedin_page_scraper_result
        (rt : runtime) (fetch : string -> nat -> http JobPages.page)
        (company : object) (w : world) :
  let linkedinUrl :=
    or_else (get "linkedin_url" company) (get "linkedin" company) in
  exists r w',
    JobPages.scrapeLinkedInPublic rt fetch company w = (Ok r, w')
    /\ (JobScraperFallback.Method.found r = false ->
        r = JobScraperFallback.Method.empty)
    /\ Forall (fun t => String.length t <= 103
                        /\ exists post,
                             t = (JobPages.substring_to 100 (trim post) ++ "...")%string)
              (JobScraperFallback.Method.titles r)
    /\ (if truthy linkedinUrl
        then w' = mkWorld (S (tick w)) (LinkedInPublic :: trace w)
             /\ match fetch (to_string rt linkedinUrl) (tick w) with
                | Failure _ => r = JobScraperFallback.Method.empty
                | Response p =>
                    JobScraperFallback.Method.found r
                    = JobPages.hasHiringSignals JobPages.linkedinIndicators p
                      || existsb (fun post => JobPages.containsJobKeywords
                                                (toLowerCase post))
                                 (JobPages.elements p)
                end
        else w' = w /\ r = JobScraperFallback.Method.empty).
Proof.
  cbn zeta. unfold JobPages.scrapeLinkedInPublic.
  destruct (truthy (or_else (get "linkedin_url" company) (get "linkedin" company)));
    cbn [negb].
  - unfold bind, interact.
    destruct (fetch _ (tick w)) as [p|e].
    + unfold ret. eexists _, _. split; [reflexivity|].
      destruct (notes_keep JobPages.post_title (JobPages.elements p)
                  JobScraperFallback.Method.empty empty_needs_title)
        as (G1 & G2 & G3 & G4).
      cbn [JobPages.with_found JobScraperFallback.Method.found
           JobScraperFallback.Method.titles].
      split; [|split; [|split; [reflexivity|]]].
      * intros H. apply Bool.orb_false_iff in H as [Hs H].
        assert (Hnone : JobScraperFallback.Method.titles
                          (fold_left (JobPages.note JobPages.post_title)
                                     (JobPages.elements p)
                                     JobScraperFallback.Method.empty) = []).
        { destruct (JobScraperFallback.Method.titles _);
            [reflexivity | discriminate]. }
        rewrite (G3 Hnone), Hs. reflexivity.
      * eapply Forall_impl; [|apply G4; constructor].
        intros t [post ->]. split; [|now exists post].
        unfold JobPages.post_title. rewrite length_append.
        pose proof (substring_to_length 100 (trim post)) as H.
        unfold JobPages.substring_to. cbn [String.length]. lia.
      * f_equal.
        assert (Hcount : forall elems r0,
                   Nat.ltb 0 (List.length (JobScraperFallback.Method.titles
                      (fold_left (JobPages.note JobPages.post_title) elems r0)))
                   = Nat.ltb 0 (List.length (JobScraperFallback.Method.titles r0))
                     || existsb (fun post => JobPages.containsJobKeywords
                                               (toLowerCase post)) elems).
        { induction elems as [|e elems IH]; intros r0; cbn [fold_left existsb].
          - now rewrite Bool.orb_false_r.
          - rewrite IH. unfold JobPages.note.
            destruct (JobPages.containsJobKeywords (toLowerCase e));
              cbn [JobScraperFallback.Method.titles orb].
            + rewrite length_app. cbn [List.length].
              replace (Nat.ltb 0 (List.length (JobScraperFallback.Method.titles r0) + 1))
                with true by (symmetry; apply Nat.ltb_lt; lia).
              now rewrite Bool.orb_true_r.
            + reflexivity. }
        rewrite Hcount. reflexivity.
    + unfold ret. eexists _, _. split; [reflexivity|].
      split; [reflexivity|]. split; [constructor|]. split; reflexivity.
  - unfold ret. eexists _, _. split; [reflexivity|].
    split; [reflexivity|]. split; [constructor|]. split; reflexivity.
Qed.

(** ** The page scrapers of the funding fallback *)

Lemma includes_here (s p : string) :
  String.prefix p s = true -> includes s p = true.
Proof. intros H. destruct s; cbn [includes]; now rewrite H. Qed.

Lemma includes_later (c : ascii) (s p : string) :
  includes s p = true -> includes (String c s) p = true.
Proof. intros H. cbn [includes]. rewrite H. apply Bool.orb_true_r. Qed.

Lemma prefix_append_includes (a b s : string) :
  String.prefix (a ++ b) s = true -> includes s b = true.
Proof.
  revert s. induction a as [|c a IH]; intros s H.
  - now apply includes_here.
  - destruct s as [|d s]; [discriminate|]. cbn [append String.prefix] in H.
    destruct (ascii_dec c d); [|discriminate].
    apply includes_later. now apply IH.
Qed.

(** A text that includes a pattern includes every ending of the pattern. *)
Lemma includes_ending (a b s : string) :
  includes s (a ++ b) = true -> includes s b = true.
Proof.
  induction s as [|c s IH]; cbn [includes]; intros H;
    apply Bool.orb_true_iff in H as [H | H].
  - now apply (prefix_append_includes a b "").
  - discriminate.
  - now apply (prefix_append_includes a b (String c s)).
  - apply includes_later. now apply IH.
Qed.

(** The round type that [extractFundingInfo] records. *)
Lemma round_type_values (lowerText : string) :
  let roundType :=
    FundingPages.or_string
      match find (fun round => includes lowerText round) FundingPages.roundPatterns with
      | Some round => round
      | None => ""
      end "funding" in
  roundType <> "pre-seed"
  /\ In roundType [ "series a"; "series b"; "series c"; "series d"; "seed";
                    "angel"; "bridge"; "ipo"; "funding" ]
  /\ (includes lowerText "seed" = true ->
      In roundType ["series a"; "series b"; "series c"; "series d"; "seed"]).
Proof.
  cbn zeta. unfold FundingPages.roundPatterns, FundingPages.or_string. cbn [find].
  pose proof (includes_ending "pre-" "seed" lowerText) as Hseed.
  cbn [append] in Hseed.
  destruct (includes lowerText "series a");
    [cbn; split; [discriminate | tauto]|].
  destruct (includes lowerText "series b");
    [cbn; split; [discriminate | tauto]|].
  destruct (includes lowerText "series c");
    [cbn; split; [discriminate | tauto]|].
  destruct (includes lowerText "series d");
    [cbn; split; [discriminate | tauto]|].
  destruct (includes lowerText "seed");
    [cbn; split; [discriminate | tauto]|].
  destruct (includes lowerText "pre-seed");
    [specialize (Hseed eq_refl); discriminate|].
  destruct (includes lowerText "angel");
    [cbn; split; [discriminate | split; [tauto | discriminate]]|].
  destruct (includes lowerText "bridge");
    [cbn; split; [discriminate | split; [tauto | discriminate]]|].
  destruct (includes lowerText "ipo");
    cbn; (split; [discriminate | split; [tauto | discriminate]]).
Qed.

Section FundingPagesFacts.
Context (rt : runtime).
Context (RegExp_match : string -> string -> string -> option string).
Context (URL_resolve : string -> string -> option string).
Context (fetch_press : string -> nat -> http (list FundingPages.element)).
Context (fetch_linkedin : string -> nat -> http (list string)).

Import FundingScraperFallback.
Import FundingPages.

Local Abbreviation extractFundingInfo := (extractFundingInfo rt RegExp_match).

Lemma extractFundingInfo_cases (originalText lowerText : string) :
  (containsFundingKeywords lowerText = true ->
   exists round, extractFundingInfo originalText lowerText = Some round)
  /\ (forall round,
         extractFundingInfo originalText lowerText = Some round ->
         type round <> "pre-seed"
         /\ In (type round)
               [ "series a"; "series b"; "series c"; "series d"; "seed";
                 "angel"; "bridge"; "ipo"; "funding" ]
         /\ (includes lowerText "seed" = true ->
             In (type round)
                ["series a"; "series b"; "series c"; "series d"; "seed"])
         /\ String.length (raw round) <= 103).
Proof.
  unfold FundingPages.extractFundingInfo. split.
  - intros H. rewrite H, !Bool.orb_true_r. eexists. reflexivity.
  - intros round.
    destruct (negb _ || negb _ || containsFundingKeywords lowerText);
      [|discriminate].
    intros [= <-]. cbn [type raw].
    destruct (round_type_values lowerText) as (H1 & H2 & H3).
    split; [exact H1|]. split; [exact H2|]. split; [exact H3|].
    rewrite length_append. cbn [String.length]. unfold substring_to.
    pose proof (substring_to_length 100 originalText). lia.
Qed.

(** What the two callbacks keep: a detail for every round, no round of
    type pre-seed, and details that name their source. *)
Let aligned (label : string) (r : Method.t) : Prop :=
  List.length (Method.rounds r) = List.length (Method.details r)
  /\ Forall (fun round => type round <> "pre-seed") (Method.rounds r)
  /\ Forall (fun d => source d = label) (Method.details r).

Lemma note_release_keeps (pressUrl : string) (r : Method.t) (elem : element) :
  aligned "press_release" r ->
  aligned "press_release" (note_release rt RegExp_match pressUrl r elem)
  /\ (Method.rounds (note_release rt RegExp_match pressUrl r elem) = [] ->
      note_release rt RegExp_match pressUrl r elem = r).
Proof.
  intros (H1 & H2 & H3). unfold note_release.
  destruct (containsFundingKeywords (toLowerCase (elem_text elem)));
    [|now repeat split].
  destruct (extractFundingInfo (elem_text elem) (toLowerCase (elem_text elem)))
    as [info|] eqn:E; [|now repeat split].
  destruct (extractFundingInfo_cases (elem_text elem)
              (toLowerCase (elem_text elem))) as [_ Hinfo].
  destruct (Hinfo info E) as (Htype & _).
  unfold aligned. cbn [Method.rounds Method.details].
  split; [split; [|split]|].
  - rewrite !length_app. cbn. lia.
  - apply Forall_app. split; [exact H2 | now repeat constructor].
  - apply Forall_app. split; [exact H3 | now repeat constructor].
  - intros H. now destruct (Method.rounds r).
Qed.

Lemma notes_release_keep (pressUrl : string) (elems : list element)
      (r : Method.t) :
  aligned "press_release" r ->
  aligned "press_release"
    (fold_left (note_release rt RegExp_match pressUrl) elems r)
  /\ (Method.rounds (fold_left (note_release rt RegExp_match pressUrl) elems r)
      = [] ->
      fold_left (note_release rt RegExp_match pressUrl) elems r = r).
Proof.
  revert r. induction elems as [|e elems IH]; intros r Hr; cbn [fold_left].
  - now split.
  - destruct (note_release_keeps pressUrl r e Hr) as [H1 H2].
    destruct (IH _ H1) as [G1 G2]. split; [exact G1|].
    intros H. pose proof (G2 H) as E. rewrite E in H. rewrite E. now apply H2.
Qed.

Lemma note_post_keeps (linkedinUrl : string) (r : Method.t) (post : string) :
  aligned "linkedin_announcement" r ->
  (Method.found r = true <-> Method.rounds r <> []) ->
  aligned "linkedin_announcement"
    (note_post rt RegExp_match linkedinUrl r post)
  /\ (Method.found (note_post rt RegExp_match linkedinUrl r post) = true
      <-> Method.rounds (note_post rt RegExp_match linkedinUrl r post) <> []).
Proof.
  intros (H1 & H2 & H3) Hf. unfold note_post.
  destruct (containsFundingKeywords (toLowerCase post));
    [|split; [now repeat split | exact Hf]].
  destruct (extractFundingInfo post (toLowerCase post)) as [info|] eqn:E;
    [|split; [now repeat split | exact Hf]].
  destruct (extractFundingInfo_cases post (toLowerCase post)) as [_ Hinfo].
  destruct (Hinfo info E) as (Htype & _).
  unfold aligned. cbn [Method.rounds Method.details Method.found].
  split; [split; [|split]|].
  - rewrite !length_app. cbn. lia.
  - apply Forall_app. split; [exact H2 | now repeat constructor].
  - apply Forall_app. split; [exact H3 | now repeat constructor].
  - split; [|reflexivity]. intros _ H. now destruct (Method.rounds r).
Qed.

Lemma notes_post_keep (linkedinUrl : string) (posts : list string)
      (r : Method.t) :
  aligned "linkedin_announcement" r ->
  (Method.found r = true <-> Method.rounds r <> []) ->
  aligned "linkedin_announcement"
    (fold_left (note_post rt RegExp_match linkedinUrl) posts r)
  /\ (Method.found (fold_left (note_post rt RegExp_match linkedinUrl) posts r)
      = true
      <-> Method.rounds (fold_left (note_post rt RegExp_match linkedinUrl) posts r)
          <> []).
Proof.
  revert r. induction posts as [|p posts IH]; intros r Hr Hf; cbn [fold_left].
  - now split.
  - destruct (note_post_keeps linkedinUrl r p Hr Hf) as [H1 H2]. now apply IH.
Qed.

Lemma empty_aligned (label : string) :
  aligned label Method.empty
  /\ (Method.found Method.empty = true <-> Method.rounds Method.empty <> []).
Proof.
  split; [repeat split; constructor|]. cbn. split; [discriminate | now intros H].
Qed.

(** The loop over the press paths, entered with the empty result. *)
Lemma press_visit_outcome (website : string) (paths : list string) (w : world) :
  exists r w' k,
    visit rt RegExp_match URL_resolve fetch_press website paths Method.empty w
    = (Ok r, w')
    /\ k <= List.length paths
    /\ tick w' = tick w + k
    /\ trace w' = repeat PressReleases k ++ trace w
    /\ aligned "press_release" r
    /\ (Method.found r = true <-> Method.rounds r <> []).
Proof.
  revert w. induction paths as [|path rest IH]; intros w;
    cbn [visit List.length].
  - exists Method.empty, w, 0. unfold ret.
    destruct (empty_aligned "press_release") as [H1 H2].
    cbn [tick trace repeat app]. repeat split; auto; try lia; apply H2.
  - assert (Hskip : forall w1 k1,
               tick w1 = tick w + k1 ->
               trace w1 = repeat PressReleases k1 ++ trace w ->
               k1 <= 1 ->
               exists r w' k,
                 visit rt RegExp_match URL_resolve fetch_press website rest
                   Method.empty w1 = (Ok r, w')
                 /\ k <= S (List.length rest)
                 /\ tick w' = tick w + k
                 /\ trace w' = repeat PressReleases k ++ trace w
                 /\ aligned "press_release" r
                 /\ (Method.found r = true <-> Method.rounds r <> [])).
    { intros w1 k1 Ht Htr Hk1.
      destruct (IH w1) as (r & w' & k & E & Hk & Ht' & Htr' & Ha & Hf).
      exists r, w', (k + k1). split; [exact E|]. split; [lia|].
      split; [lia|]. split; [|now split].
      rewrite Htr', Htr, repeat_app, app_assoc. reflexivity. }
    destruct (URL_resolve path website) as [pressUrl|].
    + unfold bind, interact.
      destruct (fetch_press pressUrl (tick w)) as [elems|e].
      * destruct (notes_release_keep pressUrl elems Method.empty
                    (proj1 (empty_aligned "press_release"))) as [G1 G2].
        destruct (Nat.ltb 0 (List.length (Method.rounds
                    (fold_left (note_release rt RegExp_match pressUrl) elems
                               Method.empty)))) eqn:Ehit.
        -- unfold ret. eexists _, _, 1. split; [reflexivity|].
           cbn [tick trace Method.found Method.rounds Method.details].
           split; [lia|]. split; [lia|]. split; [reflexivity|].
           split; [exact G1|]. split; [|reflexivity].
           intros _ H. rewrite H in Ehit. discriminate.
        -- assert (Hnone : Method.rounds
                             (fold_left (note_release rt RegExp_match pressUrl)
                                        elems Method.empty) = []).
           { destruct (Method.rounds _); [reflexivity | discriminate]. }
           rewrite (G2 Hnone).
           apply (Hskip _ 1); cbn; auto; lia.
      * apply (Hskip _ 1); cbn; auto; lia.
    + apply (Hskip w 0); cbn; auto; lia.
Qed.

End FundingPagesFacts.
(** What [extractFundingInfo] makes of a text.  A text that mentions a
    funding keyword always yields a round, so the callers never skip such a
    text.  The type of a round is never pre-seed: that pattern is tried
    after seed, which every text that mentions pre-seed mentions too, so
    such a text is recorded as a seed round or as one of the series.  The
    raw text kept is at most 103 characters long. *)
Theorem funding_round_is_never_pre_seed
        (rt : runtime)
        (RegExp_match : string -> string -> string -> option string)
        (originalText lowerText : string) :
  (FundingPages.containsFundingKeywords lowerText = true ->
   exists round,
     FundingPages.extractFundingInfo rt RegExp_match originalText lowerText
     = Some round)
  /\ (forall round,
         FundingPages.extractFundingInfo rt RegExp_match originalText lowerText
         = Some round ->
         FundingScraperFallback.type round <> "pre-seed"
         /\ In (FundingScraperFallback.type round)
               [ "series a"; "series b"; "series c"; "series d"; "seed";
                 "angel"; "bridge"; "ipo"; "funding" ]
         /\ (includes lowerText "pre-seed" = true ->
             In (FundingScraperFallback.type round)
                ["series a"; "series b"; "series c"; "series d"; "seed"])
         /\ String.length (FundingScraperFallback.raw round) <= 103).
Proof.
  destruct (extractFundingInfo_cases rt RegExp_match originalText lowerText)
    as [H1 H2].
  split; [exact H1|]. intros round E.
  destruct (H2 round E) as (G1 & G2 & G3 & G4).
  split; [exact G1|]. split; [exact G2|]. split; [|exact G4].
  intros Hpre. apply G3. now apply (includes_ending "pre-" "seed").
Qed.

(** The two page scrapers of the funding fallback never throw.  The press
    scraper makes at most thirteen requests, none without a website; the
    LinkedIn scraper makes one, none without a LinkedIn URL.  In both
    results there is one detail for every round, each detail names its
    source, no round is of type pre-seed, and the result is found exactly
    when it holds a round. *)
Theorem funding_page_scrapers_results
        (rt : runtime)
        (RegExp_match : string -> string -> string -> option string)
        (URL_resolve : string -> string -> option string)
        (fetch_press : string -> nat -> http (list FundingPages.element))
        (fetch_linkedin : string -> nat -> http (list string))
        (company : object) (w : world) :
  let sound := fun label r =>
    List.length (FundingScraperFallback.Method.rounds r)
    = List.length (FundingScraperFallback.Method.details r)
    /\ Forall (fun round => FundingScraperFallback.type round <> "pre-seed")
              (FundingScraperFallback.Method.rounds r)
    /\ Forall (fun d => FundingScraperFallback.source d = label)
              (FundingScraperFallback.Method.details r)
    /\ (FundingScraperFallback.Method.found r = true
        <-> FundingScraperFallback.Method.rounds r <> []) in
  (exists r w' k,
      FundingPages.scrapePressReleases rt RegExp_match URL_resolve fetch_press
        company w = (Ok r, w')
      /\ k <= 13
      /\ tick w' = tick w + k
      /\ trace w' = repeat PressReleases k ++ trace w
      /\ (truthy (get "website" company) = false -> k = 0)
      /\ sound "press_release" r)
  /\ (exists r w' k,
         FundingPages.scrapeLinkedInFunding rt RegExp_match fetch_linkedin
           company w = (Ok r, w')
         /\ k <= 1
         /\ tick w' = tick w + k
         /\ trace w' = repeat LinkedInAnnouncements k ++ trace w
         /\ (truthy (or_else (get "linkedin_url" company)
                             (get "linkedin" company)) = false -> k = 0)
         /\ sound "linkedin_announcement" r).
Proof.
  cbn zeta. split.
  - unfold FundingPages.scrapePressReleases.
    destruct (truthy (get "website" company)) eqn:Hweb; cbn [negb].
    + destruct (press_visit_outcome rt RegExp_match URL_resolve fetch_press
                  (to_string rt (get "website" company)) FundingPages.pressPaths w)
        as (r & w' & k & E & Hk & Ht & Htr & (A1 & A2 & A3) & Hf).
      exists r, w', k. split; [exact E|]. cbn in Hk.
      repeat split; auto; try discriminate; apply Hf.
    + exists FundingScraperFallback.Method.empty, w, 0. unfold ret. cbn.
      repeat split; auto; try lia; try constructor; try discriminate.
      all: try now intros H.
  - unfold FundingPages.scrapeLinkedInFunding.
    destruct (truthy (or_else (get "linkedin_url" company)
                              (get "linkedin" company))) eqn:Hli; cbn [negb].
    + unfold bind, interact.
      destruct (fetch_linkedin _ (tick w)) as [posts|e]; unfold ret.
      * destruct (empty_aligned "linkedin_announcement") as [E1 E2].
        destruct (notes_post_keep rt RegExp_match
                    (to_string rt (or_else (get "linkedin_url" company)
                                           (get "linkedin" company)))
                    posts FundingScraperFallback.Method.empty E1 E2)
          as [(A1 & A2 & A3) Hf].
        eexists _, _, 1. split; [reflexivity|]. cbn [tick trace repeat app].
        repeat split; auto; try lia; try discriminate; apply Hf.
      * eexists _, _, 1. split; [reflexivity|]. cbn.
        repeat split; auto; try lia; try constructor; try discriminate.
        all: try now intros H.
    + exists FundingScraperFallback.Method.empty, w, 0. unfold ret. cbn.
      repeat split; auto; try lia; try constructor; try discriminate.
      all: try now intros H.
Qed.

(** ** When the web search of the integrated analyzer runs *)

(** In the integrated jobs analyzer the web search is asked for a company
    exactly when the fallback was reached (the lookup failed or its data
    was insufficient), the data as merged with what the scrapers found is
    still not flagged as having recent jobs, and the company has more than
    50 employees.  When it is asked, it is asked once, after the scrapers'
    requests; when it is not, nothing happens after the scrapers. *)
Theorem web_search_follows_the_scrapers
        (rt : runtime) (net : JobScraperFallback.network)
        (web_search_answer : nat -> JobScraperFallback.results)
        (apiError : bool) (jobData : JobAnalyzerEnhanced.jobData)
        (company : object) (w : world) :
  invoked WebSearch w = false ->
  exists fallbackData w1 d w',
    JobAnalyzerIntegrated.findJobOpenings net company w = (Ok fallbackData, w1)
    /\ JobAnalyzerIntegrated.fallback_steps rt net web_search_answer apiError
         jobData company w = (Ok d, w')
    /\ invoked WebSearch w'
       = (apiError || JobAnalyzerIntegrated.shouldUseFallback rt jobData company)
         && negb (JobAnalyzerEnhanced.has_recent_jobs
                    (if JobScraperFallback.found fallbackData
                     then JobAnalyzerIntegrated.mergeFallbackData jobData
                            fallbackData "scraping"
                     else jobData))
         && gt rt (get "employee_count" company) 50
    /\ (invoked WebSearch w' = true ->
        w' = mkWorld (S (tick w1)) (WebSearch :: trace w1))
    /\ (invoked WebSearch w' = false ->
        w' = if apiError
                || JobAnalyzerIntegrated.shouldUseFallback rt jobData company
             then w1 else w).
Proof.
  intros Hw.
  destruct (real_findJobOpenings_run net company w)
    as (fallbackData & w1 & Hrun & Hweb & _).
  exists fallbackData, w1. unfold JobAnalyzerIntegrated.fallback_steps.
  destruct (apiError || JobAnalyzerIntegrated.shouldUseFallback rt jobData company).
  - unfold bind. rewrite Hrun.
    set (scraped := if JobScraperFallback.found fallbackData
                    then JobAnalyzerIntegrated.mergeFallbackData jobData
                           fallbackData "scraping"
                    else jobData).
    unfold JobAnalyzerIntegrated.stillNeedsMore.
    destruct (negb (JobAnalyzerEnhanced.has_recent_jobs scraped)
              && gt rt (get "employee_count" company) 50) eqn:Hmore.
    + unfold interact.
      destruct (JobScraperFallback.found (web_search_answer (tick w1)));
        unfold ret; eexists _, _; (split; [reflexivity|]);
        (split; [reflexivity|]);
        (split; [unfold invoked; cbn [trace existsb call_eqb orb andb];
                 now rewrite Hmore|]);
        (split; [reflexivity | discriminate]).
    + unfold ret. eexists _, _. split; [reflexivity|]. split; [reflexivity|].
      cbn [andb]. rewrite Hweb, Hw, Hmore.
      split; [reflexivity|]. split; [discriminate | reflexivity].
  - unfold ret. exists jobData, w. split; [exact Hrun|].
    split; [reflexivity|]. rewrite Hw. cbn [andb].
    split; [reflexivity|]. split; [discriminate | reflexivity].
Qed.

Lemma web_search_follows_the_scrapers_witness :
  invoked WebSearch Demo.start = false
  /\ exists fallbackData w1 d w',
       JobAnalyzerIntegrated.findJobOpenings Demo.silent_jobs (Demo.company 60)
         Demo.start = (Ok fallbackData, w1)
       /\ JobAnalyzerIntegrated.fallback_steps Demo.rt Demo.silent_jobs
            (fun _ => JobScraperFallback.initial) true
            (JobAnalyzerEnhanced.analysis (fun _ => true) [])
            (Demo.company 60) Demo.start = (Ok d, w')
       /\ invoked WebSearch w'
          = (true || JobAnalyzerIntegrated.shouldUseFallback Demo.rt
                       (JobAnalyzerEnhanced.analysis (fun _ => true) [])
                       (Demo.company 60))
            && negb (JobAnalyzerEnhanced.has_recent_jobs
                       (if JobScraperFallback.found fallbackData
                        then JobAnalyzerIntegrated.mergeFallbackData
                               (JobAnalyzerEnhanced.analysis (fun _ => true) [])
                               fallbackData "scraping"
                        else JobAnalyzerEnhanced.analysis (fun _ => true) []))
            && gt Demo.rt (get "employee_count" (Demo.company 60)) 50
       /\ (invoked WebSearch w' = true ->
           w' = mkWorld (S (tick w1)) (WebSearch :: trace w1))
       /\ (invoked WebSearch w' = false ->
           w' = if true
                   || JobAnalyzerIntegrated.shouldUseFallback Demo.rt
                        (JobAnalyzerEnhanced.analysis (fun _ => true) [])
                        (Demo.company 60)
                then w1 else Demo.start).
Proof.
  split; [reflexivity|].
  exact (web_search_follows_the_scrapers Demo.rt Demo.silent_jobs
           (fun _ => JobScraperFallback.initial) true
           (JobAnalyzerEnhanced.analysis (fun _ => true) [])
           (Demo.company 60) Demo.start eq_refl).
Defined.

Lemma split_titles_join_witness :
  Forall (fun t => includes t "; " = false)
         ["Account Executive"; "Growth Lead"]
  /\ ["Account Executive"; "Growth Lead"] <> [""]
  /\ JobAnalyzerEnhanced.split_titles
       (join "; " ["Account Executive"; "Growth Lead"])
     = ["Account Executive"; "Growth Lead"].
Proof.
  assert (H1 : Forall (fun t => includes t "; " = false)
                      ["Account Executive"; "Growth Lead"])
    by (repeat constructor).
  assert (H2 : ["Account Executive"; "Growth Lead"] <> [""]) by discriminate.
  split; [exact H1|]. split; [exact H2|].
  exact (split_titles_join ["Account Executive"; "Growth Lead"] H1 H2).
Defined.

(** ** When the fallback runs *)

(** The fallback of the jobs stage runs for a company exactly when the
    primary lookup returned data and that data shows no recent posting for
    a company of more than 20 employees, or fewer than two for a company of
    more than 50.  It never runs after a failed lookup, and never for data
    with two or more recent postings, however large the company. *)
Theorem job_fallback_runs_exactly_when_triggered
        (rt : runtime) (net : JobScraperFallback.network)
        (jobs_answer : nat -> http (list JobAnalyzerEnhanced.job))
        (isJobRecent : option string -> bool)
        (company : object) (w : world) :
  invoked SearchEngine w = false ->
  exists r w',
    JobAnalyzerEnhanced.fuse rt net jobs_answer isJobRecent company w = (r, w')
    /\ (invoked SearchEngine w' = true <->
        exists d w1,
          JobAnalyzerEnhanced.getJobDataWithRetry jobs_answer isJobRecent
            company w = (Ok d, w1)
          /\ ((JobAnalyzerEnhanced.recent_job_count d = 0
               /\ gt rt (get "employee_count" company) 20 = true)
              \/ (JobAnalyzerEnhanced.recent_job_count d < 2
                  /\ gt rt (get "employee_count" company) 50 = true))).
Proof.
  intros Hw.
  destruct (getJobDataWithRetry_requests jobs_answer isJobRecent company w)
    as (r & w1 & k & E & _ & _ & Htr & Hr).
  assert (Hw1 : invoked SearchEngine w1 = false).
  { unfold invoked in *. rewrite Htr, invoked_after_primary; [exact Hw|].
    discriminate. }
  unfold JobAnalyzerEnhanced.fuse, bind. rewrite E.
  destruct r as [d|e].
  - unfold JobAnalyzerEnhanced.shouldUseFallback. rewrite Hr. cbn [negb].
    destruct (Nat.eqb (JobAnalyzerEnhanced.recent_job_count d) 0
              && gt rt (get "employee_count" company) 20) eqn:E1.
    + destruct (findJobOpenings_run rt net company w1)
        as (career & linkedin & w2 & Hrun & Hs).
      rewrite Hrun.
      exists (Ok (if JobScraperFallback.found
                       (Fusion.job_tiers career (Fusion.google_method rt company)
                                         linkedin)
                  then JobAnalyzerEnhanced.mergeFallbackData d
                         (Fusion.job_tiers career
                            (Fusion.google_method rt company) linkedin)
                  else d)), w2.
      split; [now destruct (JobScraperFallback.found _)|].
      split; [|intros _; exact Hs].
      intros _. exists d, w1. split; [reflexivity|]. left.
      apply Bool.andb_true_iff in E1 as [E1 E2].
      apply Nat.eqb_eq in E1. now split.
    + destruct (Nat.ltb (JobAnalyzerEnhanced.recent_job_count d) 2
                && gt rt (get "employee_count" company) 50) eqn:E2.
      * destruct (findJobOpenings_run rt net company w1)
          as (career & linkedin & w2 & Hrun & Hs).
        rewrite Hrun.
        exists (Ok (if JobScraperFallback.found
                         (Fusion.job_tiers career
                            (Fusion.google_method rt company) linkedin)
                    then JobAnalyzerEnhanced.mergeFallbackData d
                           (Fusion.job_tiers career
                              (Fusion.google_method rt company) linkedin)
                    else d)), w2.
        split; [now destruct (JobScraperFallback.found _)|].
        split; [|intros _; exact Hs].
        intros _. exists d, w1. split; [reflexivity|]. right.
        apply Bool.andb_true_iff in E2 as [E2 E3].
        apply Nat.ltb_lt in E2. now split.
      * exists (Ok d), w1. unfold ret. split; [reflexivity|].
        rewrite Hw1. split; [discriminate|].
        intros (d' & w' & [= <- <-] & [[H0 Hg] | [H2 Hg]]).
        -- rewrite H0, Hg in E1. discriminate.
        -- apply Nat.ltb_lt in H2. rewrite H2, Hg in E2. discriminate.
  - exists (Throw e), w1. split; [reflexivity|].
    rewrite Hw1. split; [discriminate|].
    intros (d' & w' & [=] & _).
Qed.

Lemma job_fallback_runs_exactly_when_triggered_witness :
  invoked SearchEngine Demo.start = false
  /\ exists r w',
       JobAnalyzerEnhanced.fuse Demo.rt Demo.silent_jobs Demo.no_jobs
         (fun _ => true) (Demo.company 21) Demo.start = (r, w')
       /\ (invoked SearchEngine w' = true <->
           exists d w1,
             JobAnalyzerEnhanced.getJobDataWithRetry Demo.no_jobs (fun _ => true)
               (Demo.company 21) Demo.start = (Ok d, w1)
             /\ ((JobAnalyzerEnhanced.recent_job_count d = 0
                  /\ gt Demo.rt (get "employee_count" (Demo.company 21)) 20
                     = true)
                 \/ (JobAnalyzerEnhanced.recent_job_count d < 2
                     /\ gt Demo.rt (get "employee_count" (Demo.company 21)) 50
                        = true))).
Proof.
  split; [reflexivity|].
  exact (job_fallback_runs_exactly_when_triggered Demo.rt Demo.silent_jobs
           Demo.no_jobs (fun _ => true) (Demo.company 21) Demo.start eq_refl).
Defined.

(** ** The header line *)

(** Column names are written to the header line as they are, without
    quoting.  When no column name contains a comma or a double quote, the
    header line reads back as the column names, and every row has exactly
    as many fields as the header. *)
Theorem csv_rows_match_the_header (rt : runtime) (companies : list object) :
  Consolidator.orderedHeaders companies <> [] ->
  Forall (fun name => includes name "," = false
                      /\ includes name Consolidator.quote_mark = false)
         (Consolidator.orderedHeaders companies) ->
  fields (Consolidator.csvHeader companies)
  = Consolidator.orderedHeaders companies
  /\ Forall (fun row =>
               List.length (fields row)
               = List.length (fields (Consolidator.csvHeader companies)))
            (Consolidator.csvRows rt companies).
Proof.
  intros Hne Hplain.
  assert (Hheader : fields (Consolidator.csvHeader companies)
                    = Consolidator.orderedHeaders companies).
  { unfold Consolidator.csvHeader, join.
    destruct (Consolidator.orderedHeaders companies) as [|h hs];
      [now elim Hne|].
    apply fields_of_cells. eapply Forall_impl; [|exact Hplain].
    intros name [H1 H2]. now apply plain_self_contained. }
  split; [exact Hheader|]. rewrite Hheader.
  unfold Consolidator.csvRows. apply Forall_forall. intros row Hrow.
  apply in_map_iff in Hrow as (c & <- & _).
  unfold Consolidator.csvRow, join.
  destruct (Consolidator.orderedHeaders companies) as [|h hs] eqn:Eh;
    [now elim Hne|].
  cbn [map]. rewrite fields_of_cells.
  - cbn [List.length]. now rewrite length_map.
  - change (Forall self_contained
              (map (fun header => Consolidator.cell rt (get header c)) (h :: hs))).
    apply Forall_forall. intros t Ht. apply in_map_iff in Ht as (k & <- & _).
    apply cell_self_contained.
Qed.

Lemma csv_rows_match_the_header_witness :
  Consolidator.orderedHeaders [Demo.listed] <> []
  /\ Forall (fun name => includes name "," = false
                         /\ includes name Consolidator.quote_mark = false)
            (Consolidator.orderedHeaders [Demo.listed])
  /\ fields (Consolidator.csvHeader [Demo.listed])
     = Consolidator.orderedHeaders [Demo.listed]
  /\ Forall (fun row =>
               List.length (fields row)
               = List.length (fields (Consolidator.csvHeader [Demo.listed])))
            (Consolidator.csvRows Demo.rt [Demo.listed]).
Proof.
  assert (H1 : Consolidator.orderedHeaders [Demo.listed] <> [])
    by (vm_compute; discriminate).
  assert (H2 : Forall (fun name => includes name "," = false
                                   /\ includes name Consolidator.quote_mark = false)
                      (Consolidator.orderedHeaders [Demo.listed]))
    by (vm_compute; repeat constructor).
  split; [exact H1|]. split; [exact H2|].
  exact (csv_rows_match_the_header Demo.rt [Demo.listed] H1 H2).
Defined.

(** ** The range patterns of the employee stage *)

Lemma match_range_employees_matches
      (employees_follow : string -> bool) (s : string) (groups : string * string) :
  TargetRange.match_range_employees employees_follow s = Some groups ->
  EmployeeAnalyzer.match_range s <> None.
Proof.
  induction s as [|c s IH]; [discriminate|].
  cbn [TargetRange.match_range_employees EmployeeAnalyzer.match_range].
  destruct (EmployeeAnalyzer.digits (String c s)) as [[|a d1] [|sep rest]]; auto.
  destruct (Ascii.eqb sep "-"); auto.
  destruct (EmployeeAnalyzer.digits rest) as [[|b d2] after]; auto.
  intros _. discriminate.
Qed.

(** The second range pattern of [isInTargetRange] is never used: a range
    text in which it matches is one in which the first pattern matches, and
    the first decides.  With both patterns the function is the one with the
    first pattern alone, whatever may follow the two numbers. *)
Theorem employees_pattern_is_never_used
        (rt : runtime) (min max : float) (employees_follow : string -> bool)
        (employeeCount employeeRange : value) :
  TargetRange.isInTargetRange rt min max employees_follow
    employeeCount employeeRange
  = EmployeeAnalyzer.isInTargetRange rt min max employeeCount employeeRange.
Proof.
  unfold TargetRange.isInTargetRange, EmployeeAnalyzer.isInTargetRange.
  destruct (truthy employeeCount
            && negb (is_nan (parseInt rt (to_string rt employeeCount))));
    [reflexivity|].
  destruct employeeRange as [| |b|x|s|l]; try reflexivity.
  destruct (truthy (VStr s)) eqn:Ht.
  - destruct (EmployeeAnalyzer.match_range s) as [[a b]|] eqn:Hm;
      [reflexivity|].
    destruct (TargetRange.match_range_employees employees_follow s)
      as [groups|] eqn:He; [|reflexivity].
    apply match_range_employees_matches in He. contradiction.
  - cbn in Ht. destruct (String.eqb s "") eqn:E; [|discriminate].
    apply String.eqb_eq in E. subst s. reflexivity.
Qed.
